(** * Conversa: conversation turn engine, model routing and usage limits

    A shallow embedding of
      - [backend/src/services/ai.ts]       (AIService),
      - [backend/src/services/database.ts] (DatabaseService.checkTenantLimits),
      - [backend/src/middleware/auth.ts]   (validateWidgetAccess, checkUsageLimits),
      - the chat route [router.post('/message')],
    and the properties the specification states about them.

    JavaScript strings are sequences of UTF-16 code units; numbers that the
    code uses as counters, lengths and millisecond time stamps are integers
    and are modelled in [Z].

    One request is followed from arrival to answer.  The database is a
    record of tables that answers every query (a lost connection is not
    modelled), and no other request writes to it meanwhile.  What lies
    outside the repository (clock, calendar, UUID test, column defaults, rate
    limiter, provider SDKs) is the interface [Externals], about which nothing
    is assumed. *)

From Stdlib Require Import ZArith NArith List Bool Lia String Ascii.
From Stdlib Require Import Permutation Sorted DecimalString.
From Equations Require Import Equations.
Import ListNotations.

Local Open Scope Z_scope.

(* ===================================================================== *)
(** ** JavaScript strings *)
(* ===================================================================== *)

(** A string is the list of its UTF-16 code units. *)
Definition jsstring := list N.

(** An ASCII literal of the source, as code units. *)
Definition lit (s : string) : jsstring :=
  map N_of_ascii (list_ascii_of_string s).

Fixpoint jsstring_eqb (a b : jsstring) : bool :=
  match a, b with
  | [], [] => true
  | x :: a', y :: b' => N.eqb x y && jsstring_eqb a' b'
  | _, _ => false
  end.

(** [s.length] *)
Definition js_length (s : jsstring) : Z := Z.of_nat (List.length s).

(** A value used as a condition: the empty string is falsy. *)
Definition truthy (s : jsstring) : bool :=
  match s with [] => false | _ :: _ => true end.

(** [p] matches at the start of [s]. *)
Fixpoint startsWith (p s : jsstring) : bool :=
  match p, s with
  | [], _ => true
  | _ :: _, [] => false
  | a :: p', b :: s' => N.eqb a b && startsWith p' s'
  end.

(** [s.includes(p)]: [p] matches at some position of [s]. *)
Fixpoint includes (s p : jsstring) : bool :=
  startsWith p s ||
  match s with
  | [] => false
  | _ :: s' => includes s' p
  end.

(** [/k1|k2|...|kn/.test(s)] for literal alternatives: the engine scans the
    positions of [s] from the left and tries the alternatives in order at
    each one. *)
Fixpoint regexTest (alternatives : list jsstring) (s : jsstring) : bool :=
  existsb (fun k => startsWith k s) alternatives ||
  match s with
  | [] => false
  | _ :: s' => regexTest alternatives s'
  end.

(** The lower-case form of one code unit.  [A]-[Z] map to [a]-[z].  Outside
    ASCII only two characters have a lower-case form that holds an ASCII
    code unit: U+212A (Kelvin sign) gives [k] and U+0130 gives [i] followed
    by U+0307.  Every other code unit has a lower-case form outside ASCII
    and is left as it is here; the patterns tested on lower-cased text in
    this program are ASCII only, so such a unit matches nothing either
    way. *)
Definition lowerUnit (c : N) : jsstring :=
  if (65 <=? c)%N && (c <=? 90)%N then [(c + 32)%N]
  else if (c =? 8490)%N then [107%N]
  else if (c =? 304)%N then [105%N; 775%N]
  else [c].

(** [s.toLowerCase()] *)
Definition toLowerCase (s : jsstring) : jsstring := flat_map lowerUnit s.

(** [(s.match(/c/g) || []).length]: the number of occurrences of one
    character. *)
Definition countMatches (c : N) (s : jsstring) : Z :=
  Z.of_nat (List.length (filter (N.eqb c) s)).

(** Decimal text of a non-negative integer, as in a template literal. *)
Definition numberToString (z : Z) : jsstring :=
  lit (NilZero.string_of_int (Z.to_int z)).

(* ===================================================================== *)
(** ** ai.ts: model identifiers, complexity, selection *)
(* ===================================================================== *)

(** [type AIModel = 'gpt-4' | 'gpt-4-turbo' | 'claude-3.5-sonnet' | 'gemini-pro'] *)
Inductive AIModel : Type :=
| gpt_4
| gpt_4_turbo
| claude_3_5_sonnet
| gemini_pro.

Definition AIModel_eqb (a b : AIModel) : bool :=
  match a, b with
  | gpt_4, gpt_4 | gpt_4_turbo, gpt_4_turbo
  | claude_3_5_sonnet, claude_3_5_sonnet | gemini_pro, gemini_pro => true
  | _, _ => false
  end.

(** The string each identifier stands for. *)
Definition modelName (m : AIModel) : jsstring :=
  match m with
  | gpt_4 => lit "gpt-4"
  | gpt_4_turbo => lit "gpt-4-turbo"
  | claude_3_5_sonnet => lit "claude-3.5-sonnet"
  | gemini_pro => lit "gemini-pro"
  end.

(** ['simple' | 'medium' | 'complex'] *)
Inductive Complexity : Type := simple | medium | complex.

(** [AIService.selectModelForTenant(plan, complexity)].  [plan] is a plain
    string in the source; the chat route always passes [complexity]. *)
Definition selectModelForTenant (plan : jsstring) (complexity : Complexity) : AIModel :=
  if jsstring_eqb plan (lit "enterprise") then
    match complexity with complex => claude_3_5_sonnet | _ => gpt_4_turbo end
  else if jsstring_eqb plan (lit "business") then
    match complexity with simple => gemini_pro | _ => gpt_4 end
  else if jsstring_eqb plan (lit "professional") then
    match complexity with complex => gpt_4 | _ => gemini_pro end
  else
    gemini_pro.

(** The alternatives of the pattern in [detectComplexity]:
    [/analiz|compar|evalua|explicar|detallar|complejo/]. *)
Definition keywords : list jsstring :=
  [ lit "analiz"; lit "compar"; lit "evalua";
    lit "explicar"; lit "detallar"; lit "complejo" ].

(** [AIService.detectComplexity(message)] *)
Definition detectComplexity (message : jsstring) : Complexity :=
  let length := js_length message in
  let hasQuestions := countMatches 63 message in
  let hasKeywords := regexTest keywords (toLowerCase message) in
  if (200 <? length) || (2 <? hasQuestions) || hasKeywords then complex
  else if (50 <? length) || (0 <? hasQuestions) then medium
  else simple.

(** *** The policy of the specification, section 4.2 *)

Inductive Plan : Type := starter | professional | business | enterprise.

Definition planName (p : Plan) : jsstring :=
  match p with
  | starter => lit "starter"
  | professional => lit "professional"
  | business => lit "business"
  | enterprise => lit "enterprise"
  end.

Inductive Tier : Type := economy | standard | premium_fast | premium_deep.

(** The policy table, row by row as the specification prints it. *)
Definition policy (p : Plan) (c : Complexity) : Tier :=
  match p, c with
  | enterprise, simple => premium_fast
  | enterprise, medium => premium_fast
  | enterprise, complex => premium_deep
  | business, simple => economy
  | business, medium => standard
  | business, complex => standard
  | professional, simple => economy
  | professional, medium => economy
  | professional, complex => standard
  | starter, _ => economy
  end.

Definition tierModel (t : Tier) : AIModel :=
  match t with
  | economy => gemini_pro
  | standard => gpt_4
  | premium_fast => gpt_4_turbo
  | premium_deep => claude_3_5_sonnet
  end.

(** The keyword examples of the specification, section 4.1. *)
Definition specKeywords : list jsstring :=
  [ lit "analyze"; lit "compare"; lit "evaluate";
    lit "explain in detail"; lit "complex" ].

(** [k] occurs in [s]: some text before it, some after. *)
Definition occursIn (k s : jsstring) : Prop :=
  exists pre post, s = pre ++ k ++ post.

(** A message contains a keyword when its lower-case form does. *)
Definition containsKeyword (ks : list jsstring) (message : jsstring) : Prop :=
  exists k, In k ks /\ occursIn k (toLowerCase message).

(* ===================================================================== *)
(** ** The persisted data (prisma/schema.prisma) *)
(* ===================================================================== *)

(** The [limits] column is free JSON; the code reads two numeric properties
    of it, either of which may be absent ([undefined]). *)
Record Limits : Type := {
  limits_conversations : option Z;
  limits_messages : option Z
}.

Record Tenant : Type := {
  tenant_id : jsstring;
  tenant_name : jsstring;
  tenant_plan : jsstring;
  tenant_limits : Limits;
  tenant_isActive : bool
}.

Record Chatbot : Type := {
  chatbot_id : jsstring;
  chatbot_systemPrompt : jsstring;
  chatbot_isActive : bool
}.

Record Widget : Type := {
  widget_id : jsstring;
  widget_isActive : bool;
  widget_tenantId : jsstring;
  widget_chatbotId : jsstring
}.

Record Conversation : Type := {
  conversation_id : jsstring;
  conversation_userId : option jsstring;
  conversation_status : jsstring;
  conversation_tenantId : jsstring;
  conversation_widgetId : option jsstring;
  conversation_chatbotId : option jsstring;
  conversation_createdAt : Z
}.

(** [sender] is a plain string column holding ['USER'] or ['BOT']. *)
Record Message : Type := {
  message_id : jsstring;
  message_content : jsstring;
  message_sender : jsstring;
  message_conversationId : jsstring;
  message_createdAt : Z
}.

(** The tables, each in insertion order. *)
Record DB : Type := {
  tenants : list Tenant;
  chatbots : list Chatbot;
  widgets : list Widget;
  conversations : list Conversation;
  messages : list Message
}.

Definition USER : jsstring := lit "USER".
Definition BOT : jsstring := lit "BOT".
Definition ACTIVE : jsstring := lit "ACTIVE".

(** [findUnique({ where: { id } })] on each table. *)
Definition tenant_findUnique (d : DB) (id : jsstring) : option Tenant :=
  find (fun t => jsstring_eqb (tenant_id t) id) (tenants d).

Definition chatbot_findUnique (d : DB) (id : jsstring) : option Chatbot :=
  find (fun c => jsstring_eqb (chatbot_id c) id) (chatbots d).

Definition widget_findUnique (d : DB) (id : jsstring) : option Widget :=
  find (fun w => jsstring_eqb (widget_id w) id) (widgets d).

Definition conversation_findUnique (d : DB) (id : jsstring) : option Conversation :=
  find (fun c => jsstring_eqb (conversation_id c) id) (conversations d).

(** The messages of one conversation, in insertion order. *)
Definition messagesOf (d : DB) (conversationId : jsstring) : list Message :=
  filter (fun m => jsstring_eqb (message_conversationId m) conversationId) (messages d).

(** [orderBy: { createdAt: 'desc' }]: newest first. *)
Fixpoint insertDesc (m : Message) (l : list Message) : list Message :=
  match l with
  | [] => [m]
  | x :: l' =>
      if message_createdAt x <=? message_createdAt m then m :: l
      else x :: insertDesc m l'
  end.

Definition orderByCreatedAtDesc (l : list Message) : list Message :=
  fold_right insertDesc [] l.

(** [include: { messages: { orderBy: { createdAt: 'desc' }, take: 10 } }] *)
Definition includeMessages (d : DB) (conversationId : jsstring) : list Message :=
  firstn 10 (orderByCreatedAtDesc (messagesOf d conversationId)).

(** [conversation.count({ where: { tenantId, createdAt: { gte } } })] *)
Definition conversation_count (d : DB) (tenantId : jsstring) (gte : Z) : Z :=
  Z.of_nat (List.length
    (filter (fun c => jsstring_eqb (conversation_tenantId c) tenantId
                      && (gte <=? conversation_createdAt c))
            (conversations d))).

(** [message.count({ where: { conversation: { tenantId }, createdAt: { gte } } })] *)
Definition message_count (d : DB) (tenantId : jsstring) (gte : Z) : Z :=
  Z.of_nat (List.length
    (filter (fun m =>
               match conversation_findUnique d (message_conversationId m) with
               | Some c => jsstring_eqb (conversation_tenantId c) tenantId
               | None => false
               end && (gte <=? message_createdAt m))
            (messages d))).

Definition insertConversation (c : Conversation) (d : DB) : DB :=
  {| tenants := tenants d; chatbots := chatbots d; widgets := widgets d;
     conversations := conversations d ++ [c]; messages := messages d |}.

Definition insertMessage (m : Message) (d : DB) : DB :=
  {| tenants := tenants d; chatbots := chatbots d; widgets := widgets d;
     conversations := conversations d; messages := messages d ++ [m] |}.

(* ===================================================================== *)
(** ** What the AI service exchanges with its callers and providers *)
(* ===================================================================== *)

Inductive Role : Type := user | assistant.

Record HistoryEntry : Type := {
  role : Role;
  content : jsstring
}.

Record Metadata : Type := {
  userAgent : option jsstring;
  url : option jsstring;
  referrer : option jsstring
}.

(** [interface ChatContext] *)
Record ChatContext : Type := {
  conversationHistory : option (list HistoryEntry);
  systemPrompt : option jsstring;
  companyInfo : option jsstring;
  userInfo : option Metadata
}.

(** [interface AIResponse].  The [cost] estimate is floating-point
    arithmetic on the token count and is left out. *)
Record AIResponse : Type := {
  response_content : jsstring;
  response_model : jsstring;
  response_tokensUsed : option Z;
  responseTime : Z
}.

(** The parts of each provider's reply that the adapters read. *)
Record OpenAICompletion : Type := {
  choice_content : option jsstring;      (* choices[0]?.message?.content *)
  usage_total_tokens : option Z          (* usage?.total_tokens *)
}.

Record AnthropicMessage : Type := {
  first_text : option jsstring;          (* content[0] when it is a text block *)
  input_tokens : Z;
  output_tokens : Z
}.

(** One invocation of a provider backend, as the adapters make it. *)
Record ProviderCall : Type := {
  call_model : AIModel;
  call_message : jsstring;
  call_context : ChatContext
}.

(** The issues [chatMessageSchema] can raise on a body whose fields have
    their JSON types. *)
Inductive ZodIssue : Type :=
| message_required          (* message absent *)
| message_empty             (* 'El mensaje no puede estar vacio' *)
| message_too_long          (* 'El mensaje es demasiado largo' *)
| conversationId_invalid    (* not a UUID *)
| widgetId_required         (* widgetId absent *)
| widgetId_invalid.         (* 'Widget ID invalido' *)

(** A thrown value: a [ZodError] with its issues, or another error with its
    [message]. *)
Inductive JsError : Type :=
| ZodError (errors : list ZodIssue)
| Error (message : jsstring).

(* ===================================================================== *)
(** ** The world outside the program *)
(* ===================================================================== *)

(** The collaborators the code calls but does not define: the clock, the
    calendar, the validation library's UUID test, the database's column
    defaults, the rate limiter, and the three provider SDKs.  [Env] is the
    state of that outside world; a call that can change it returns the next
    state.  A provider call that answers [None] is one that throws (time-out,
    quota, authentication, malformed reply). *)
Class Externals : Type := {
  Env : Type;
  (** [Date.now()] *)
  Date_now : Env -> Z;
  (** [d.setDate(1); d.setHours(0, 0, 0, 0)] on the instant [d] *)
  startOfMonth : Z -> Z;
  (** [z.string().uuid()] *)
  isUuid : jsstring -> bool;
  (** [@default(cuid())] and [@default(now())] for a new row *)
  rowDefaults : Env -> (jsstring * Z) * Env;
  (** [chatLimiter]: does this request go over 30 per minute for its IP *)
  rateLimited : Env -> bool * Env;
  (** [openai.chat.completions.create], given the wire model name *)
  openai_create :
    jsstring -> jsstring -> ChatContext -> Env -> option OpenAICompletion * Env;
  (** [anthropic.messages.create] *)
  anthropic_create :
    jsstring -> ChatContext -> Env -> option AnthropicMessage * Env;
  (** [model.generateContent] followed by [response.text()] *)
  gemini_generateContent :
    jsstring -> ChatContext -> Env -> option jsstring * Env
}.

(** How an [async] function ends. *)
Inductive Outcome (A : Type) : Type :=
| Returned (a : A)
| Thrown (e : JsError).
Arguments Returned {A} a.
Arguments Thrown {A} e.

Section Program.

Context {X : Externals}.

(** The state one request runs in: the outside world, the database, and the
    record of provider invocations made so far. *)
Record World : Type := {
  env : Env;
  db : DB;
  calls : list ProviderCall
}.

(** An [async] computation: it runs from a world and either returns or
    throws, leaving a world behind. *)
Definition M (A : Type) : Type := World -> Outcome A * World.

Definition ret {A} (a : A) : M A := fun w => (Returned a, w).

Definition throw {A} (e : JsError) : M A := fun w => (Thrown e, w).

Definition bind {A B} (c : M A) (k : A -> M B) : M B :=
  fun w =>
    match c w with
    | (Returned a, w') => k a w'
    | (Thrown e, w') => (Thrown e, w')
    end.

(** [try { c } catch (error) { handler(error) }] *)
Definition try_catch {A} (c : M A) (handler : JsError -> M A) : M A :=
  fun w =>
    match c w with
    | (Returned a, w') => (Returned a, w')
    | (Thrown e, w') => handler e w'
    end.

Definition getDb : M DB := fun w => (Returned (db w), w).

Definition now : M Z := fun w => (Returned (Date_now (env w)), w).

Definition modifyDb (f : DB -> DB) : M unit :=
  fun w => (Returned tt, {| env := env w; db := f (db w); calls := calls w |}).

(** Run a call on the outside world. *)
Definition external {A} (f : Env -> A * Env) : M A :=
  fun w =>
    let (a, e) := f (env w) in
    (Returned a, {| env := e; db := db w; calls := calls w |}).

(** Note one provider invocation in the record. *)
Definition invoked (c : ProviderCall) : M unit :=
  fun w => (Returned tt, {| env := env w; db := db w; calls := calls w ++ [c] |}).

End Program.

Declare Scope async_scope.
Delimit Scope async_scope with async.
Notation "x <- c ;; k" := (bind c (fun x => k))
  (at level 61, c at next level, right associativity) : async_scope.
Notation "c ;;; k" := (bind c (fun _ => k))
  (at level 61, right associativity) : async_scope.

Local Open Scope async_scope.

(* ===================================================================== *)
(** ** ai.ts: adapters and [generateResponse] *)
(* ===================================================================== *)

Section AIService.

Context {X : Externals}.

(** [x || ''] *)
Definition orEmpty (x : option jsstring) : jsstring :=
  match x with
  | Some s => s
  | None => []
  end.

(** [generateOpenAIResponse(message, context, model)].  The request the
    adapter builds (system prompt, history, message) is a function of
    [message] and [context], which is what the SDK is handed here; the wire
    model name is ['gpt-4-1106-preview'] for ['gpt-4-turbo'] and ['gpt-4']
    otherwise.  Whatever the SDK throws is rethrown; [generateResponse]
    catches it and looks at nothing in it. *)
Definition generateOpenAIResponse
    (message : jsstring) (context : ChatContext) (model : AIModel) : M AIResponse :=
  invoked {| call_model := model; call_message := message; call_context := context |} ;;;
  completion <- external
    (openai_create
       (if AIModel_eqb model gpt_4_turbo then lit "gpt-4-1106-preview" else lit "gpt-4")
       message context) ;;
  match completion with
  | None => throw (Error (lit "openai"))
  | Some completion =>
      ret {| response_content := orEmpty (choice_content completion);
             response_model := modelName model;
             response_tokensUsed := usage_total_tokens completion;
             responseTime := 0 |}
  end.

(** [generateClaudeResponse(message, context)] *)
Definition generateClaudeResponse
    (message : jsstring) (context : ChatContext) : M AIResponse :=
  invoked {| call_model := claude_3_5_sonnet; call_message := message;
             call_context := context |} ;;;
  response <- external (anthropic_create message context) ;;
  match response with
  | None => throw (Error (lit "anthropic"))
  | Some response =>
      let tokensUsed := input_tokens response + output_tokens response in
      ret {| response_content := orEmpty (first_text response);
             response_model := lit "claude-3.5-sonnet";
             response_tokensUsed := Some tokensUsed;
             responseTime := 0 |}
  end.

(** [generateGeminiResponse(message, context)] *)
Definition generateGeminiResponse
    (message : jsstring) (context : ChatContext) : M AIResponse :=
  invoked {| call_model := gemini_pro; call_message := message;
             call_context := context |} ;;;
  result <- external (gemini_generateContent message context) ;;
  match result with
  | None => throw (Error (lit "gemini"))
  | Some content =>
      ret {| response_content := content;
             response_model := lit "gemini-pro";
             response_tokensUsed := Some 0;
             responseTime := 0 |}
  end.

Definition withResponseTime (r : AIResponse) (t : Z) : AIResponse :=
  {| response_content := response_content r;
     response_model := response_model r;
     response_tokensUsed := response_tokensUsed r;
     responseTime := t |}.

(** The [try] block of [generateResponse]: dispatch on the model, then stamp
    the response with the time since [startTime].  The [default] branch of
    the [switch] cannot be reached with a value of type [AIModel]. *)
Definition dispatch
    (message : jsstring) (context : ChatContext) (model : AIModel)
    (startTime : Z) : M AIResponse :=
  response <-
    match model with
    | gpt_4 | gpt_4_turbo => generateOpenAIResponse message context model
    | claude_3_5_sonnet => generateClaudeResponse message context
    | gemini_pro => generateGeminiResponse message context
    end ;;
  t <- now ;;
  ret (withResponseTime response (t - startTime)).

Definition AIModel_eq_dec (a b : AIModel) : {a = b} + {a <> b}.
Proof. decide equality. Defined.

(** How many fallbacks a model still has before it: one unless it is the
    fallback model itself. *)
Definition fallbacksLeft (model : AIModel) : nat :=
  match model with
  | gpt_4 => 0%nat
  | _ => 1%nat
  end.

(** [AIService.generateResponse(message, context, model)].  On any error of
    the [try] block it calls itself with ['gpt-4'] unless [model] already is
    ['gpt-4'], in which case it throws. *)
Equations? generateResponse
    (message : jsstring) (context : ChatContext) (model : AIModel) (w : World)
    : Outcome AIResponse * World by wf (fallbacksLeft model) lt :=
generateResponse message context model w
  with dispatch message context model (Date_now (env w)) w => {
  | (Returned response, w') => (Returned response, w')
  | (Thrown error, w') with AIModel_eq_dec model gpt_4 => {
    | right isNot => generateResponse message context gpt_4 w'
    | left _ => (Thrown (Error (lit "Error al generar respuesta con IA")), w')
    }
  }.
Proof.
  destruct model; simpl; try lia. contradiction.
Qed.

End AIService.

(* ===================================================================== *)
(** ** database.ts: [checkTenantLimits] *)
(* ===================================================================== *)

Record LimitStatus : Type := {
  used : Z;
  limit : Z;
  exceeded : bool
}.

Record TenantLimits : Type := {
  limits_of_conversations : LimitStatus;
  limits_of_messages : LimitStatus
}.

(** [x || 0] on a number that may be absent (a present [0] is falsy and
    gives [0] again) *)
Definition orZero (x : option Z) : Z :=
  match x with
  | Some l => l
  | None => 0
  end.

(** [x > 0]: false when [x] is [undefined] *)
Definition isPositive (x : option Z) : bool :=
  match x with
  | Some l => 0 <? l
  | None => false
  end.

(** [count >= x]: false when [x] is [undefined] *)
Definition reaches (count : Z) (x : option Z) : bool :=
  match x with
  | Some l => l <=? count
  | None => false
  end.

Section Database.

Context {X : Externals}.

(** [DatabaseService.checkTenantLimits(tenantId)] *)
Definition checkTenantLimits (tenantId : jsstring) : M TenantLimits :=
  d <- getDb ;;
  match tenant_findUnique d tenantId with
  | None => throw (Error (lit "Tenant no encontrado"))
  | Some tenant =>
      let limits := tenant_limits tenant in
      t <- now ;;
      let currentMonth := startOfMonth t in
      d <- getDb ;;
      let conversationCount := conversation_count d tenantId currentMonth in
      let messageCount := message_count d tenantId currentMonth in
      ret {| limits_of_conversations :=
               {| used := conversationCount;
                  limit := orZero (limits_conversations limits);
                  exceeded := isPositive (limits_conversations limits)
                              && reaches conversationCount (limits_conversations limits) |};
             limits_of_messages :=
               {| used := messageCount;
                  limit := orZero (limits_messages limits);
                  exceeded := isPositive (limits_messages limits)
                              && reaches messageCount (limits_messages limits) |} |}
  end.

(** [conversation.create({ data })]: the row gets its id and creation time
    from the column defaults. *)
Definition conversation_create
    (tenantId widgetId chatbotId userId status : jsstring) : M Conversation :=
  defaults <- external rowDefaults ;;
  let c := {| conversation_id := fst defaults;
              conversation_userId := Some userId;
              conversation_status := status;
              conversation_tenantId := tenantId;
              conversation_widgetId := Some widgetId;
              conversation_chatbotId := Some chatbotId;
              conversation_createdAt := snd defaults |} in
  modifyDb (insertConversation c) ;;;
  ret c.

(** [message.create({ data: { conversationId, content, sender } })] *)
Definition message_create
    (conversationId content sender : jsstring) : M Message :=
  defaults <- external rowDefaults ;;
  let m := {| message_id := fst defaults;
              message_content := content;
              message_sender := sender;
              message_conversationId := conversationId;
              message_createdAt := snd defaults |} in
  modifyDb (insertMessage m) ;;;
  ret m.

End Database.

(* ===================================================================== *)
(** ** Requests and responses *)
(* ===================================================================== *)

(** The JSON body of a chat request, each property absent or of its JSON
    type. *)
Record Body : Type := {
  body_message : option jsstring;
  body_conversationId : option jsstring;
  body_widgetId : option jsstring;
  body_userId : option jsstring;
  body_metadata : option Metadata
}.

(** The request as the middleware chain passes it on: the body, and the
    [tenantId] that [validateWidgetAccess] attaches. *)
Record Request : Type := {
  body : Body;
  tenantId : option jsstring
}.

(** What [chatMessageSchema.parse] returns. *)
Record ChatMessage : Type := {
  message : jsstring;
  conversationId : option jsstring;
  widgetId : jsstring;
  userId : option jsstring;
  metadata : option Metadata
}.

(** ['conversations' | 'messages' | 'agents'] *)
Inductive LimitType : Type := conversations_limit | messages_limit | agents_limit.

Definition limitTypeName (t : LimitType) : jsstring :=
  match t with
  | conversations_limit => lit "conversations"
  | messages_limit => lit "messages"
  | agents_limit => lit "agents"
  end.

(** The JSON (or text) a response carries. *)
Inductive Payload : Type :=
| JustError (error : jsstring)
    (* { error } *)
| LimitReached (error : jsstring) (used limit : Z)
    (* { error, used, limit, upgradeUrl: '/dashboard/billing' } *)
| InvalidData (details : list ZodIssue)
    (* { error: 'Datos invalidos', details } *)
| UsageLimit (details : jsstring)
    (* { error: 'Limite de uso alcanzado', details } *)
| ProcessingError
    (* { error: 'Error procesando el mensaje', fallback: 'Lo siento, ...' } *)
| TooManyMessages
    (* the rate limiter's text 'Demasiados mensajes. Intenta mas tarde.' *)
| Success (conversationId messageId content : jsstring) (timestamp : Z)
          (model : jsstring) (responseTime : Z) (tokensUsed : option Z).
    (* { success: true, conversationId, message: { id, content, sender: 'BOT',
         timestamp }, metadata: { model, responseTime, tokensUsed } } *)

Record HttpResponse : Type := {
  status : Z;
  payload : Payload
}.

(** What a middleware does with a request: answer it, or call [next()]. *)
Inductive Step : Type :=
| Respond (r : HttpResponse)
| Next (req : Request).

Definition json (code : Z) (p : Payload) : HttpResponse :=
  {| status := code; payload := p |}.

(** Text of the source that is not ASCII. *)
Definition Limite : jsstring := [76%N; 237%N] ++ lit "mite".
Definition limite : jsstring := [108%N; 237%N] ++ lit "mite".
Definition Conversacion_no_encontrada : jsstring :=
  lit "Conversaci" ++ [243%N] ++ lit "n no encontrada".
Definition Error_verificando_limites : jsstring :=
  lit "Error verificando " ++ limite ++ lit "s de uso".

(* ===================================================================== *)
(** ** auth.ts: [validateWidgetAccess] and [checkUsageLimits] *)
(* ===================================================================== *)

Section Middleware.

Context {X : Externals}.

(** [tenantCors]: it only sets headers, and answers by itself only a request
    whose method is [OPTIONS], which a [post] route never receives. *)
Definition tenantCors (req : Request) : M Step := ret (Next req).

(** [chatLimiter] *)
Definition chatLimiter (req : Request) : M Step :=
  over <- external rateLimited ;;
  if over then ret (Respond (json 429 TooManyMessages)) else ret (Next req).

(** [validateWidgetAccess].  The route has no [:widgetId] parameter, so the
    id is [req.body.widgetId].  A widget whose tenant row is missing makes
    [widget.tenant.isActive] throw. *)
Definition validateWidgetAccess (req : Request) : M Step :=
  try_catch
    (match body_widgetId (body req) with
     | None => ret (Respond (json 400 (JustError (lit "Widget ID requerido"))))
     | Some widgetId =>
         if negb (truthy widgetId)
         then ret (Respond (json 400 (JustError (lit "Widget ID requerido"))))
         else
           d <- getDb ;;
           match widget_findUnique d widgetId with
           | None => ret (Respond (json 404 (JustError (lit "Widget no encontrado"))))
           | Some widget =>
               if negb (widget_isActive widget)
               then ret (Respond (json 403 (JustError (lit "Widget desactivado"))))
               else
                 match tenant_findUnique d (widget_tenantId widget) with
                 | None => throw (Error (lit "Cannot read properties of null"))
                 | Some tenant =>
                     if negb (tenant_isActive tenant)
                     then ret (Respond (json 403 (JustError (lit "Cuenta suspendida"))))
                     else ret (Next {| body := body req;
                                       tenantId := Some (tenant_id tenant) |})
                 end
           end
     end)
    (fun error =>
       ret (Respond (json 500 (JustError (lit "Error interno del servidor"))))).

(** [limits[limitType]]: the result of [checkTenantLimits] has no [agents]
    property. *)
Definition limitOf (limits : TenantLimits) (limitType : LimitType) : option LimitStatus :=
  match limitType with
  | conversations_limit => Some (limits_of_conversations limits)
  | messages_limit => Some (limits_of_messages limits)
  | agents_limit => None
  end.

(** [checkUsageLimits(limitType)].  Without a [tenantId] the tenant lookup
    is refused by the database client, which throws. *)
Definition checkUsageLimits (limitType : LimitType) (req : Request) : M Step :=
  try_catch
    (limits <-
       match tenantId req with
       | Some tenantId => checkTenantLimits tenantId
       | None => throw (Error (lit "Argument `where` needs an id"))
       end ;;
     match limitOf limits limitType with
     | Some l =>
         if exceeded l
         then ret (Respond (json 429
                (LimitReached (Limite ++ lit " de " ++ limitTypeName limitType
                                      ++ lit " alcanzado")
                              (used l) (limit l))))
         else ret (Next req)
     | None => ret (Next req)
     end)
    (fun error =>
       ret (Respond (json 500 (JustError Error_verificando_limites)))).

End Middleware.

(* ===================================================================== *)
(** ** The chat route: [router.post('/message', ...)] *)
(* ===================================================================== *)

Section ChatRoute.

Context {X : Externals}.

(** [chatMessageSchema.parse(req.body)]: [message] is a string of 1 to 1000
    code units, [conversationId] an optional UUID, [widgetId] a UUID. *)
Definition chatMessageSchema_parse (b : Body) : M ChatMessage :=
  let issues :=
    match body_message b with
    | None => [message_required]
    | Some m =>
        (if js_length m <? 1 then [message_empty] else []) ++
        (if 1000 <? js_length m then [message_too_long] else [])
    end ++
    match body_conversationId b with
    | None => []
    | Some c => if isUuid c then [] else [conversationId_invalid]
    end ++
    match body_widgetId b with
    | None => [widgetId_required]
    | Some w => if isUuid w then [] else [widgetId_invalid]
    end in
  match issues, body_message b, body_widgetId b with
  | [], Some m, Some w =>
      ret {| message := m;
             conversationId := body_conversationId b;
             widgetId := w;
             userId := body_userId b;
             metadata := body_metadata b |}
  | _, _, _ => throw (ZodError issues)
  end.

(** A conversation as the route holds it: the row and the included
    messages (the ten newest, newest first). *)
Record ConversationWithMessages : Type := {
  conversation : Conversation;
  conversation_messages : list Message
}.

(** "Buscar o crear conversacion": look the supplied conversation up, answer
    404 when it is missing or of another tenant, and create one when none
    was supplied. *)
Definition resolveConversation
    (validatedData : ChatMessage) (widget : Widget) (chatbot : Chatbot)
    : M (HttpResponse + ConversationWithMessages) :=
  found <-
    match conversationId validatedData with
    | Some id =>
        if truthy id then
          d <- getDb ;;
          match conversation_findUnique d id with
          | None => ret (inl (json 404 (JustError Conversacion_no_encontrada)))
          | Some c =>
              if negb (jsstring_eqb (conversation_tenantId c) (widget_tenantId widget))
              then ret (inl (json 404 (JustError Conversacion_no_encontrada)))
              else ret (inr (Some {| conversation := c;
                                     conversation_messages :=
                                       includeMessages d (conversation_id c) |}))
          end
        else ret (inr None)
    | None => ret (inr None)
    end ;;
  match found with
  | inl response => ret (inl response)
  | inr (Some c) => ret (inr c)
  | inr None =>
      t <- now ;;
      let anonymous := lit "anonymous_" ++ numberToString t in
      c <- conversation_create
             (widget_tenantId widget) (widget_id widget) (chatbot_id chatbot)
             (match userId validatedData with
              | Some u => if truthy u then u else anonymous
              | None => anonymous
              end)
             ACTIVE ;;
      d <- getDb ;;
      ret (inr {| conversation := c;
                  conversation_messages := includeMessages d (conversation_id c) |})
  end.

(** "Preparar contexto para la IA": the included messages reversed into
    chronological order, each mapped to its role. *)
Definition conversationHistoryOf (included : list Message) : list HistoryEntry :=
  map (fun msg =>
         {| role := if jsstring_eqb (message_sender msg) USER then user else assistant;
            content := message_content msg |})
      (rev included).

(** What the handler holds when it reaches the AI call. *)
Record Turn : Type := {
  turn_data : ChatMessage;
  turn_conversation : ConversationWithMessages;
  turn_userMessage : Message;
  turn_context : ChatContext;
  turn_model : AIModel
}.

(** The first part of the handler's [try] block, up to the AI call: validate,
    fetch the widget with its chatbot and its tenant, resolve the
    conversation, store the user's message, assemble the context, pick the
    model.  [inl] is an early [return res.status(..).json(..)].  A missing
    tenant row makes [widget.tenant.name] throw. *)
Definition prepareTurn (req : Request) : M (HttpResponse + Turn) :=
  validatedData <- chatMessageSchema_parse (body req) ;;
  d <- getDb ;;
  match widget_findUnique d (widgetId validatedData) with
  | None => ret (inl (json 404 (JustError (lit "Widget no encontrado o inactivo"))))
  | Some widget =>
  if negb (widget_isActive widget)
  then ret (inl (json 404 (JustError (lit "Widget no encontrado o inactivo"))))
  else
  match chatbot_findUnique d (widget_chatbotId widget) with
  | None => ret (inl (json 503 (JustError (lit "Chatbot no disponible"))))
  | Some chatbot =>
  if negb (chatbot_isActive chatbot)
  then ret (inl (json 503 (JustError (lit "Chatbot no disponible"))))
  else
  resolved <- resolveConversation validatedData widget chatbot ;;
  match resolved with
  | inl response => ret (inl response)
  | inr conv =>
  (* Guardar mensaje del usuario *)
  userMessage <- message_create
    (conversation_id (conversation conv)) (message validatedData) USER ;;
  (* Preparar contexto para la IA *)
  let conversationHistory := conversationHistoryOf (conversation_messages conv) in
  match tenant_findUnique d (widget_tenantId widget) with
  | None => throw (Error (lit "Cannot read properties of null"))
  | Some tenant =>
  let context :=
    {| systemPrompt := Some (chatbot_systemPrompt chatbot);
       conversationHistory := Some conversationHistory;
       companyInfo := Some (lit "Empresa: " ++ tenant_name tenant);
       userInfo := metadata validatedData |} in
  (* Detectar complejidad del mensaje *)
  let complexity := detectComplexity (message validatedData) in
  (* Seleccionar modelo basado en el plan del tenant *)
  let model := selectModelForTenant (tenant_plan tenant) complexity in
  ret (inr {| turn_data := validatedData;
              turn_conversation := conv;
              turn_userMessage := userMessage;
              turn_context := context;
              turn_model := model |})
  end end end end.

(** The handler of the route: the steps above, then the AI call, the bot's
    message and the answer; and the [catch] block around all of it. *)
Definition chatMessageHandler (req : Request) : M HttpResponse :=
  try_catch
    (prepared <- prepareTurn req ;;
     match prepared with
     | inl response => ret response
     | inr turn =>
         let validatedData := turn_data turn in
         let conv := turn_conversation turn in
         (* Generar respuesta con IA *)
         aiResponse <- generateResponse
           (message validatedData) (turn_context turn) (turn_model turn) ;;
         (* Guardar respuesta del bot *)
         botMessage <- message_create
           (conversation_id (conversation conv)) (response_content aiResponse) BOT ;;
         ret (json 200
                (Success (conversation_id (conversation conv))
                         (message_id botMessage)
                         (response_content aiResponse)
                         (message_createdAt botMessage)
                         (response_model aiResponse)
                         (responseTime aiResponse)
                         (response_tokensUsed aiResponse)))
     end)
    (fun error =>
       match error with
       | ZodError errors => ret (json 400 (InvalidData errors))
       | Error msg =>
           if includes msg limite
           then ret (json 429 (UsageLimit msg))
           else ret (json 500 ProcessingError)
       end).

(** Express runs the handlers of a route in turn; each either answers or
    passes the request on. *)
Fixpoint route (middlewares : list (Request -> M Step))
    (handler : Request -> M HttpResponse) (req : Request) : M HttpResponse :=
  match middlewares with
  | [] => handler req
  | m :: rest =>
      step <- m req ;;
      match step with
      | Respond r => ret r
      | Next req' => route rest handler req'
      end
  end.

(** [POST /api/chat/message] *)
Definition postMessage : Request -> M HttpResponse :=
  route [tenantCors; chatLimiter; validateWidgetAccess;
         checkUsageLimits conversations_limit]
        chatMessageHandler.

End ChatRoute.

(* ===================================================================== *)
(** ** Notions the properties are stated with *)
(* ===================================================================== *)

(** The limit a tenant has stored for a limit type, and the count
    [checkTenantLimits] sets against it. *)
Definition storedLimit (tenant : Tenant) (limitType : LimitType) : option Z :=
  match limitType with
  | conversations_limit => limits_conversations (tenant_limits tenant)
  | messages_limit => limits_messages (tenant_limits tenant)
  | agents_limit => None
  end.

Definition usedSince (d : DB) (tenantId : jsstring) (since : Z)
    (limitType : LimitType) : Z :=
  match limitType with
  | conversations_limit => conversation_count d tenantId since
  | messages_limit => message_count d tenantId since
  | agents_limit => 0
  end.

(** [a] was created no later than [b]. *)
Definition notAfter (a b : Message) : Prop :=
  message_createdAt a <= message_createdAt b.

(** [a] was created no earlier than [b]. *)
Definition notBefore (a b : Message) : Prop :=
  message_createdAt b <= message_createdAt a.

Section Notions.

Context {X : Externals}.

(** How the conversation of a turn came about: it was supplied and found,
    with nothing written; or none was supplied and a new one, ACTIVE and
    bound to the widget, was inserted. *)
Definition suppliedOrCreated (v : ChatMessage) (widget : Widget)
    (w w1 : World) (c : Conversation) : Prop :=
  (exists id,
     conversationId v = Some id /\ truthy id = true /\
     conversation_findUnique (db w) id = Some c /\
     conversations (db w1) = conversations (db w))
  \/
  ((forall id, conversationId v = Some id -> truthy id = false) /\
   conversations (db w1) = conversations (db w) ++ [c] /\
   conversation_status c = ACTIVE /\
   conversation_widgetId c = Some (widget_id widget)).

(** The state of a turn that has reached the AI call, against the world
    [w] the request arrived in: the request was valid, its widget and tenant
    were found, the conversation was resolved, exactly the user's message
    was written, no provider was invoked yet, and the context and the model
    were derived as the handler derives them. *)
Definition turnReached (req : Request) (w : World) (turn : Turn) (w1 : World) : Prop :=
  exists (widget : Widget) (tenant : Tenant),
    let v := turn_data turn in
    let conv := turn_conversation turn in
    let m := turn_userMessage turn in
    chatMessageSchema_parse (body req) w = (Returned v, w) /\
    widget_findUnique (db w) (widgetId v) = Some widget /\
    tenant_findUnique (db w) (widget_tenantId widget) = Some tenant /\
    conversation_tenantId (conversation conv) = widget_tenantId widget /\
    suppliedOrCreated v widget w w1 (conversation conv) /\
    calls w1 = calls w /\
    messages (db w1) = messages (db w) ++ [m] /\
    message_sender m = USER /\
    message_content m = message v /\
    message_conversationId m = conversation_id (conversation conv) /\
    conversation_messages conv
      = includeMessages (db w) (conversation_id (conversation conv)) /\
    conversationHistory (turn_context turn)
      = Some (conversationHistoryOf (conversation_messages conv)) /\
    turn_model turn
      = selectModelForTenant (tenant_plan tenant) (detectComplexity (message v)).

(** A response that rejects the request for a usage limit: status 429 with
    the body of [checkUsageLimits] or of the handler's [catch] block.  (The
    rate limiter's 429 is another matter.) *)
Definition isLimitExceeded (r : HttpResponse) : bool :=
  (status r =? 429) &&
  match payload r with
  | LimitReached _ _ _ | UsageLimit _ => true
  | _ => false
  end.

(** The tenant has a positive conversations limit and has reached it in the
    month of the instant [t]. *)
Definition conversationsExceeded (d : DB) (tenant : Tenant) (t : Z) : Prop :=
  exists l,
    limits_conversations (tenant_limits tenant) = Some l /\
    0 < l /\
    l <= conversation_count d (tenant_id tenant) (startOfMonth t).

(** [validateWidgetAccess] lets the request through for this widget and
    tenant. *)
Definition widgetAccess (req : Request) (d : DB) (widget : Widget)
    (tenant : Tenant) : Prop :=
  exists id,
    body_widgetId (body req) = Some id /\ truthy id = true /\
    widget_findUnique d id = Some widget /\ widget_isActive widget = true /\
    tenant_findUnique d (widget_tenantId widget) = Some tenant /\
    tenant_isActive tenant = true.

End Notions.

(* ===================================================================== *)
(** ** A scripted outside world, for concrete runs *)
(* ===================================================================== *)

(** The clock, the number of rows created so far, whether the rate limiter
    refuses, and what the coming provider calls do: each entry says whether
    the call answers and how many milliseconds it takes. *)
Record Script : Type := {
  clock : Z;
  rows : Z;
  limiterRefuses : bool;
  providerOutcomes : list (bool * Z)
}.

Definition scripted {A} (reply : A) (s : Script) : option A * Script :=
  match providerOutcomes s with
  | [] => (None, s)
  | (answers, took) :: rest =>
      (if answers then Some reply else None,
       {| clock := clock s + took; rows := rows s;
          limiterRefuses := limiterRefuses s; providerOutcomes := rest |})
  end.

Definition isHexDigit (c : N) : bool :=
  ((48 <=? c) && (c <=? 57) || (65 <=? c) && (c <=? 70) || (97 <=? c) && (c <=? 102))%N.

(** 8-4-4-4-12 hexadecimal digits. *)
Fixpoint uuidShape (groups : list nat) (s : jsstring) : bool :=
  match groups with
  | [] => false
  | [n] => Nat.eqb (List.length s) n && forallb isHexDigit s
  | n :: rest =>
      forallb isHexDigit (firstn n s) && Nat.eqb (List.length (firstn n s)) n &&
      match skipn n s with
      | 45%N :: s' => uuidShape rest s'
      | _ => false
      end
  end.

(** In the scripted world a month is a span of 30 days, identifiers are
    ["row0"], ["row1"], ..., and creating a row takes a millisecond. *)
#[local] Instance Scripted : Externals := {|
  Env := Script;
  Date_now := clock;
  startOfMonth := fun t => t - t mod 2592000000;
  isUuid := uuidShape [8; 4; 4; 4; 12]%nat;
  rowDefaults := fun s =>
    ((lit "row" ++ numberToString (rows s), clock s),
     {| clock := clock s + 1; rows := rows s + 1;
        limiterRefuses := limiterRefuses s;
        providerOutcomes := providerOutcomes s |});
  rateLimited := fun s => (limiterRefuses s, s);
  openai_create := fun _ _ _ =>
    scripted {| choice_content := Some (lit "Here is how"); usage_total_tokens := Some 42 |};
  anthropic_create := fun _ _ =>
    scripted {| first_text := Some (lit "Here is how"); input_tokens := 30; output_tokens := 12 |};
  gemini_generateContent := fun _ _ => scripted (lit "Here is how")
|}.

Definition emptyDB : DB :=
  {| tenants := []; chatbots := []; widgets := []; conversations := []; messages := [] |}.

Definition noContext : ChatContext :=
  {| conversationHistory := None; systemPrompt := None;
     companyInfo := None; userInfo := None |}.

(** A world at time 1000 in which the first provider call fails after 100 ms
    and the second answers after 50 ms. *)
Definition failThenAnswer : World :=
  {| env := {| clock := 1000; rows := 0; limiterRefuses := false;
               providerOutcomes := [(false, 100); (true, 50)] |};
     db := emptyDB; calls := [] |}.

(** *** Two tenants and their rows *)

(** Acme is on the starter plan with limits of 500 conversations and 1
    message; Globex has a limit of 1 conversation. *)
Definition acme : Tenant :=
  {| tenant_id := lit "tenant-acme"; tenant_name := lit "Acme";
     tenant_plan := lit "starter";
     tenant_limits := {| limits_conversations := Some 500; limits_messages := Some 1 |};
     tenant_isActive := true |}.

Definition globex : Tenant :=
  {| tenant_id := lit "tenant-globex"; tenant_name := lit "Globex";
     tenant_plan := lit "business";
     tenant_limits := {| limits_conversations := Some 1; limits_messages := Some 2000 |};
     tenant_isActive := true |}.

Definition acmeBot : Chatbot :=
  {| chatbot_id := lit "bot-acme";
     chatbot_systemPrompt := lit "You are Acme's support bot";
     chatbot_isActive := true |}.

Definition globexBot : Chatbot :=
  {| chatbot_id := lit "bot-globex";
     chatbot_systemPrompt := lit "You are Globex's support bot";
     chatbot_isActive := true |}.

Definition acmeWidget : Widget :=
  {| widget_id := lit "11111111-1111-4111-8111-111111111111";
     widget_isActive := true;
     widget_tenantId := lit "tenant-acme";
     widget_chatbotId := lit "bot-acme" |}.

Definition globexWidget : Widget :=
  {| widget_id := lit "22222222-2222-4222-8222-222222222222";
     widget_isActive := true;
     widget_tenantId := lit "tenant-globex";
     widget_chatbotId := lit "bot-globex" |}.

Definition acmeConversation : Conversation :=
  {| conversation_id := lit "aaaaaaaa-aaaa-4aaa-8aaa-aaaaaaaaaaaa";
     conversation_userId := Some (lit "visitor-1");
     conversation_status := ACTIVE;
     conversation_tenantId := lit "tenant-acme";
     conversation_widgetId := Some (widget_id acmeWidget);
     conversation_chatbotId := Some (lit "bot-acme");
     conversation_createdAt := 100 |}.

Definition globexConversation : Conversation :=
  {| conversation_id := lit "bbbbbbbb-bbbb-4bbb-8bbb-bbbbbbbbbbbb";
     conversation_userId := Some (lit "visitor-2");
     conversation_status := ACTIVE;
     conversation_tenantId := lit "tenant-globex";
     conversation_widgetId := Some (widget_id globexWidget);
     conversation_chatbotId := Some (lit "bot-globex");
     conversation_createdAt := 200 |}.

Definition sampleDB : DB :=
  {| tenants := [acme; globex];
     chatbots := [acmeBot; globexBot];
     widgets := [acmeWidget; globexWidget];
     conversations := [acmeConversation; globexConversation];
     messages :=
       [ {| message_id := lit "m1"; message_content := lit "Hello";
            message_sender := USER;
            message_conversationId := conversation_id acmeConversation;
            message_createdAt := 110 |};
         {| message_id := lit "m2"; message_content := lit "Hi, how can I help?";
            message_sender := BOT;
            message_conversationId := conversation_id acmeConversation;
            message_createdAt := 120 |} ] |}.

(** The sample database at time 1000, with the provider outcomes given. *)
Definition sampleWorld (outcomes : list (bool * Z)) : World :=
  {| env := {| clock := 1000; rows := 0; limiterRefuses := false;
               providerOutcomes := outcomes |};
     db := sampleDB; calls := [] |}.

Definition chatRequest (widget : Widget) (conv : option Conversation) : Request :=
  {| body := {| body_message := Some (lit "How do I reset my password?");
                body_conversationId := option_map conversation_id conv;
                body_widgetId := Some (widget_id widget);
                body_userId := None;
                body_metadata := None |};
     tenantId := None |}.

(** *** Requests that do not reach the conversation lookup *)







(** *** Runs in the scripted world *)

(** The run of [generateResponse] for gemini-pro in [failThenAnswer]. *)
Definition failThenAnswerRun : Outcome AIResponse * World :=
  Eval vm_compute in generateResponse (lit "hi") noContext gemini_pro failThenAnswer.

(** A first message to Acme's widget while both providers are down. *)
Definition providersDown : World := sampleWorld [(false, 50); (false, 10)].

Definition providersDownTurn : Outcome (HttpResponse + Turn) * World :=
  Eval vm_compute in prepareTurn (chatRequest acmeWidget None) providersDown.

(** A message that continues Acme's conversation, answered at once. *)
Definition continuing : World := sampleWorld [(true, 50)].

Definition continuingTurn : Outcome (HttpResponse + Turn) * World :=
  Eval vm_compute in
    prepareTurn (chatRequest acmeWidget (Some acmeConversation)) continuing.

(* ===================================================================== *)
(** ** Further notions *)
(* ===================================================================== *)

(** The tiers in order. *)
Definition tierRank (c : Complexity) : nat :=
  match c with
  | simple => 0
  | medium => 1
  | complex => 2
  end.

(** The upper-case form of an ASCII letter; other code units are kept. *)
Definition upperAscii (c : N) : N :=
  if (97 <=? c)%N && (c <=? 122)%N then (c - 32)%N else c.

Section FurtherNotions.

Context {X : Externals}.

(** A body that [chatMessageSchema] accepts. *)
Definition validBody (b : Body) : Prop :=
  exists m wid,
    body_message b = Some m /\ 1 <= js_length m <= 1000 /\
    body_widgetId b = Some wid /\ isUuid wid = true /\
    (forall c, body_conversationId b = Some c -> isUuid c = true).

(** From [w] to [w1] the tenants, chatbots and widgets are untouched, the
    conversations [cs] and the messages [ms] were appended, and no provider
    was invoked. *)
Definition onlyAppends (w w1 : World)
    (cs : list Conversation) (ms : list Message) : Prop :=
  tenants (db w1) = tenants (db w) /\
  chatbots (db w1) = chatbots (db w) /\
  widgets (db w1) = widgets (db w) /\
  conversations (db w1) = conversations (db w) ++ cs /\
  messages (db w1) = messages (db w) ++ ms /\
  calls w1 = calls w.

End FurtherNotions.

(* ===================================================================== *)
(** ** database.ts: the plan tables *)
(* ===================================================================== *)

(** A row of the [limits] table of [getTenantLimits]. *)
Record PlanLimits : Type := {
  plan_conversations : Z;
  plan_messages : Z;
  plan_agents : Z
}.

(** The names every object literal inherits from [Object.prototype]; a
    lookup [table[name]] with one of them finds the inherited member, which
    is truthy, and not [undefined]. *)
Definition objectPrototypeNames : list jsstring :=
  [ lit "constructor"; lit "__defineGetter__"; lit "__defineSetter__";
    lit "hasOwnProperty"; lit "__lookupGetter__"; lit "__lookupSetter__";
    lit "isPrototypeOf"; lit "propertyIsEnumerable"; lit "toString";
    lit "valueOf"; lit "__proto__"; lit "toLocaleString" ].

(** What [table[plan] || table.starter] gives: a row of the table, or the
    member of [Object.prototype] of that name. *)
Inductive Looked (A : Type) : Type :=
| Row (row : A)
| Inherited (name : jsstring).
Arguments Row {A} row.
Arguments Inherited {A} name.

(** [getTenantLimits(plan)] (database.ts, and its copy in webhooks.ts) *)
Definition getTenantLimits (plan : jsstring) : Looked PlanLimits :=
  let starter_row :=
    {| plan_conversations := 500; plan_messages := 2000; plan_agents := 2 |} in
  if jsstring_eqb plan (lit "starter") then Row starter_row
  else if jsstring_eqb plan (lit "professional") then
    Row {| plan_conversations := 2000; plan_messages := 10000; plan_agents := 5 |}
  else if jsstring_eqb plan (lit "business") then
    Row {| plan_conversations := 5000; plan_messages := 25000; plan_agents := 10 |}
  else if jsstring_eqb plan (lit "enterprise") then
    Row {| plan_conversations := 15000; plan_messages := 75000; plan_agents := -1 |}
  else if existsb (jsstring_eqb plan) objectPrototypeNames then Inherited plan
  else Row starter_row.

(** The row as [checkTenantLimits] reads it back from the [limits]
    column. *)
Definition storedAs (row : PlanLimits) : Limits :=
  {| limits_conversations := Some (plan_conversations row);
     limits_messages := Some (plan_messages row) |}.

(* ===================================================================== *)
(** ** ai.ts: the requests the adapters build *)
(* ===================================================================== *)

Definition newline : jsstring := [10%N].

(** ['Eres un asistente virtual util y profesional.'], with its accent *)
Definition defaultSystemPrompt : jsstring :=
  lit "Eres un asistente virtual " ++ [250%N] ++ lit "til y profesional.".

(** The closing block of every system prompt. *)
Definition instrucciones : jsstring :=
  newline ++ newline ++ lit "Instrucciones importantes:" ++ newline ++
  lit "- Mant" ++ [233%N] ++ lit "n un tono profesional pero amigable" ++ newline ++
  lit "- Si no sabes algo, adm" ++ [237%N] ++ lit "telo honestamente" ++ newline ++
  lit "- Proporciona respuestas " ++ [250%N] ++ lit "tiles y espec" ++ [237%N]
    ++ lit "ficas" ++ newline ++
  lit "- Si la consulta est" ++ [225%N] ++ lit " fuera de tu " ++ [225%N]
    ++ lit "rea de conocimiento, sugiere contactar con un humano" ++ newline ++
  lit "- Mant" ++ [233%N] ++ lit "n las respuestas concisas pero completas".

Definition informacionDe (what : string) : jsstring :=
  newline ++ newline ++ lit "Informaci" ++ [243%N] ++ lit "n " ++ lit what.

(** A message as a provider takes it. *)
Inductive WireRole : Type := role_system | role_user | role_assistant.

Record WireMessage : Type := {
  wire_role : WireRole;
  wire_content : jsstring
}.

Record ClaudeRequest : Type := {
  claude_system : jsstring;
  claude_messages : list WireMessage
}.

(** Is [context.systemPrompt] truthy *)
Definition hasSystemPrompt (context : ChatContext) : bool :=
  match systemPrompt context with
  | Some s => truthy s
  | None => false
  end.

(** The history of a context, empty when it has none. *)
Definition historyOf (context : ChatContext) : list HistoryEntry :=
  match conversationHistory context with
  | Some history => history
  | None => []
  end.

Section Requests.

(** [JSON.stringify] on the request's metadata *)
Variable JSON_stringify : Metadata -> jsstring.

(** [buildSystemPrompt(context)] *)
Definition buildSystemPrompt (context : ChatContext) : jsstring :=
  let prompt :=
    match systemPrompt context with
    | Some s => if truthy s then s else defaultSystemPrompt
    | None => defaultSystemPrompt
    end in
  let prompt :=
    match companyInfo context with
    | Some c => if truthy c then prompt ++ informacionDe "de la empresa: " ++ c
                else prompt
    | None => prompt
    end in
  let prompt :=
    match userInfo context with
    | Some u => prompt ++ informacionDe "del usuario: " ++ JSON_stringify u
    | None => prompt
    end in
  prompt ++ instrucciones.

(** The [messages] that [generateOpenAIResponse] sends: a system message
    when [context.systemPrompt] is truthy, the history, the message. *)
Definition openAIMessages (message : jsstring) (context : ChatContext)
    : list WireMessage :=
  match systemPrompt context with
  | Some s =>
      if truthy s
      then [{| wire_role := role_system;
               wire_content := buildSystemPrompt context |}]
      else []
  | None => []
  end ++
  match conversationHistory context with
  | Some history =>
      map (fun msg =>
             {| wire_role := match role msg with
                             | user => role_user
                             | assistant => role_assistant
                             end;
                wire_content := content msg |})
          history
  | None => []
  end ++
  [{| wire_role := role_user; wire_content := message |}].

(** The [system] and [messages] that [generateClaudeResponse] sends. *)
Definition claudeRequest (message : jsstring) (context : ChatContext)
    : ClaudeRequest :=
  {| claude_system := buildSystemPrompt context;
     claude_messages :=
       match conversationHistory context with
       | Some history =>
           map (fun msg =>
                  {| wire_role := match role msg with
                                  | assistant => role_assistant
                                  | user => role_user
                                  end;
                     wire_content := content msg |})
               history
       | None => []
       end ++
       [{| wire_role := role_user; wire_content := message |}] |}.

(** The prompt that [generateGeminiResponse] sends. *)
Definition geminiPrompt (message : jsstring) (context : ChatContext) : jsstring :=
  let fullPrompt := buildSystemPrompt context ++ newline ++ newline in
  let fullPrompt :=
    match conversationHistory context with
    | Some history =>
        fullPrompt ++
        lit "Historial de conversaci" ++ [243%N] ++ lit "n:" ++ newline ++
        flat_map (fun msg =>
                    match role msg with
                    | user => lit "Usuario"
                    | assistant => lit "Asistente"
                    end ++ lit ": " ++ content msg ++ newline)
                 history ++
        newline
    | None => fullPrompt
    end in
  fullPrompt ++ lit "Usuario: " ++ message ++ newline ++ lit "Asistente:".

End Requests.

(* ===================================================================== *)
(** ** auth.ts: the origin [tenantCors] allows *)
(* ===================================================================== *)

(** [s?.includes(p)] on a header that may be absent *)
Definition headerIncludes (s : option jsstring) (p : jsstring) : bool :=
  match s with
  | Some s => includes s p
  | None => false
  end.

(** The value [tenantCors] gives [Access-Control-Allow-Origin] for a widget
    that exists, from [widget.config.allowedDomains] (absent when the
    configuration has none) and the [Origin] and [Referer] headers; [None]
    when it does not set the header. *)
Definition corsAllowOrigin (allowedDomains : option (list jsstring))
    (origin referer : option jsstring) : option jsstring :=
  let allowedDomains :=
    match allowedDomains with Some l => l | None => [] end in
  if Nat.eqb (List.length allowedDomains) 0 then Some (lit "*")
  else
    let isAllowed :=
      existsb (fun domain =>
                 headerIncludes origin domain || headerIncludes referer domain)
              allowedDomains in
    match origin with
    | Some o => if isAllowed && truthy o then Some o else None
    | None => None
    end.

(* ===================================================================== *)
(** ** The other chat routes *)
(* ===================================================================== *)

(** What the routes below answer. *)
Inductive ChatAnswer : Type :=
| AnswerError (error : jsstring)
    (* { error } *)
| AnswerInvalid (details : list ZodIssue)
    (* { error: 'Datos invalidos', details } *)
| ConversationCreated (id status : jsstring) (createdAt : Z)
                      (welcomeMessage : jsstring)
    (* { success: true, conversation: { id, status, createdAt }, welcomeMessage } *)
| TransferRequested
    (* { success: true, message: 'Solicitud de transferencia enviada',
         estimatedWaitTime: '2-5 minutos' } *)
| Health (status : jsstring) (timestamp : Z) (database ai : jsstring).
    (* { status, timestamp, services: { database, ai } } *)

Record ChatResponse : Type := {
  code : Z;
  answer : ChatAnswer
}.

Definition PENDING_TRANSFER : jsstring := lit "PENDING_TRANSFER".
Definition CLOSED : jsstring := lit "CLOSED".

Definition ID_de_conversacion_requerido : jsstring :=
  lit "ID de conversaci" ++ [243%N] ++ lit "n requerido".
Definition Error_creando_conversacion : jsstring :=
  lit "Error creando conversaci" ++ [243%N] ++ lit "n".
(** The welcome of a chatbot that has none of its own, with its inverted
    marks and its accent. *)
Definition Hola : jsstring :=
  [161%N] ++ lit "Hola! " ++ [191%N] ++ lit "En qu" ++ [233%N]
          ++ lit " puedo ayudarte?".

Definition withStatus (status : jsstring) (c : Conversation) : Conversation :=
  {| conversation_id := conversation_id c;
     conversation_userId := conversation_userId c;
     conversation_status := status;
     conversation_tenantId := conversation_tenantId c;
     conversation_widgetId := conversation_widgetId c;
     conversation_chatbotId := conversation_chatbotId c;
     conversation_createdAt := conversation_createdAt c |}.

(** The row with the given id, replaced. *)
Fixpoint updateFirst (id : jsstring) (f : Conversation -> Conversation)
    (l : list Conversation) : list Conversation :=
  match l with
  | [] => []
  | c :: l' =>
      if jsstring_eqb (conversation_id c) id then f c :: l'
      else c :: updateFirst id f l'
  end.

Definition updateConversations (f : list Conversation -> list Conversation)
    (d : DB) : DB :=
  {| tenants := tenants d; chatbots := chatbots d; widgets := widgets d;
     conversations := f (conversations d); messages := messages d |}.

Section OtherRoutes.

Context {X : Externals}.

(** The [welcomeMessage] column of a chatbot. *)
Variable welcomeMessageOf : Chatbot -> jsstring.

(** [db.healthCheck()]: it catches its own error and answers a boolean. *)
Variable healthCheck : Env -> bool * Env.

(** A route whose handler answers in another shape than its middlewares. *)
Fixpoint routeWith {A} (middlewares : list (Request -> M Step))
    (handler : Request -> M A) (req : Request) : M (HttpResponse + A) :=
  match middlewares with
  | [] => a <- handler req ;; ret (inr a)
  | m :: rest =>
      step <- m req ;;
      match step with
      | Respond r => ret (inl r)
      | Next req' => routeWith rest handler req'
      end
  end.

(** [conversationSchema.parse(req.body)]: [widgetId] is a UUID; the other
    properties are optional strings. *)
Definition conversationSchema_parse (b : Body) : M (jsstring * option jsstring) :=
  match body_widgetId b with
  | None => throw (ZodError [widgetId_required])
  | Some w =>
      if isUuid w then ret (w, body_userId b)
      else throw (ZodError [widgetId_invalid])
  end.

(** [conversation.create({ data })] with a chatbot id that may be
    [undefined]. *)
Definition conversation_create_for
    (tenantId widgetId : jsstring) (chatbotId : option jsstring)
    (userId status : jsstring) : M Conversation :=
  defaults <- external rowDefaults ;;
  let c := {| conversation_id := fst defaults;
              conversation_userId := Some userId;
              conversation_status := status;
              conversation_tenantId := tenantId;
              conversation_widgetId := Some widgetId;
              conversation_chatbotId := chatbotId;
              conversation_createdAt := snd defaults |} in
  modifyDb (insertConversation c) ;;;
  ret c.

(** The handler of [POST /api/chat/conversation]. *)
Definition createConversationHandler (req : Request) : M ChatResponse :=
  try_catch
    (validatedData <- conversationSchema_parse (body req) ;;
     d <- getDb ;;
     match widget_findUnique d (fst validatedData) with
     | None => ret {| code := 404; answer := AnswerError (lit "Widget no encontrado") |}
     | Some widget =>
         if negb (widget_isActive widget)
         then ret {| code := 404; answer := AnswerError (lit "Widget no encontrado") |}
         else
           let chatbot := chatbot_findUnique d (widget_chatbotId widget) in
           t <- now ;;
           let anonymous := lit "anonymous_" ++ numberToString t in
           conversation <- conversation_create_for
             (widget_tenantId widget) (widget_id widget)
             (option_map chatbot_id chatbot)
             (match snd validatedData with
              | Some u => if truthy u then u else anonymous
              | None => anonymous
              end)
             ACTIVE ;;
           ret {| code := 201;
                  answer := ConversationCreated
                    (conversation_id conversation)
                    (conversation_status conversation)
                    (conversation_createdAt conversation)
                    (match chatbot with
                     | Some c => if truthy (welcomeMessageOf c)
                                 then welcomeMessageOf c else Hola
                     | None => Hola
                     end) |}
     end)
    (fun error =>
       match error with
       | ZodError errors => ret {| code := 400; answer := AnswerInvalid errors |}
       | Error _ => ret {| code := 500; answer := AnswerError Error_creando_conversacion |}
       end).

(** [POST /api/chat/conversation] *)
Definition postConversation : Request -> M (HttpResponse + ChatResponse) :=
  routeWith [tenantCors; validateWidgetAccess] createConversationHandler.

(** [conversation.update({ where: { id }, data: { status } })]: it throws
    when there is no such row.  Of the columns a [Conversation] record
    carries, the update changes [status] alone; the [updatedAt] column, which
    Prisma stamps on every update, is not one of them. *)
Definition conversation_update_status (id status : jsstring) : M Conversation :=
  d <- getDb ;;
  match conversation_findUnique d id with
  | None => throw (Error (lit "Record to update not found."))
  | Some c =>
      modifyDb (updateConversations (updateFirst id (withStatus status))) ;;;
      ret (withStatus status c)
  end.

(** The handler of [POST /api/chat/transfer-to-human]; the body's [reason]
    is read and not used. *)
Definition transferToHumanHandler (req : Request) : M ChatResponse :=
  try_catch
    (match body_conversationId (body req) with
     | None => ret {| code := 400; answer := AnswerError ID_de_conversacion_requerido |}
     | Some conversationId =>
         if negb (truthy conversationId)
         then ret {| code := 400; answer := AnswerError ID_de_conversacion_requerido |}
         else
           conversation <- conversation_update_status conversationId PENDING_TRANSFER ;;
           message_create
             (conversation_id conversation)
             (lit "Te estoy transfiriendo con un agente humano. Un momento por favor...")
             BOT ;;;
           ret {| code := 200; answer := TransferRequested |}
     end)
    (fun error =>
       ret {| code := 500;
              answer := AnswerError (lit "Error procesando transferencia") |}).

(** [POST /api/chat/transfer-to-human] *)
Definition postTransferToHuman : Request -> M (HttpResponse + ChatResponse) :=
  routeWith [tenantCors] transferToHumanHandler.

(** [GET /api/chat/health].  The time stamp is the instant; its ISO text is
    not modelled. *)
Definition getHealth : M ChatResponse :=
  dbHealth <- external healthCheck ;;
  aiHealth <-
    try_catch
      (generateResponse
         (lit "test")
         {| conversationHistory := None;
            systemPrompt := Some (lit "Responde solo " ++ [34%N] ++ lit "ok" ++ [34%N]);
            companyInfo := None; userInfo := None |}
         gemini_pro ;;;
       ret true)
      (fun error => ret false) ;;
  let status := if dbHealth && aiHealth then lit "healthy" else lit "degraded" in
  t <- now ;;
  ret {| code := if jsstring_eqb status (lit "healthy") then 200 else 503;
         answer := Health status t
                     (if dbHealth then lit "up" else lit "down")
                     (if aiHealth then lit "up" else lit "down") |}.

End OtherRoutes.

(** ** Further sample requests *)

Definition acmeMessage (conv : option Conversation) : ChatMessage :=
  {| message := lit "How do I reset my password?";
     conversationId := option_map conversation_id conv;
     widgetId := widget_id acmeWidget;
     userId := None; metadata := None |}.

Definition acmeGate : Request :=
  {| body := body (chatRequest acmeWidget None);
     tenantId := Some (lit "tenant-acme") |}.

Definition transferRequest (conv : option Conversation) : Request :=
  {| body := {| body_message := None;
                body_conversationId := option_map conversation_id conv;
                body_widgetId := None; body_userId := None;
                body_metadata := None |};
     tenantId := None |}.

(* ===================================================================== *)
(** * Properties *)
(* ===================================================================== *)

(** ** Strings *)

Lemma jsstring_eqb_eq (a b : jsstring) : jsstring_eqb a b = true <-> a = b.
Proof.
  revert b. induction a as [|x a IH]; intros [|y b]; simpl; split;
    try congruence; try discriminate.
  - intros H. apply andb_true_iff in H as [Hx Hab].
    apply N.eqb_eq in Hx. apply IH in Hab. congruence.
  - intros H. injection H as -> ->. rewrite N.eqb_refl. simpl. now apply IH.
Qed.

Lemma jsstring_eqb_refl (a : jsstring) : jsstring_eqb a a = true.
Proof. now apply jsstring_eqb_eq. Qed.

Lemma jsstring_eqb_neq (a b : jsstring) : jsstring_eqb a b = false <-> a <> b.
Proof.
  split.
  - intros H E. apply jsstring_eqb_eq in E. congruence.
  - intros H. destruct (jsstring_eqb a b) eqn:E; [|reflexivity].
    apply jsstring_eqb_eq in E. contradiction.
Qed.

Lemma startsWith_spec (p s : jsstring) :
  startsWith p s = true <-> exists post, s = p ++ post.
Proof.
  revert s. induction p as [|a p IH]; intros s; simpl.
  - split; [intros _; now exists s | reflexivity].
  - destruct s as [|b s].
    + split; [discriminate | intros [post H]; discriminate].
    + rewrite andb_true_iff, N.eqb_eq, IH. split.
      * intros [-> [post ->]]. now exists post.
      * intros [post H]. injection H as -> ->. split; [reflexivity | now exists post].
Qed.

Lemma occursIn_cons (k : jsstring) (c : N) (s : jsstring) :
  occursIn k (c :: s) <-> startsWith k (c :: s) = true \/ occursIn k s.
Proof.
  rewrite startsWith_spec. unfold occursIn. split.
  - intros [[|x pre] [post H]].
    + left. now exists post.
    + right. injection H as _ ->. now exists pre, post.
  - intros [[post H] | [pre [post ->]]].
    + now exists [], post.
    + now exists (c :: pre), post.
Qed.

Lemma occursIn_nil (k : jsstring) :
  occursIn k [] <-> startsWith k [] = true.
Proof.
  rewrite startsWith_spec. unfold occursIn. split.
  - intros [pre [post H]]. symmetry in H.
    apply app_eq_nil in H as [-> H]. apply app_eq_nil in H as [-> ->].
    now exists [].
  - intros [post H]. now exists [], post.
Qed.

(** The pattern test finds exactly the texts in which an alternative
    occurs. *)
Lemma regexTest_spec (ks : list jsstring) (s : jsstring) :
  regexTest ks s = true <-> exists k, In k ks /\ occursIn k s.
Proof.
  induction s as [|c s IH]; simpl; rewrite orb_true_iff, existsb_exists.
  - split.
    + intros [[k [Hin Hk]] | H]; [|discriminate].
      exists k. split; [assumption | now apply occursIn_nil].
    + intros [k [Hin Hk]]. left. exists k. split; [assumption | now apply occursIn_nil].
  - rewrite IH. split.
    + intros [[k [Hin Hk]] | [k [Hin Hk]]]; exists k; (split; [assumption|]);
        apply occursIn_cons; auto.
    + intros [k [Hin Hk]]. apply occursIn_cons in Hk as [Hk | Hk].
      * left. now exists k.
      * right. now exists k.
Qed.

Lemma includes_spec (s p : jsstring) : includes s p = true <-> occursIn p s.
Proof.
  induction s as [|c s IH]; simpl; rewrite orb_true_iff.
  - rewrite occursIn_nil. split; [intros [H|H]; [assumption | discriminate] | auto].
  - rewrite IH, occursIn_cons. reflexivity.
Qed.

Lemma containsKeyword_test (ks : list jsstring) (message : jsstring) :
  containsKeyword ks message <-> regexTest ks (toLowerCase message) = true.
Proof. unfold containsKeyword. now rewrite regexTest_spec. Qed.

Lemma occursIn_trans (a b s : jsstring) : occursIn a b -> occursIn b s -> occursIn a s.
Proof.
  intros [p1 [q1 ->]] [p2 [q2 ->]]. exists (p2 ++ p1), (q1 ++ q2).
  now rewrite <- !app_assoc.
Qed.

Lemma countMatches_count_occ (c : N) (s : jsstring) :
  countMatches c s = Z.of_nat (count_occ N.eq_dec s c).
Proof.
  unfold countMatches. f_equal.
  induction s as [|x s IH]; simpl; [reflexivity|].
  destruct (N.eq_dec x c) as [->|Hne].
  - rewrite N.eqb_refl. simpl. now rewrite IH.
  - destruct (N.eqb_spec c x) as [->|_]; [contradiction | assumption].
Qed.

(** ** The model selector *)

(** C3.  For every plan of the enum and every complexity,
    [selectModelForTenant] returns the model of the policy table of section
    4.2, reading economy as gemini-pro, standard as gpt-4, premium-fast as
    gpt-4-turbo and premium-deep as claude-3.5-sonnet; for a plan string
    outside the enum it returns, for every complexity, gemini-pro, the model
    of the starter row.  It is a total function, so it never raises. *)
Theorem selectModelForTenant_policy :
  (forall (p : Plan) (c : Complexity),
      selectModelForTenant (planName p) c = tierModel (policy p c)) /\
  (forall (plan : jsstring) (c : Complexity),
      (forall p : Plan, plan <> planName p) ->
      selectModelForTenant plan c = gemini_pro /\
      selectModelForTenant plan c = selectModelForTenant (planName starter) c).
Proof.
  split.
  - intros [] []; reflexivity.
  - intros plan c Hout.
    assert (E : selectModelForTenant plan c = gemini_pro).
    { unfold selectModelForTenant.
      rewrite (proj2 (jsstring_eqb_neq plan (lit "enterprise")) (Hout enterprise)).
      rewrite (proj2 (jsstring_eqb_neq plan (lit "business")) (Hout business)).
      rewrite (proj2 (jsstring_eqb_neq plan (lit "professional")) (Hout professional)).
      reflexivity. }
    split; [exact E | rewrite E; destruct c; reflexivity].
Qed.

Lemma selectModelForTenant_policy_witness :
  selectModelForTenant (lit "free") complex = gemini_pro /\
  selectModelForTenant (lit "free") complex
    = selectModelForTenant (planName starter) complex.
Proof.
  apply (proj2 selectModelForTenant_policy (lit "free") complex).
  intros []; discriminate.
Defined.

(** ** The complexity classifier *)

(** C4.  [detectComplexity] is a total function of the message alone.  On a
    message whose lower-case form holds none of the pattern's keywords it
    gives: complex when the message is longer than 200 code units or has
    more than two question marks; else medium when it is longer than 50 or
    has a question mark; else simple.  The empty message is simple. *)
Theorem detectComplexity_without_keyword :
  detectComplexity [] = simple /\
  forall message : jsstring,
    ~ containsKeyword keywords message ->
    let n := List.length message in
    let q := count_occ N.eq_dec message 63%N in
    ((200 < n \/ 2 < q)%nat -> detectComplexity message = complex) /\
    (~ (200 < n \/ 2 < q)%nat -> (50 < n \/ 1 <= q)%nat ->
       detectComplexity message = medium) /\
    (~ (200 < n \/ 2 < q)%nat -> ~ (50 < n \/ 1 <= q)%nat ->
       detectComplexity message = simple).
Proof.
  split; [reflexivity|].
  intros message Hno n q.
  assert (Hk : regexTest keywords (toLowerCase message) = false).
  { destruct (regexTest keywords (toLowerCase message)) eqn:E; [|reflexivity].
    exfalso. apply Hno. now apply containsKeyword_test. }
  unfold detectComplexity. rewrite Hk, countMatches_count_occ.
  unfold js_length. fold n q. rewrite orb_false_r.
  repeat split.
  - intros H.
    destruct (Z.ltb_spec 200 (Z.of_nat n)); destruct (Z.ltb_spec 2 (Z.of_nat q));
      simpl; try reflexivity; lia.
  - intros H1 H2.
    destruct (Z.ltb_spec 200 (Z.of_nat n)); destruct (Z.ltb_spec 2 (Z.of_nat q));
      simpl; try lia.
    destruct (Z.ltb_spec 50 (Z.of_nat n)); destruct (Z.ltb_spec 0 (Z.of_nat q));
      simpl; try reflexivity; lia.
  - intros H1 H2.
    destruct (Z.ltb_spec 200 (Z.of_nat n)); destruct (Z.ltb_spec 2 (Z.of_nat q));
      simpl; try lia.
    destruct (Z.ltb_spec 50 (Z.of_nat n)); destruct (Z.ltb_spec 0 (Z.of_nat q));
      simpl; try reflexivity; lia.
Qed.

Lemma detectComplexity_without_keyword_witness :
  detectComplexity (lit "How do I reset my password?") = medium.
Proof.
  assert (Hno : ~ containsKeyword keywords (lit "How do I reset my password?")).
  { rewrite containsKeyword_test. vm_compute. discriminate. }
  apply (proj2 detectComplexity_without_keyword _ Hno).
  - vm_compute. lia.
  - right. vm_compute. lia.
Defined.

(** C8, as the specification words it, fails: "analyze" is one of its
    keywords, yet the message "analyze" is classified simple. *)
Lemma detectComplexity_spec_keyword_counterexample :
  containsKeyword specKeywords (lit "analyze") /\
  detectComplexity (lit "analyze") = simple.
Proof.
  split; [|reflexivity].
  exists (lit "analyze"). split; [now left|].
  exists [], []. reflexivity.
Qed.

(** C8, amended.  A message whose lower-case form holds one of the keywords
    of the pattern (analiz, compar, evalua, explicar, detallar, complejo),
    hence also one that holds "compare" or "evaluate", is classified
    complex whatever its length and its number of question marks. *)
Theorem detectComplexity_keyword :
  forall message : jsstring,
    containsKeyword (keywords ++ [lit "compare"; lit "evaluate"]) message ->
    detectComplexity message = complex.
Proof.
  intros message [k [Hin Hocc]].
  assert (Hk : regexTest keywords (toLowerCase message) = true).
  { apply regexTest_spec. apply in_app_or in Hin as [Hin | Hin].
    - now exists k.
    - destruct Hin as [<- | [<- | []]].
      + exists (lit "compar"). split; [simpl; auto|].
        apply occursIn_trans with (lit "compare"); [|assumption].
        exists [], (lit "e"). reflexivity.
      + exists (lit "evalua"). split; [simpl; auto|].
        apply occursIn_trans with (lit "evaluate"); [|assumption].
        exists [], (lit "te"). reflexivity. }
  unfold detectComplexity. rewrite Hk. now rewrite orb_true_r.
Qed.

Lemma detectComplexity_keyword_witness :
  detectComplexity (lit "Please COMPARE the two plans") = complex.
Proof.
  apply detectComplexity_keyword.
  exists (lit "compare"). split.
  - apply in_or_app. right. now left.
  - exists (lit "please "), (lit " the two plans"). reflexivity.
Defined.

(** ** The AI service *)

(** Unfold the plumbing of [async] code, leaving the calls to the outside
    world and the tests of the program in sight. *)
Ltac run_async :=
  cbv beta iota zeta delta
    [bind ret throw try_catch getDb now modifyDb external invoked].

Section AIServiceProperties.

Context {X : Externals}.

Lemma generateResponse_body (message : jsstring) (context : ChatContext)
    (model : AIModel) (w : World) :
  generateResponse message context model w =
  match dispatch message context model (Date_now (env w)) w with
  | (Returned response, w') => (Returned response, w')
  | (Thrown _, w') =>
      if AIModel_eqb model gpt_4
      then (Thrown (Error (lit "Error al generar respuesta con IA")), w')
      else generateResponse message context gpt_4 w'
  end.
Proof.
  simp generateResponse.
  destruct (dispatch message context model (Date_now (env w)) w) as [[r|e] w'];
    simpl; [reflexivity|].
  destruct (AIModel_eq_dec model gpt_4) as [->|Hne]; simpl; [reflexivity|].
  destruct model; try reflexivity. contradiction.
Qed.

(** One run of the [try] block invokes one backend, once, with the message
    and the context it was given, and leaves the database alone. *)
Lemma dispatch_invokes (message : jsstring) (context : ChatContext)
    (model : AIModel) (t : Z) (w : World) :
  let (out, w') := dispatch message context model t w in
  calls w' = calls w ++ [{| call_model := model; call_message := message;
                            call_context := context |}] /\
  db w' = db w.
Proof.
  unfold dispatch, generateOpenAIResponse, generateClaudeResponse,
    generateGeminiResponse.
  destruct model; run_async; cbn [env db calls AIModel_eqb].
  - destruct (openai_create _ message context (env w)) as [[c|] e]; simpl; auto.
  - destruct (openai_create _ message context (env w)) as [[c|] e]; simpl; auto.
  - destruct (anthropic_create message context (env w)) as [[c|] e]; simpl; auto.
  - destruct (gemini_generateContent message context (env w)) as [[c|] e]; simpl; auto.
Qed.

(** When the [try] block returns, the response names the model it ran and
    carries the time from [startTime] to the adapter's return. *)
Lemma dispatch_returned (message : jsstring) (context : ChatContext)
    (model : AIModel) (t : Z) (w w' : World) (r : AIResponse) :
  dispatch message context model t w = (Returned r, w') ->
  responseTime r = Date_now (env w') - t /\ response_model r = modelName model.
Proof.
  unfold dispatch, generateOpenAIResponse, generateClaudeResponse,
    generateGeminiResponse.
  destruct model; run_async; cbn [env db calls AIModel_eqb].
  - destruct (openai_create _ message context (env w)) as [[c|] e]; simpl;
      intros H; inversion H; subst; simpl; auto.
  - destruct (openai_create _ message context (env w)) as [[c|] e]; simpl;
      intros H; inversion H; subst; simpl; auto.
  - destruct (anthropic_create message context (env w)) as [[c|] e]; simpl;
      intros H; inversion H; subst; simpl; auto.
  - destruct (gemini_generateContent message context (env w)) as [[c|] e]; simpl;
      intros H; inversion H; subst; simpl; auto.
Qed.

(** C1.  [generateResponse] always ends, and it invokes a provider backend
    once or twice: the selected model once; and the fallback model gpt-4
    once more, with the same message and context, exactly when the first
    attempt threw and the selected model is not gpt-4.  When the selected
    model is gpt-4 and it throws, or the fallback throws too, the call
    throws and nothing else is invoked. *)
Theorem generateResponse_attempts :
  forall (message : jsstring) (context : ChatContext) (model : AIModel) (w : World),
    let first := {| call_model := model; call_message := message;
                    call_context := context |} in
    let fallback := {| call_model := gpt_4; call_message := message;
                       call_context := context |} in
    let failure := Error (lit "Error al generar respuesta con IA") in
    exists (out : Outcome AIResponse) (w' : World) (invocations : list ProviderCall),
      generateResponse message context model w = (out, w') /\
      calls w' = calls w ++ invocations /\
      (List.length invocations <= 2)%nat /\
      ((exists r,
          dispatch message context model (Date_now (env w)) w = (Returned r, w') /\
          invocations = [first] /\ out = Returned r)
       \/
       (exists e,
          dispatch message context model (Date_now (env w)) w = (Thrown e, w') /\
          model = gpt_4 /\
          invocations = [first] /\ out = Thrown failure)
       \/
       (exists e w1,
          dispatch message context model (Date_now (env w)) w = (Thrown e, w1) /\
          model <> gpt_4 /\
          invocations = [first; fallback] /\
          ((exists r,
              dispatch message context gpt_4 (Date_now (env w1)) w1 = (Returned r, w') /\
              out = Returned r)
           \/
           (exists e',
              dispatch message context gpt_4 (Date_now (env w1)) w1 = (Thrown e', w') /\
              out = Thrown failure)))).
Proof.
  intros message context model w first fallback failure.
  rewrite generateResponse_body.
  pose proof (dispatch_invokes message context model (Date_now (env w)) w) as H1.
  destruct (dispatch message context model (Date_now (env w)) w) as [[r|e] w1] eqn:E1.
  - exists (Returned r), w1, [first]. destruct H1 as [Hc _].
    repeat split; [exact Hc | simpl; lia |]. left. now exists r.
  - destruct H1 as [Hc1 _].
    destruct (AIModel_eqb model gpt_4) eqn:Em.
    + exists (Thrown failure), w1, [first].
      repeat split; [exact Hc1 | simpl; lia |]. right. left. exists e.
      repeat split. destruct model; try discriminate; reflexivity.
    + assert (Hne : model <> gpt_4) by (intros ->; discriminate).
      rewrite generateResponse_body. simpl.
      pose proof (dispatch_invokes message context gpt_4 (Date_now (env w1)) w1) as H2.
      destruct (dispatch message context gpt_4 (Date_now (env w1)) w1)
        as [[r|e'] w2] eqn:E2; destruct H2 as [Hc2 _].
      * exists (Returned r), w2, [first; fallback].
        repeat split.
        -- rewrite Hc2, Hc1, <- app_assoc. reflexivity.
        -- simpl; lia.
        -- right. right. exists e, w1. repeat split; try assumption.
           left. now exists r.
      * exists (Thrown failure), w2, [first; fallback].
        repeat split.
        -- rewrite Hc2, Hc1, <- app_assoc. reflexivity.
        -- simpl; lia.
        -- right. right. exists e, w1. repeat split; try assumption.
           right. now exists e'.
Qed.

(** C9, amended.  When [generateResponse] returns, [responseTime] is the
    time from the start of the invocation whose adapter produced the
    content to that adapter's return: the start of the call itself when the
    selected model answered, and the start of the inner call for gpt-4 when
    the selected model threw first.  [model] names the adapter that produced
    the content in both cases. *)
Theorem generateResponse_responseTime :
  forall (message : jsstring) (context : ChatContext) (model : AIModel)
         (w w' : World) (r : AIResponse),
    generateResponse message context model w = (Returned r, w') ->
    (dispatch message context model (Date_now (env w)) w = (Returned r, w') /\
     responseTime r = Date_now (env w') - Date_now (env w) /\
     response_model r = modelName model)
    \/
    (exists e w1,
       dispatch message context model (Date_now (env w)) w = (Thrown e, w1) /\
       model <> gpt_4 /\
       dispatch message context gpt_4 (Date_now (env w1)) w1 = (Returned r, w') /\
       responseTime r = Date_now (env w') - Date_now (env w1) /\
       response_model r = modelName gpt_4).
Proof.
  intros message context model w w' r.
  rewrite generateResponse_body.
  destruct (dispatch message context model (Date_now (env w)) w) as [[r1|e] w1] eqn:E1.
  - intros H. inversion H; subst. left.
    split; [reflexivity|]. now apply dispatch_returned in E1.
  - destruct (AIModel_eqb model gpt_4) eqn:Em; [discriminate|].
    rewrite generateResponse_body. simpl.
    destruct (dispatch message context gpt_4 (Date_now (env w1)) w1)
      as [[r2|e2] w2] eqn:E2; [|discriminate].
    intros H. inversion H; subst. right. exists e, w1.
    split; [reflexivity|]. split; [intros ->; discriminate|].
    split; [exact E2|]. now apply dispatch_returned in E2.
Qed.

End AIServiceProperties.

Lemma failThenAnswerRun_eq :
  generateResponse (lit "hi") noContext gemini_pro failThenAnswer = failThenAnswerRun.
Proof. reflexivity. Qed.

(** C9, as stated, fails: the selected model gemini-pro throws after 100 ms
    and the fallback answers after 50 ms more.  The adapter returns 150 ms
    after the original call started, and the response says 50. *)
Lemma generateResponse_responseTime_counterexample :
  exists (r : AIResponse) (w' : World),
    generateResponse (lit "hi") noContext gemini_pro failThenAnswer = (Returned r, w') /\
    response_model r = modelName gpt_4 /\
    Date_now (env w') - Date_now (env failThenAnswer) = 150 /\
    responseTime r = 50 /\
    responseTime r <> Date_now (env w') - Date_now (env failThenAnswer).
Proof.
  rewrite failThenAnswerRun_eq. unfold failThenAnswerRun.
  eexists. eexists. split; [reflexivity|]. simpl. repeat split. discriminate.
Qed.

Lemma generateResponse_responseTime_witness :
  exists (r : AIResponse) (w' : World),
    generateResponse (lit "hi") noContext gemini_pro failThenAnswer = (Returned r, w') /\
    responseTime r = Date_now (env w') - 1100.
Proof.
  pose proof failThenAnswerRun_eq as E. unfold failThenAnswerRun in E.
  eexists. eexists. split; [exact E|].
  destruct (generateResponse_responseTime _ _ _ _ _ _ E)
    as [[_ [H _]] | [e [w1 [_ [_ [_ [H _]]]]]]]; reflexivity.
Defined.

(** ** The usage limiter *)

Section LimiterProperties.

Context {X : Externals}.

(** C6.  For a tenant that exists, [checkTenantLimits] returns, changes
    nothing, and for each of [conversations] and [messages] reports the
    number of rows created since the start of the month as [used], and
    [exceeded = true] exactly when the stored limit is above zero and [used]
    has reached it.  A stored limit of zero or less, -1 included, is never
    exceeded. *)
Theorem checkTenantLimits_exceeded :
  forall (w : World) (id : jsstring) (tenant : Tenant),
    tenant_findUnique (db w) id = Some tenant ->
    exists limits : TenantLimits,
      checkTenantLimits id w = (Returned limits, w) /\
      forall (limitType : LimitType) (s : LimitStatus),
        limitOf limits limitType = Some s ->
        used s = usedSince (db w) id (startOfMonth (Date_now (env w))) limitType /\
        (exceeded s = true <->
         exists l, storedLimit tenant limitType = Some l /\ 0 < l /\ l <= used s) /\
        (forall l, storedLimit tenant limitType = Some l -> l <= 0 ->
                   exceeded s = false).
Proof.
  intros w id tenant Hfind.
  unfold checkTenantLimits. run_async. rewrite Hfind.
  eexists. split; [reflexivity|].
  assert (Hstatus : forall (stored : option Z) (count : Z),
    (isPositive stored && reaches count stored = true <->
     exists l, stored = Some l /\ 0 < l /\ l <= count) /\
    (forall l, stored = Some l -> l <= 0 ->
               isPositive stored && reaches count stored = false)).
  { intros [l|] count; simpl; split.
    - rewrite andb_true_iff, Z.ltb_lt, Z.leb_le. split.
      + intros [H1 H2]. now exists l.
      + intros [l' [E [H1 H2]]]. injection E as <-. now split.
    - intros l' E Hle. injection E as <-.
      destruct (Z.ltb_spec 0 l); [lia | reflexivity].
    - split; [discriminate | intros [l [E _]]; discriminate].
    - discriminate. }
  intros [] s Hs; simpl in Hs; inversion Hs; subst; clear Hs; simpl;
    (split; [reflexivity | apply Hstatus]).
Qed.

End LimiterProperties.

(** ** Ordering of messages *)

Lemma insertDesc_Permutation (m : Message) (l : list Message) :
  Permutation (m :: l) (insertDesc m l).
Proof.
  induction l as [|x l IH]; simpl; [reflexivity|].
  destruct (message_createdAt x <=? message_createdAt m); [reflexivity|].
  rewrite perm_swap. now apply perm_skip.
Qed.

Lemma orderByCreatedAtDesc_Permutation (l : list Message) :
  Permutation l (orderByCreatedAtDesc l).
Proof.
  induction l as [|m l IH]; simpl; [reflexivity|].
  rewrite IH at 1. apply insertDesc_Permutation.
Qed.

Lemma insertDesc_sorted (m : Message) (l : list Message) :
  StronglySorted notBefore l -> StronglySorted notBefore (insertDesc m l).
Proof.
  induction 1 as [|x l Hs IH Hx]; simpl.
  - repeat constructor.
  - destruct (Z.leb_spec (message_createdAt x) (message_createdAt m)) as [Hle|Hgt].
    + constructor; [now constructor|].
      constructor; [exact Hle|].
      rewrite Forall_forall in Hx |- *. intros y Hy.
      specialize (Hx y Hy). unfold notBefore in *. lia.
    + constructor; [exact IH|].
      rewrite Forall_forall in Hx |- *. intros y Hy.
      apply (Permutation_in _ (Permutation_sym (insertDesc_Permutation m l))) in Hy.
      destruct Hy as [<- | Hy]; [unfold notBefore; lia | now apply Hx].
Qed.

Lemma orderByCreatedAtDesc_sorted (l : list Message) :
  StronglySorted notBefore (orderByCreatedAtDesc l).
Proof.
  induction l as [|m l IH]; simpl; [constructor | now apply insertDesc_sorted].
Qed.

Lemma StronglySorted_app_inv {A} (R : A -> A -> Prop) (l1 l2 : list A) :
  StronglySorted R (l1 ++ l2) ->
  StronglySorted R l1 /\ StronglySorted R l2 /\
  forall a b, In a l1 -> In b l2 -> R a b.
Proof.
  induction l1 as [|x l1 IH]; simpl; intros H.
  - repeat split; [constructor | assumption | intros a b []].
  - inversion H as [|? ? Hs Hx]; subst. destruct (IH Hs) as [H1 [H2 H3]].
    rewrite Forall_app in Hx. destruct Hx as [Hx1 Hx2].
    repeat split; [now constructor | assumption |].
    intros a b [<- | Ha] Hb; [|now apply H3].
    rewrite Forall_forall in Hx2. now apply Hx2.
Qed.

(** Reversing a newest-first list gives an oldest-first one. *)
Lemma StronglySorted_rev (l : list Message) :
  StronglySorted notBefore l -> StronglySorted notAfter (rev l).
Proof.
  induction 1 as [|x l Hs IH Hx]; simpl; [constructor|].
  assert (Happ : forall l1 : list Message,
            StronglySorted notAfter l1 ->
            Forall (fun y => notAfter y x) l1 ->
            StronglySorted notAfter (l1 ++ [x])).
  { induction 1 as [|y l1 Hs1 IH1 Hy]; simpl; intros Hall.
    - repeat constructor.
    - inversion Hall; subst. constructor; [now apply IH1|].
      rewrite Forall_app. split; [assumption | now repeat constructor]. }
  apply Happ; [exact IH|].
  rewrite Forall_forall in Hx |- *. intros y Hy. apply in_rev in Hy.
  exact (Hx y Hy).
Qed.

(** ** The chat route *)

Section RouteProperties.

Context {X : Externals}.

Lemma bind_returned {A B} (c : M A) (k : A -> M B) (w w1 : World) (a : A) :
  c w = (Returned a, w1) -> bind c k w = k a w1.
Proof. intros H. unfold bind. now rewrite H. Qed.

Lemma bind_thrown {A B} (c : M A) (k : A -> M B) (w w1 : World) (e : JsError) :
  c w = (Thrown e, w1) -> bind c k w = (Thrown e, w1).
Proof. intros H. unfold bind. now rewrite H. Qed.

Lemma tenant_findUnique_id (d : DB) (id : jsstring) (t : Tenant) :
  tenant_findUnique d id = Some t -> tenant_id t = id.
Proof.
  unfold tenant_findUnique. intros H. apply find_some in H as [_ H].
  now apply jsstring_eqb_eq.
Qed.

Lemma conversation_findUnique_id (d : DB) (id : jsstring) (c : Conversation) :
  conversation_findUnique d id = Some c -> conversation_id c = id.
Proof.
  unfold conversation_findUnique. intros H. apply find_some in H as [_ H].
  now apply jsstring_eqb_eq.
Qed.

(** [generateResponse] leaves the database alone, throws only its own
    error, and invokes backends with the message and context it was
    given. *)
Lemma generateResponse_effects (message : jsstring) (context : ChatContext)
    (model : AIModel) (w : World) :
  let (out, w') := generateResponse message context model w in
  db w' = db w /\
  (forall e, out = Thrown e -> e = Error (lit "Error al generar respuesta con IA")) /\
  exists invocations,
    calls w' = calls w ++ invocations /\
    Forall (fun c => call_message c = message /\ call_context c = context) invocations.
Proof.
  rewrite generateResponse_body.
  pose proof (dispatch_invokes message context model (Date_now (env w)) w) as H1.
  destruct (dispatch message context model (Date_now (env w)) w) as [[r|e] w1].
  - destruct H1 as [Hc Hd]. split; [exact Hd|]. split; [discriminate|].
    eexists. split; [exact Hc|]. repeat constructor.
  - destruct H1 as [Hc1 Hd1]. destruct (AIModel_eqb model gpt_4).
    + split; [exact Hd1|]. split; [now intros e' [= <-]|].
      eexists. split; [exact Hc1|]. repeat constructor.
    + rewrite generateResponse_body. simpl.
      pose proof (dispatch_invokes message context gpt_4 (Date_now (env w1)) w1) as H2.
      destruct (dispatch message context gpt_4 (Date_now (env w1)) w1) as [[r|e2] w2];
        destruct H2 as [Hc2 Hd2].
      * split; [congruence|]. split; [discriminate|].
        eexists. split; [rewrite Hc2, Hc1, <- app_assoc; reflexivity|].
        repeat constructor.
      * split; [congruence|]. split; [now intros e' [= <-]|].
        eexists. split; [rewrite Hc2, Hc1, <- app_assoc; reflexivity|].
        repeat constructor.
Qed.

(** What validation lets through. *)
Lemma chatMessageSchema_parse_cases (b : Body) (w : World) :
  (exists v,
     chatMessageSchema_parse b w = (Returned v, w) /\
     body_message b = Some (message v) /\
     body_widgetId b = Some (widgetId v) /\
     conversationId v = body_conversationId b /\
     userId v = body_userId b /\
     metadata v = body_metadata b /\
     1 <= js_length (message v) <= 1000 /\
     isUuid (widgetId v) = true /\
     (forall id, conversationId v = Some id -> isUuid id = true))
  \/
  (exists issues, chatMessageSchema_parse b w = (Thrown (ZodError issues), w)).
Proof.
  unfold chatMessageSchema_parse.
  destruct (body_message b) as [m|]; [|right; eexists; reflexivity].
  destruct (body_widgetId b) as [wid|];
    [|right; cbv zeta;
      destruct (_ ++ _ ++ [widgetId_required]) eqn:E; eexists; reflexivity].
  simpl.
  destruct (Z.ltb_spec (js_length m) 1); simpl;
    [right; eexists; reflexivity|].
  destruct (Z.ltb_spec 1000 (js_length m)); simpl;
    [right; eexists; reflexivity|].
  destruct (body_conversationId b) as [cid|] eqn:Ec; simpl.
  - destruct (isUuid cid) eqn:Eu; simpl; [|right; eexists; reflexivity].
    destruct (isUuid wid) eqn:Ew; simpl; [|right; eexists; reflexivity].
    left. eexists. split; [reflexivity|]. simpl. repeat split; try lia; auto.
    intros id [= <-]. exact Eu.
  - destruct (isUuid wid) eqn:Ew; simpl; [|right; eexists; reflexivity].
    left. eexists. split; [reflexivity|]. simpl. repeat split; try lia; auto.
    discriminate.
Qed.

Lemma includeMessages_messages (d d' : DB) (id : jsstring) :
  messages d' = messages d -> includeMessages d' id = includeMessages d id.
Proof. intros H. unfold includeMessages, messagesOf. now rewrite H. Qed.

Lemma resolveConversation_cases (v : ChatMessage) (widget : Widget)
    (chatbot : Chatbot) (w : World) :
  match resolveConversation v widget chatbot w with
  | (Returned (inl r), w1) =>
      w1 = w /\ r = json 404 (JustError Conversacion_no_encontrada) /\
      exists id, conversationId v = Some id /\ truthy id = true /\
        (conversation_findUnique (db w) id = None \/
         exists c, conversation_findUnique (db w) id = Some c /\
                   conversation_tenantId c <> widget_tenantId widget)
  | (Returned (inr conv), w1) =>
      calls w1 = calls w /\
      messages (db w1) = messages (db w) /\
      conversation_messages conv
        = includeMessages (db w) (conversation_id (conversation conv)) /\
      conversation_tenantId (conversation conv) = widget_tenantId widget /\
      suppliedOrCreated v widget w w1 (conversation conv)
  | (Thrown _, _) => False
  end.
Proof.
  unfold resolveConversation, conversation_create, suppliedOrCreated.
  destruct (conversationId v) as [id|] eqn:Ev; [destruct (truthy id) eqn:Et|].
  - run_async. destruct (conversation_findUnique (db w) id) as [c|] eqn:Ef.
    + destruct (jsstring_eqb (conversation_tenantId c) (widget_tenantId widget)) eqn:Ec;
        simpl.
      * split; [reflexivity|]. split; [reflexivity|]. split; [reflexivity|].
        split; [now apply jsstring_eqb_eq|].
        left. exists id. auto.
      * split; [reflexivity|]. split; [reflexivity|].
        exists id. split; [reflexivity|]. split; [exact Et|].
        right. exists c. split; [exact Ef | now apply jsstring_eqb_neq].
    + split; [reflexivity|]. split; [reflexivity|].
      exists id. auto.
  - run_async. destruct (rowDefaults (env w)) as [[newId createdAt] e1]; simpl.
    split; [reflexivity|]. split; [reflexivity|]. split; [reflexivity|].
    split; [reflexivity|].
    right. split; [|auto]. intros id' [= <-]. exact Et.
  - run_async. destruct (rowDefaults (env w)) as [[newId createdAt] e1]; simpl.
    split; [reflexivity|]. split; [reflexivity|]. split; [reflexivity|].
    split; [reflexivity|].
    right. split; [|auto]. discriminate.
Qed.

Lemma prepareTurn_cases (req : Request) (w : World) :
  match prepareTurn req w with
  | (Returned (inl r), w1) => w1 = w /\ (status r = 404 \/ status r = 503)
  | (Returned (inr turn), w1) => turnReached req w turn w1
  | (Thrown (ZodError _), w1) => w1 = w
  | (Thrown (Error msg), w1) => msg = lit "Cannot read properties of null"
  end.
Proof.
  unfold prepareTurn.
  destruct (chatMessageSchema_parse_cases (body req) w)
    as [[v [Hp _]] | [issues Hp]];
    [rewrite (bind_returned _ _ _ _ _ Hp)
    |rewrite (bind_thrown _ _ _ _ _ Hp); reflexivity].
  rewrite (bind_returned getDb _ w w (db w) eq_refl).
  destruct (widget_findUnique (db w) (widgetId v)) as [widget|] eqn:Ew;
    [|simpl; auto].
  destruct (widget_isActive widget); simpl; [|auto].
  destruct (chatbot_findUnique (db w) (widget_chatbotId widget)) as [chatbot|];
    [|simpl; auto].
  destruct (chatbot_isActive chatbot); simpl; [|auto].
  pose proof (resolveConversation_cases v widget chatbot w) as Hr.
  destruct (resolveConversation v widget chatbot w) as [[[r|conv]|e] w0] eqn:Er;
    [rewrite (bind_returned _ _ _ _ _ Er) .. | contradiction].
  - destruct Hr as [-> [-> _]]. simpl. auto.
  - destruct Hr as [Hcalls [Hmsgs [Hincl [Hten Hsc]]]].
    unfold message_create. run_async.
    destruct (rowDefaults (env w0)) as [[newId createdAt] e1]; simpl.
    destruct (tenant_findUnique (db w) (widget_tenantId widget)) as [tenant|] eqn:Et;
      [|reflexivity].
    exists widget, tenant. simpl.
    split; [exact Hp|]. split; [exact Ew|]. split; [exact Et|].
    split; [exact Hten|]. split.
    { destruct Hsc as [[id [H1 [H2 [H3 H4]]]] | [H1 [H2 [H3 H4]]]].
      - left. exists id. auto.
      - right. auto. }
    split; [exact Hcalls|]. split; [now rewrite Hmsgs|].
    repeat split. exact Hincl.
Qed.

(** The handler from the AI call on.  When generation throws, the [catch]
    block answers 500 and nothing more is written; when it returns, the
    bot's message is written and the answer is 200. *)
Lemma chatMessageHandler_turn (req : Request) (w w1 : World) (turn : Turn) :
  prepareTurn req w = (Returned (inr turn), w1) ->
  match generateResponse (message (turn_data turn)) (turn_context turn)
                         (turn_model turn) w1 with
  | (Thrown _, w2) =>
      chatMessageHandler req w = (Returned (json 500 ProcessingError), w2)
  | (Returned aiResponse, w2) =>
      exists (r : HttpResponse) (botMessage : Message) (w3 : World),
        chatMessageHandler req w = (Returned r, w3) /\
        status r = 200 /\
        messages (db w3) = messages (db w2) ++ [botMessage] /\
        message_sender botMessage = BOT /\
        message_content botMessage = response_content aiResponse /\
        calls w3 = calls w2
  end.
Proof.
  intros Hprep.
  pose proof (generateResponse_effects (message (turn_data turn))
                (turn_context turn) (turn_model turn) w1) as Hgen.
  unfold chatMessageHandler, try_catch.
  rewrite (bind_returned _ _ _ _ _ Hprep). cbv beta iota zeta.
  destruct (generateResponse (message (turn_data turn)) (turn_context turn)
              (turn_model turn) w1) as [[ai|e] w2] eqn:Eg.
  - rewrite (bind_returned _ _ _ _ _ Eg).
    unfold message_create. run_async.
    destruct (rowDefaults (env w2)) as [[newId createdAt] e1]; simpl.
    eexists. eexists. eexists. split; [reflexivity|]. simpl. auto.
  - rewrite (bind_thrown _ _ _ _ _ Eg).
    destruct Hgen as [_ [He _]]. rewrite (He e eq_refl). reflexivity.
Qed.

(** C2.  When a turn has resolved its conversation and stored the user's
    message, and the AI generation then throws (the selected model and, if
    there was one, the fallback), the handler answers 500, the messages
    table is the one the request found plus the user's message, and every
    BOT message in it was there before. *)
Theorem user_message_survives_ai_failure :
  forall (req : Request) (w w1 w2 : World) (turn : Turn) (e : JsError),
    prepareTurn req w = (Returned (inr turn), w1) ->
    generateResponse (message (turn_data turn)) (turn_context turn)
                     (turn_model turn) w1 = (Thrown e, w2) ->
    let m := turn_userMessage turn in
    chatMessageHandler req w = (Returned (json 500 ProcessingError), w2) /\
    messages (db w2) = messages (db w) ++ [m] /\
    message_sender m = USER /\
    body_message (body req) = Some (message_content m) /\
    In m (messagesOf (db w2)
            (conversation_id (conversation (turn_conversation turn)))) /\
    (forall b, In b (messages (db w2)) -> message_sender b = BOT ->
               In b (messages (db w))).
Proof.
  intros req w w1 w2 turn e Hprep Hgen m.
  pose proof (chatMessageHandler_turn req w w1 turn Hprep) as Hh.
  pose proof (generateResponse_effects (message (turn_data turn))
                (turn_context turn) (turn_model turn) w1) as He.
  rewrite Hgen in Hh, He. destruct He as [Hdb _].
  pose proof (prepareTurn_cases req w) as Hc. rewrite Hprep in Hc.
  destruct Hc as [widget [tenant Hc]]. cbv zeta in Hc.
  destruct Hc as [Hparse [_ [_ [_ [_ [_ [Hmsgs [Hsender [Hcontent [Hconv _]]]]]]]]]].
  assert (Hall : messages (db w2) = messages (db w) ++ [m])
    by (rewrite Hdb; exact Hmsgs).
  split; [exact Hh|]. split; [exact Hall|]. split; [exact Hsender|].
  split; [|split].
  - destruct (chatMessageSchema_parse_cases (body req) w)
      as [[v [Hp [Hm _]]] | [issues Hp]]; rewrite Hp in Hparse.
    + injection Hparse as ->. fold m in Hcontent. now rewrite Hcontent.
    + discriminate.
  - unfold messagesOf. apply filter_In. split.
    + rewrite Hall. apply in_or_app. right. now left.
    + fold m in Hconv. rewrite Hconv. apply jsstring_eqb_refl.
  - intros b Hin Hbot. rewrite Hall in Hin.
    apply in_app_or in Hin as [Hin | [<- | []]]; [assumption|].
    fold m in Hsender. rewrite Hsender in Hbot. discriminate.
Qed.


(** The included messages, reversed: the newest ten of the conversation,
    oldest first. *)
Lemma includeMessages_newest (d : DB) (id : jsstring) :
  let stored := messagesOf d id in
  exists older : list Message,
    Permutation stored (older ++ rev (includeMessages d id)) /\
    List.length (includeMessages d id) = Nat.min (List.length stored) 10 /\
    StronglySorted notAfter (rev (includeMessages d id)) /\
    (forall o r, In o older -> In r (rev (includeMessages d id)) -> notAfter o r).
Proof.
  intros stored. unfold includeMessages. fold stored.
  set (sorted := orderByCreatedAtDesc stored).
  pose proof (orderByCreatedAtDesc_Permutation stored) as Hperm. fold sorted in Hperm.
  pose proof (orderByCreatedAtDesc_sorted stored) as Hsorted. fold sorted in Hsorted.
  rewrite <- (firstn_skipn 10 sorted) in Hsorted.
  apply StronglySorted_app_inv in Hsorted as [Hfirst [_ Hcross]].
  exists (rev (skipn 10 sorted)). repeat split.
  - rewrite <- rev_app_distr, firstn_skipn, Hperm. apply Permutation_rev.
  - rewrite length_firstn, (Permutation_length Hperm). apply Nat.min_comm.
  - now apply StronglySorted_rev.
  - intros o r Ho Hr. apply in_rev in Ho, Hr. exact (Hcross r o Hr Ho).
Qed.

(** C5.  When a turn reaches the AI call for a conversation that held [k]
    messages as the request arrived, the history in its context has
    [min k 10] entries: they are the newest of those messages (every message
    left out is no newer than any taken), oldest first, a USER message as
    role [user] and a BOT message as role [assistant].  The user's message
    of this turn is stored after those [k] and is not among them.  Every
    provider invocation of the turn carries this context. *)
Theorem context_assembly :
  forall (req : Request) (w w1 : World) (turn : Turn),
    prepareTurn req w = (Returned (inr turn), w1) ->
    let id := conversation_id (conversation (turn_conversation turn)) in
    let stored := messagesOf (db w) id in
    exists (older recent : list Message) (history : list HistoryEntry),
      conversationHistory (turn_context turn) = Some history /\
      Permutation stored (older ++ recent) /\
      List.length recent = Nat.min (List.length stored) 10 /\
      List.length history = Nat.min (List.length stored) 10 /\
      StronglySorted notAfter recent /\
      (forall o r, In o older -> In r recent -> notAfter o r) /\
      Forall2 (fun msg entry =>
                 content entry = message_content msg /\
                 (message_sender msg = USER -> role entry = user) /\
                 (message_sender msg = BOT -> role entry = assistant))
              recent history /\
      messagesOf (db w1) id = stored ++ [turn_userMessage turn] /\
      (forall out w',
         chatMessageHandler req w = (out, w') ->
         exists invocations,
           calls w' = calls w ++ invocations /\
           Forall (fun c => call_context c = turn_context turn) invocations).
Proof.
  intros req w w1 turn Hprep id stored.
  pose proof (prepareTurn_cases req w) as Hc. rewrite Hprep in Hc.
  destruct Hc as [widget [tenant Hc]]. cbv zeta in Hc.
  destruct Hc as [_ [_ [_ [_ [_ [Hcalls [Hmsgs [_ [_ [Hconv [Hincl [Hhist _]]]]]]]]]]]].
  fold id in Hconv, Hincl.
  destruct (includeMessages_newest (db w) id) as [older [Hperm [Hlen [Hsorted Hcross]]]].
  fold stored in Hperm, Hlen.
  exists older, (rev (includeMessages (db w) id)),
    (conversationHistoryOf (includeMessages (db w) id)).
  split; [now rewrite Hhist, Hincl|]. split; [exact Hperm|].
  split; [now rewrite length_rev|].
  split; [unfold conversationHistoryOf; now rewrite length_map, length_rev|].
  split; [exact Hsorted|]. split; [exact Hcross|]. split; [|split].
  - unfold conversationHistoryOf.
    generalize (rev (includeMessages (db w) id)). clear.
    intros l. induction l as [|msg l IH]; simpl; constructor; [|exact IH].
    simpl. split; [reflexivity|]. split; intros Hs; rewrite Hs; reflexivity.
  - unfold stored, messagesOf. rewrite Hmsgs, filter_app. simpl.
    rewrite Hconv, jsstring_eqb_refl. reflexivity.
  - intros out w' Hrun.
    pose proof (chatMessageHandler_turn req w w1 turn Hprep) as Hh.
    pose proof (generateResponse_effects (message (turn_data turn))
                  (turn_context turn) (turn_model turn) w1) as He.
    destruct (generateResponse (message (turn_data turn)) (turn_context turn)
                (turn_model turn) w1) as [[ai|e] w2].
    + destruct Hh as [r [bot [w3 [Hh [_ [_ [_ [_ Hc3]]]]]]]].
      rewrite Hh in Hrun. injection Hrun as _ <-.
      destruct He as [_ [_ [invocations [Hc2 Hall]]]].
      exists invocations. split; [now rewrite Hc3, Hc2, Hcalls|].
      eapply Forall_impl; [|exact Hall]. intros c [_ H]. exact H.
    + rewrite Hh in Hrun. injection Hrun as _ <-.
      destruct He as [_ [_ [invocations [Hc2 Hall]]]].
      exists invocations. split; [now rewrite Hc2, Hcalls|].
      eapply Forall_impl; [|exact Hall]. intros c [_ H]. exact H.
Qed.

(** The handler always answers, and never with a usage-limit rejection. *)
Lemma chatMessageHandler_answers (req : Request) (w : World) :
  exists r w', chatMessageHandler req w = (Returned r, w') /\
               isLimitExceeded r = false.
Proof.
  pose proof (prepareTurn_cases req w) as Hc.
  destruct (prepareTurn req w) as [[[r|turn]|[issues|msg]] w1] eqn:Hprep.
  - exists r, w1. unfold chatMessageHandler, try_catch.
    rewrite (bind_returned _ _ _ _ _ Hprep). split; [reflexivity|].
    unfold isLimitExceeded. destruct Hc as [_ [-> | ->]]; reflexivity.
  - pose proof (chatMessageHandler_turn req w w1 turn Hprep) as Hh.
    destruct (generateResponse (message (turn_data turn)) (turn_context turn)
                (turn_model turn) w1) as [[ai|e] w2].
    + destruct Hh as [r [bot [w3 [Hh [Hs _]]]]].
      exists r, w3. split; [exact Hh|]. unfold isLimitExceeded. now rewrite Hs.
    + eexists. eexists. split; [exact Hh | reflexivity].
  - eexists. eexists. unfold chatMessageHandler, try_catch.
    rewrite (bind_thrown _ _ _ _ _ Hprep). split; reflexivity.
  - subst msg. eexists. eexists. unfold chatMessageHandler, try_catch.
    rewrite (bind_thrown _ _ _ _ _ Hprep). split; reflexivity.
Qed.

(** What [validateWidgetAccess] does. *)
Lemma validateWidgetAccess_cases (req : Request) (w : World) :
  (exists r, validateWidgetAccess req w = (Returned (Respond r), w) /\
             isLimitExceeded r = false /\
             forall widget tenant, ~ widgetAccess req (db w) widget tenant)
  \/
  (exists widget tenant,
     widgetAccess req (db w) widget tenant /\
     validateWidgetAccess req w
       = (Returned (Next {| body := body req; tenantId := Some (tenant_id tenant) |}), w)).
Proof.
  unfold validateWidgetAccess, widgetAccess. run_async.
  destruct (body_widgetId (body req)) as [id|] eqn:Eb.
  2: { left. eexists. split; [reflexivity|]. split; [reflexivity|].
       intros ? ? [? [? [? [? [? [? ?]]]]]]. congruence. }
  destruct (truthy id) eqn:Et; simpl.
  2: { left. eexists. split; [reflexivity|]. split; [reflexivity|].
       intros ? ? [? [? [? [? [? [? ?]]]]]]. congruence. }
  destruct (widget_findUnique (db w) id) as [widget|] eqn:Ew.
  2: { left. eexists. split; [reflexivity|]. split; [reflexivity|].
       intros ? ? [? [? [? [? [? [? ?]]]]]]. congruence. }
  destruct (widget_isActive widget) eqn:Ea; simpl.
  2: { left. eexists. split; [reflexivity|]. split; [reflexivity|].
       intros ? ? [? [? [? [? [? [? ?]]]]]]. congruence. }
  destruct (tenant_findUnique (db w) (widget_tenantId widget)) as [tenant|] eqn:Ef.
  2: { left. eexists. split; [reflexivity|]. split; [reflexivity|].
       intros ? ? [? [? [? [? [? [? ?]]]]]]. congruence. }
  destruct (tenant_isActive tenant) eqn:Eta; simpl.
  2: { left. eexists. split; [reflexivity|]. split; [reflexivity|].
       intros ? ? [? [? [? [? [? [? ?]]]]]]. congruence. }
  right. exists widget, tenant. split; [|reflexivity].
  exists id. repeat split; assumption.
Qed.

(** What [checkUsageLimits('conversations')] does for a tenant that
    exists. *)
Lemma checkUsageLimits_conversations (req : Request) (w : World)
    (id : jsstring) (tenant : Tenant) :
  tenantId req = Some id ->
  tenant_findUnique (db w) id = Some tenant ->
  (conversationsExceeded (db w) tenant (Date_now (env w)) /\
   exists r, checkUsageLimits conversations_limit req w = (Returned (Respond r), w) /\
             isLimitExceeded r = true)
  \/
  (~ conversationsExceeded (db w) tenant (Date_now (env w)) /\
   checkUsageLimits conversations_limit req w = (Returned (Next req), w)).
Proof.
  intros Hid Hfind. pose proof (tenant_findUnique_id _ _ _ Hfind) as Htid.
  unfold checkUsageLimits, checkTenantLimits, conversationsExceeded.
  rewrite Hid. run_async. rewrite Hfind. cbn [limitOf limits_of_conversations exceeded].
  rewrite Htid.
  destruct (limits_conversations (tenant_limits tenant)) as [l|]; simpl.
  - destruct (Z.ltb_spec 0 l); simpl.
    + destruct (Z.leb_spec l (conversation_count (db w) id
                                (startOfMonth (Date_now (env w))))); simpl.
      * left. split; [now exists l|]. eexists. split; reflexivity.
      * right. split; [|reflexivity]. intros [l' [[= <-] [_ H']]]. lia.
    + right. split; [|reflexivity]. intros [l' [[= <-] [H' _]]]. lia.
  - right. split; [|reflexivity]. intros [l' [H' _]]. discriminate.
Qed.

Lemma widgetAccess_unique (req : Request) (d : DB)
    (widget widget' : Widget) (tenant tenant' : Tenant) :
  widgetAccess req d widget tenant -> widgetAccess req d widget' tenant' ->
  widget' = widget /\ tenant' = tenant.
Proof.
  intros [id [H1 [_ [H2 [_ [H3 _]]]]]] [id' [H1' [_ [H2' [_ [H3' _]]]]]].
  rewrite H1 in H1'. injection H1' as <-.
  rewrite H2 in H2'. injection H2' as <-.
  rewrite H3 in H3'. injection H3' as <-. auto.
Qed.

(** The route, middleware by middleware, for a request the rate limiter
    lets through. *)
Lemma postMessage_steps (req : Request) (w : World) (e1 : Env) :
  rateLimited (env w) = (false, e1) ->
  let w1 := {| env := e1; db := db w; calls := calls w |} in
  (exists r, postMessage req w = (Returned r, w1) /\ isLimitExceeded r = false /\
             forall widget tenant, ~ widgetAccess req (db w) widget tenant)
  \/
  (exists widget tenant,
     widgetAccess req (db w) widget tenant /\
     ((conversationsExceeded (db w) tenant (Date_now e1) /\
       exists r, postMessage req w = (Returned r, w1) /\ isLimitExceeded r = true)
      \/
      (~ conversationsExceeded (db w) tenant (Date_now e1) /\
       postMessage req w
         = chatMessageHandler
             {| body := body req; tenantId := Some (tenant_id tenant) |} w1))).
Proof.
  intros Hrate w1.
  assert (Hstart : postMessage req w
            = (step <- validateWidgetAccess req ;;
               match step with
               | Respond r => ret r
               | Next req' =>
                   route [checkUsageLimits conversations_limit]
                         chatMessageHandler req'
               end) w1).
  { unfold postMessage. simpl. unfold tenantCors, chatLimiter.
    cbv beta iota zeta delta [bind ret external]. rewrite Hrate. reflexivity. }
  rewrite Hstart.
  destruct (validateWidgetAccess_cases req w1)
    as [[r [Hv [Hr Hno]]] | [widget [tenant [Hacc Hv]]]];
    rewrite (bind_returned _ _ _ _ _ Hv).
  - left. exists r. split; [reflexivity|]. split; [exact Hr | exact Hno].
  - right. exists widget, tenant. split; [exact Hacc|].
    set (req' := {| body := body req; tenantId := Some (tenant_id tenant) |}).
    assert (Hfind : tenant_findUnique (db w1) (tenant_id tenant) = Some tenant).
    { destruct Hacc as [id [_ [_ [_ [_ [Hf _]]]]]].
      rewrite (tenant_findUnique_id _ _ _ Hf). exact Hf. }
    simpl route.
    destruct (checkUsageLimits_conversations req' w1 (tenant_id tenant) tenant
                eq_refl Hfind) as [[Hex [r [Hc Hr]]] | [Hnot Hc]];
      rewrite (bind_returned _ _ _ _ _ Hc).
    + left. split; [exact Hex|]. exists r. split; [reflexivity | exact Hr].
    + right. split; [exact Hnot | reflexivity].
Qed.

(** C10.  The usage gate of the chat route looks at the conversations limit
    alone.  A request is answered with a usage-limit rejection only when the
    rate limiter let it through, its widget and tenant passed
    [validateWidgetAccess], and the tenant's conversations limit is reached;
    so the messages limit, reached or not, never rejects a request.  And
    every request that gets that far with the conversations limit reached is
    rejected, whether or not it names an existing conversation, with nothing
    written and no provider invoked. *)
Theorem usage_gate_conversations_only :
  forall (req : Request) (w : World),
    (forall r w',
       postMessage req w = (Returned r, w') ->
       isLimitExceeded r = true ->
       exists e1 widget tenant,
         rateLimited (env w) = (false, e1) /\
         widgetAccess req (db w) widget tenant /\
         conversationsExceeded (db w) tenant (Date_now e1) /\
         db w' = db w /\ calls w' = calls w)
    /\
    (forall e1 widget tenant,
       rateLimited (env w) = (false, e1) ->
       widgetAccess req (db w) widget tenant ->
       conversationsExceeded (db w) tenant (Date_now e1) ->
       exists r,
         postMessage req w
           = (Returned r, {| env := e1; db := db w; calls := calls w |}) /\
         isLimitExceeded r = true).
Proof.
  intros req w. split.
  - intros r w' Hrun Hlimit.
    destruct (rateLimited (env w)) as [[|] e1] eqn:Hrate.
    + exfalso. revert Hrun. unfold postMessage. simpl. unfold tenantCors, chatLimiter.
      cbv beta iota zeta delta [bind ret external]. rewrite Hrate.
      intros [= <- _]. discriminate.
    + destruct (postMessage_steps req w e1 Hrate)
        as [[r1 [H1 [Hr1 _]]]
           | [widget [tenant [Hacc [[Hex [r1 [H1 Hr1]]] | [Hnot H1]]]]]];
        rewrite H1 in Hrun.
      * injection Hrun as <- _. congruence.
      * injection Hrun as <- <-. exists e1, widget, tenant. auto.
      * destruct (chatMessageHandler_answers
                    {| body := body req; tenantId := Some (tenant_id tenant) |}
                    {| env := e1; db := db w; calls := calls w |})
          as [r2 [w2 [H2 Hr2]]].
        rewrite H2 in Hrun. injection Hrun as <- _. congruence.
  - intros e1 widget tenant Hrate Hacc Hex.
    destruct (postMessage_steps req w e1 Hrate)
      as [[r1 [_ [_ Hno]]] | [widget' [tenant' [Hacc' Hcases]]]].
    + exfalso. exact (Hno widget tenant Hacc).
    + destruct (widgetAccess_unique _ _ _ _ _ _ Hacc Hacc') as [-> ->].
      destruct Hcases as [[_ [r [H1 Hr]]] | [Hnot _]]; [|contradiction].
      exists r. auto.
Qed.

End RouteProperties.

(** ** Concrete runs *)

Lemma checkTenantLimits_exceeded_witness :
  exists limits : TenantLimits,
    checkTenantLimits (lit "tenant-acme") (sampleWorld [])
      = (Returned limits, sampleWorld []) /\
    forall (limitType : LimitType) (s : LimitStatus),
      limitOf limits limitType = Some s ->
      used s = usedSince sampleDB (lit "tenant-acme") 0 limitType /\
      (exceeded s = true <->
       exists l, storedLimit acme limitType = Some l /\ 0 < l /\ l <= used s) /\
      (forall l, storedLimit acme limitType = Some l -> l <= 0 ->
                 exceeded s = false).
Proof.
  exact (checkTenantLimits_exceeded (sampleWorld []) (lit "tenant-acme") acme eq_refl).
Defined.

Lemma providersDownTurn_eq :
  prepareTurn (chatRequest acmeWidget None) providersDown = providersDownTurn.
Proof. reflexivity. Qed.

Lemma user_message_survives_ai_failure_witness :
  exists w2 : World,
    chatMessageHandler (chatRequest acmeWidget None) providersDown
      = (Returned (json 500 ProcessingError), w2) /\
    List.length (messages (db w2)) = 3%nat.
Proof.
  pose proof providersDownTurn_eq as E. unfold providersDownTurn in E.
  match type of E with
  | _ = (Returned (inr ?t), ?w1) =>
      let g := eval vm_compute in
        (generateResponse (message (turn_data t)) (turn_context t) (turn_model t) w1) in
      assert (G : generateResponse (message (turn_data t)) (turn_context t)
                    (turn_model t) w1 = g) by reflexivity
  end.
  destruct (user_message_survives_ai_failure _ _ _ _ _ _ E G) as [H [Hm _]].
  eexists. split; [exact H|]. rewrite Hm. reflexivity.
Defined.

Lemma continuingTurn_eq :
  prepareTurn (chatRequest acmeWidget (Some acmeConversation)) continuing
    = continuingTurn.
Proof. reflexivity. Qed.

Lemma context_assembly_witness :
  exists (turn : Turn) (w1 : World) (history : list HistoryEntry),
    prepareTurn (chatRequest acmeWidget (Some acmeConversation)) continuing
      = (Returned (inr turn), w1) /\
    conversationHistory (turn_context turn) = Some history /\
    List.length history = 2%nat.
Proof.
  pose proof continuingTurn_eq as E. unfold continuingTurn in E.
  destruct (context_assembly _ _ _ _ E)
    as [older [recent [history [H1 [_ [_ [H4 _]]]]]]].
  eexists. eexists. exists history.
  split; [exact E|]. split; [exact H1 | exact H4].
Defined.



(** Globex has reached its limit of one conversation: a message that
    continues its existing conversation is rejected all the same. *)
Lemma usage_gate_conversations_only_witness :
  exists r,
    postMessage (chatRequest globexWidget (Some globexConversation)) (sampleWorld [])
      = (Returned r, sampleWorld []) /\
    isLimitExceeded r = true.
Proof.
  apply (proj2 (usage_gate_conversations_only
                  (chatRequest globexWidget (Some globexConversation))
                  (sampleWorld []))
               (env (sampleWorld [])) globexWidget globex).
  - reflexivity.
  - exists (widget_id globexWidget). repeat split.
  - exists 1. split; [reflexivity|]. split; [lia|]. vm_compute. discriminate.
Defined.

(** Acme has used 2 messages against a limit of 1, and its next message is
    served. *)
Lemma messages_limit_does_not_gate :
  (exists limits,
     fst (checkTenantLimits (lit "tenant-acme") continuing) = Returned limits /\
     exceeded (limits_of_messages limits) = true) /\
  (exists r w',
     postMessage (chatRequest acmeWidget (Some acmeConversation)) continuing
       = (Returned r, w') /\
     status r = 200).
Proof.
  split.
  - eexists. split; reflexivity.
  - set (run := postMessage (chatRequest acmeWidget (Some acmeConversation)) continuing).
    let g := eval vm_compute in run in
    assert (G : run = g) by reflexivity.
    rewrite G. eexists. eexists. split; reflexivity.
Qed.

(* ===================================================================== *)
(** * Further properties *)
(* ===================================================================== *)

(** ** The classifier on related messages *)

Lemma toLowerCase_app (a b : jsstring) :
  toLowerCase (a ++ b) = toLowerCase a ++ toLowerCase b.
Proof. unfold toLowerCase. apply flat_map_app. Qed.

Lemma occursIn_app (k a s b : jsstring) :
  occursIn k s -> occursIn k (a ++ s ++ b).
Proof.
  intros [pre [post ->]]. exists (a ++ pre), (post ++ b).
  now rewrite <- !app_assoc.
Qed.

Lemma countMatches_app (c : N) (a b : jsstring) :
  countMatches c (a ++ b) = countMatches c a + countMatches c b.
Proof.
  unfold countMatches. rewrite filter_app, length_app. lia.
Qed.

Lemma countMatches_nonneg (c : N) (s : jsstring) : 0 <= countMatches c s.
Proof. unfold countMatches. lia. Qed.

(** X1.  Text added before or after a message never lowers its tier. *)
Theorem detectComplexity_monotone :
  forall before message after : jsstring,
    (tierRank (detectComplexity message)
     <= tierRank (detectComplexity (before ++ message ++ after)))%nat.
Proof.
  intros a m b. unfold detectComplexity.
  assert (Hlen : js_length m <= js_length (a ++ m ++ b)).
  { unfold js_length. rewrite !length_app. lia. }
  assert (Hq : countMatches 63 m <= countMatches 63 (a ++ m ++ b)).
  { rewrite !countMatches_app.
    pose proof (countMatches_nonneg 63 a). pose proof (countMatches_nonneg 63 b). lia. }
  assert (Hk : regexTest keywords (toLowerCase m) = true ->
               regexTest keywords (toLowerCase (a ++ m ++ b)) = true).
  { rewrite !regexTest_spec. intros [k [Hin Hocc]]. exists k. split; [exact Hin|].
    rewrite !toLowerCase_app. now apply occursIn_app. }
  destruct (regexTest keywords (toLowerCase m)).
  - rewrite (Hk eq_refl), !orb_true_r. simpl. lia.
  - clear Hk. rewrite orb_false_r.
    destruct (Z.ltb_spec 200 (js_length m)); simpl.
    + destruct (Z.ltb_spec 200 (js_length (a ++ m ++ b))); simpl; [lia | lia].
    + destruct (Z.ltb_spec 2 (countMatches 63 m)); simpl.
      * destruct (Z.ltb_spec 2 (countMatches 63 (a ++ m ++ b))); [|lia].
        rewrite orb_true_r. simpl. lia.
      * destruct (Z.ltb_spec 50 (js_length m)); simpl.
        -- destruct ((200 <? js_length (a ++ m ++ b))
                     || (2 <? countMatches 63 (a ++ m ++ b))
                     || regexTest keywords (toLowerCase (a ++ m ++ b)));
             simpl; [lia|].
           destruct (Z.ltb_spec 50 (js_length (a ++ m ++ b))); simpl; lia.
        -- destruct (Z.ltb_spec 0 (countMatches 63 m)); simpl; [|lia].
           destruct ((200 <? js_length (a ++ m ++ b))
                     || (2 <? countMatches 63 (a ++ m ++ b))
                     || regexTest keywords (toLowerCase (a ++ m ++ b)));
             simpl; [lia|].
           destruct (Z.ltb_spec 0 (countMatches 63 (a ++ m ++ b))); [|lia].
           rewrite orb_true_r. simpl. lia.
Qed.

Lemma lowerUnit_upperAscii (c : N) : lowerUnit (upperAscii c) = lowerUnit c.
Proof.
  unfold upperAscii.
  destruct ((97 <=? c)%N && (c <=? 122)%N) eqn:E; [|reflexivity].
  apply andb_true_iff in E as [H1 H2].
  apply N.leb_le in H1, H2. unfold lowerUnit.
  replace ((65 <=? c - 32)%N && (c - 32 <=? 90)%N) with true
    by (symmetry; apply andb_true_iff; split; apply N.leb_le; lia).
  replace ((65 <=? c)%N && (c <=? 90)%N) with false
    by (symmetry; apply andb_false_iff; right; apply N.leb_gt; lia).
  replace (c =? 8490)%N with false by (symmetry; apply N.eqb_neq; lia).
  replace (c =? 304)%N with false by (symmetry; apply N.eqb_neq; lia).
  f_equal. lia.
Qed.

Lemma toLowerCase_upperAscii (s : jsstring) :
  toLowerCase (map upperAscii s) = toLowerCase s.
Proof.
  unfold toLowerCase. induction s as [|c s IH]; simpl; [reflexivity|].
  now rewrite lowerUnit_upperAscii, IH.
Qed.

Lemma countMatches_upperAscii (s : jsstring) :
  countMatches 63 (map upperAscii s) = countMatches 63 s.
Proof.
  unfold countMatches. f_equal.
  induction s as [|c s IH]; cbn [map filter]; [reflexivity|].
  assert (E : (63 =? upperAscii c)%N = (63 =? c)%N).
  { unfold upperAscii.
    destruct (N.leb_spec 97 c); destruct (N.leb_spec c 122); cbn [andb];
      try reflexivity.
    destruct (N.eqb_spec 63 (c - 32)); destruct (N.eqb_spec 63 c);
      try reflexivity; exfalso; lia. }
  rewrite E. destruct (63 =? c)%N; cbn [List.length]; now rewrite IH.
Qed.

(** X2.  Two messages that differ only in the case of ASCII letters are
    classified alike. *)
Theorem detectComplexity_ascii_case :
  forall m m' : jsstring,
    map upperAscii m = map upperAscii m' ->
    detectComplexity m = detectComplexity m'.
Proof.
  assert (H : forall m, detectComplexity (map upperAscii m) = detectComplexity m).
  { intros m. unfold detectComplexity, js_length.
    now rewrite length_map, countMatches_upperAscii, toLowerCase_upperAscii. }
  intros m m' E. rewrite <- (H m), <- (H m'). now rewrite E.
Qed.

Lemma detectComplexity_ascii_case_witness :
  detectComplexity (lit "Compare THESE") = detectComplexity (lit "compare these").
Proof. apply detectComplexity_ascii_case. reflexivity. Defined.

(** ** The chat route, further *)

Section FurtherRouteProperties.

Context {X : Externals}.

(** Validation accepts exactly the valid bodies, and says why it refuses the
    others. *)
Lemma chatMessageSchema_parse_decides (b : Body) (w : World) :
  (validBody b /\
   exists v, chatMessageSchema_parse b w = (Returned v, w) /\
             body_message b = Some (message v) /\
             body_widgetId b = Some (widgetId v) /\
             conversationId v = body_conversationId b /\
             userId v = body_userId b /\
             metadata v = body_metadata b)
  \/
  (~ validBody b /\
   exists issues, issues <> [] /\
                  chatMessageSchema_parse b w = (Thrown (ZodError issues), w)).
Proof.
  unfold chatMessageSchema_parse, validBody.
  destruct (body_message b) as [m|].
  2: { right. split; [intros [m [wid [H _]]]; discriminate|].
       eexists. split; [|reflexivity]. discriminate. }
  destruct (body_widgetId b) as [wid|].
  2: { right. split; [intros [m' [wid [_ [_ [H _]]]]]; discriminate|].
       cbv zeta.
       destruct (_ ++ _ ++ [widgetId_required]) as [|i l] eqn:E.
       - exfalso. apply app_eq_nil in E as [_ E].
         apply app_eq_nil in E as [_ E]. discriminate.
       - eexists. split; [|reflexivity]. discriminate. }
  simpl.
  destruct (Z.ltb_spec (js_length m) 1); simpl.
  { right. split; [intros [m' [wid' [[= <-] [Hl _]]]]; lia|].
    eexists. split; [|reflexivity]. discriminate. }
  destruct (Z.ltb_spec 1000 (js_length m)); simpl.
  { right. split; [intros [m' [wid' [[= <-] [Hl _]]]]; lia|].
    eexists. split; [|reflexivity]. discriminate. }
  destruct (body_conversationId b) as [cid|] eqn:Ec; simpl.
  - destruct (isUuid cid) eqn:Eu; simpl.
    2: { right. split.
         - intros [m' [wid' [_ [_ [_ [_ Hc]]]]]].
           specialize (Hc cid eq_refl). congruence.
         - eexists. split; [|reflexivity]. discriminate. }
    destruct (isUuid wid) eqn:Ew; simpl.
    2: { right. split.
         - intros [m' [wid' [_ [_ [[= <-] [Hu _]]]]]]. congruence.
         - eexists. split; [|reflexivity]. discriminate. }
    left. split.
    + exists m, wid. repeat split; try lia; auto. intros c [= <-]. exact Eu.
    + eexists. split; [reflexivity|]. simpl. auto.
  - destruct (isUuid wid) eqn:Ew; simpl.
    2: { right. split.
         - intros [m' [wid' [_ [_ [[= <-] [Hu _]]]]]]. congruence.
         - eexists. split; [|reflexivity]. discriminate. }
    left. split.
    + exists m, wid. repeat split; try lia; auto. discriminate.
    + eexists. split; [reflexivity|]. simpl. auto.
Qed.

Lemma onlyAppends_refl (w : World) : onlyAppends w w [] [].
Proof. unfold onlyAppends. now rewrite !app_nil_r. Qed.

(** Resolving the conversation writes nothing, or one ACTIVE
    conversation. *)
Lemma resolveConversation_writes (v : ChatMessage) (widget : Widget)
    (chatbot : Chatbot) (w : World) :
  match resolveConversation v widget chatbot w with
  | (Returned (inl _), w1) => w1 = w
  | (Returned (inr conv), w1) =>
      exists cs, onlyAppends w w1 cs [] /\ (List.length cs <= 1)%nat /\
                 Forall (fun c => conversation_status c = ACTIVE) cs
  | (Thrown _, _) => False
  end.
Proof.
  unfold resolveConversation, conversation_create.
  destruct (conversationId v) as [id|]; [destruct (truthy id)|].
  - run_async. destruct (conversation_findUnique (db w) id) as [c|].
    + destruct (jsstring_eqb (conversation_tenantId c) (widget_tenantId widget));
        simpl; [|reflexivity].
      exists []. split; [apply onlyAppends_refl|]. split; [simpl; lia | constructor].
    + reflexivity.
  - run_async. destruct (rowDefaults (env w)) as [[newId createdAt] e1]; simpl.
    eexists [_].
    split; [unfold onlyAppends; simpl; rewrite app_nil_r; repeat split|].
    split; [simpl; lia | repeat constructor].
  - run_async. destruct (rowDefaults (env w)) as [[newId createdAt] e1]; simpl.
    eexists [_].
    split; [unfold onlyAppends; simpl; rewrite app_nil_r; repeat split|].
    split; [simpl; lia | repeat constructor].
Qed.

(** Everything the first part of the handler can have written, by
    outcome. *)
Lemma prepareTurn_writes (req : Request) (w : World) :
  match prepareTurn req w with
  | (out, w1) =>
      exists cs ms,
        onlyAppends w w1 cs ms /\ (List.length cs <= 1)%nat /\
        Forall (fun c => conversation_status c = ACTIVE) cs /\
        match out with
        | Returned (inl r) =>
            w1 = w /\ cs = [] /\ ms = [] /\ (status r = 404 \/ status r = 503) /\
            validBody (body req)
        | Returned (inr turn) =>
            ms = [turn_userMessage turn] /\ validBody (body req)
        | Thrown (ZodError issues) =>
            w1 = w /\ cs = [] /\ ms = [] /\ issues <> [] /\ ~ validBody (body req)
        | Thrown (Error msg) =>
            msg = lit "Cannot read properties of null" /\
            validBody (body req) /\
            exists m, ms = [m] /\ message_sender m = USER
        end
  end.
Proof.
  unfold prepareTurn.
  destruct (chatMessageSchema_parse_decides (body req) w)
    as [[Hvalid [v [Hp _]]] | [Hinvalid [issues [Hne Hp]]]].
  2: { rewrite (bind_thrown _ _ _ _ _ Hp). exists [], [].
       split; [apply onlyAppends_refl|]. split; [simpl; lia|].
       split; [constructor|]. auto. }
  rewrite (bind_returned _ _ _ _ _ Hp).
  rewrite (bind_returned getDb _ w w (db w) eq_refl).
  assert (Hrej : forall r, status r = 404 \/ status r = 503 ->
            exists cs ms,
              onlyAppends w w cs ms /\ (List.length cs <= 1)%nat /\
              Forall (fun c => conversation_status c = ACTIVE) cs /\
              w = w /\ cs = [] /\ ms = [] /\ (status r = 404 \/ status r = 503) /\
              validBody (body req)).
  { intros r Hr. exists [], []. split; [apply onlyAppends_refl|].
    split; [simpl; lia|]. split; [constructor|]. auto. }
  destruct (widget_findUnique (db w) (widgetId v)) as [widget|];
    [|apply Hrej; simpl; auto].
  destruct (widget_isActive widget); cbn [negb]; [|apply Hrej; simpl; auto].
  destruct (chatbot_findUnique (db w) (widget_chatbotId widget)) as [chatbot|];
    [|apply Hrej; simpl; auto].
  destruct (chatbot_isActive chatbot); cbn [negb]; [|apply Hrej; simpl; auto].
  pose proof (resolveConversation_writes v widget chatbot w) as Hr.
  pose proof (resolveConversation_cases v widget chatbot w) as Hr'.
  destruct (resolveConversation v widget chatbot w) as [[[r|conv]|e] w0] eqn:Er;
    [rewrite (bind_returned _ _ _ _ _ Er) .. | contradiction].
  - subst w0. destruct Hr' as [_ [-> _]]. apply Hrej. simpl. auto.
  - destruct Hr as [cs [[Ht [Hc [Hw [Hcv [Hm Hcalls]]]]] [Hlen Hact]]].
    unfold message_create. run_async.
    destruct (rowDefaults (env w0)) as [[newId createdAt] e1]; simpl.
    destruct (tenant_findUnique (db w) (widget_tenantId widget)) as [tenant|].
    + eexists cs, [_]. split.
      { unfold onlyAppends. simpl. rewrite Hm, app_nil_r. auto 10. }
      split; [exact Hlen|]. split; [exact Hact|]. simpl. auto.
    + eexists cs, [_]. split.
      { unfold onlyAppends. simpl. rewrite Hm, app_nil_r. auto 10. }
      split; [exact Hlen|]. split; [exact Hact|]. simpl.
      split; [reflexivity|]. split; [exact Hvalid|].
      eexists. split; reflexivity.
Qed.

(** The handler after its first part, outcome by outcome. *)
Lemma chatMessageHandler_cases (req : Request) (w : World) :
  match prepareTurn req w with
  | (Returned (inl r), w1) => chatMessageHandler req w = (Returned r, w1)
  | (Returned (inr _), _) => True
  | (Thrown (ZodError issues), w1) =>
      chatMessageHandler req w = (Returned (json 400 (InvalidData issues)), w1)
  | (Thrown (Error msg), w1) =>
      chatMessageHandler req w
        = (Returned (if includes msg limite then json 429 (UsageLimit msg)
                     else json 500 ProcessingError), w1)
  end.
Proof.
  destruct (prepareTurn req w) as [[[r|turn]|[issues|msg]] w1] eqn:Hprep;
    try exact I; unfold chatMessageHandler, try_catch.
  - now rewrite (bind_returned _ _ _ _ _ Hprep).
  - now rewrite (bind_thrown _ _ _ _ _ Hprep).
  - rewrite (bind_thrown _ _ _ _ _ Hprep). now destruct (includes msg limite).
Qed.

(** The handler when generation returns: the bot's message gets its id and
    time from the column defaults, and the answer carries them. *)
Lemma chatMessageHandler_returned (req : Request) (w w1 w2 : World)
    (turn : Turn) (ai : AIResponse) :
  prepareTurn req w = (Returned (inr turn), w1) ->
  generateResponse (message (turn_data turn)) (turn_context turn)
                   (turn_model turn) w1 = (Returned ai, w2) ->
  let defaults := fst (rowDefaults (env w2)) in
  let id := conversation_id (conversation (turn_conversation turn)) in
  let bot := {| message_id := fst defaults;
                message_content := response_content ai;
                message_sender := BOT;
                message_conversationId := id;
                message_createdAt := snd defaults |} in
  chatMessageHandler req w
    = (Returned (json 200 (Success id (message_id bot) (response_content ai)
                             (message_createdAt bot) (response_model ai)
                             (responseTime ai) (response_tokensUsed ai))),
       {| env := snd (rowDefaults (env w2));
          db := insertMessage bot (db w2);
          calls := calls w2 |}).
Proof.
  intros Hprep Hgen. unfold chatMessageHandler, try_catch.
  rewrite (bind_returned _ _ _ _ _ Hprep). cbv beta iota zeta.
  rewrite (bind_returned _ _ _ _ _ Hgen).
  unfold message_create. run_async.
  destruct (rowDefaults (env w2)) as [[newId createdAt] e1]. reflexivity.
Qed.

(** X3.  A request that fails validation (message absent, empty or longer
    than 1000 code units; widgetId absent or not a UUID; conversationId
    present and not a UUID) is answered 400 with the issues found, and the
    world is left as it was; a request that passes is never answered
    400. *)
Theorem invalid_request_rejected :
  forall (req : Request) (w : World),
    (~ validBody (body req) ->
     exists issues,
       issues <> [] /\
       chatMessageHandler req w = (Returned (json 400 (InvalidData issues)), w))
    /\
    (validBody (body req) ->
     forall r w', chatMessageHandler req w = (Returned r, w') -> status r <> 400).
Proof.
  intros req w.
  pose proof (prepareTurn_writes req w) as Hw.
  pose proof (chatMessageHandler_cases req w) as Hc.
  destruct (prepareTurn req w) as [[[r|turn]|[issues|msg]] w1] eqn:Hprep;
    destruct Hw as [cs [ms [_ [_ [_ Hw]]]]].
  - destruct Hw as [_ [_ [_ [Hs Hv]]]]. split; [contradiction|].
    intros _ r' w' Hrun. rewrite Hc in Hrun. injection Hrun as <- _.
    destruct Hs as [-> | ->]; discriminate.
  - destruct Hw as [_ Hv]. split; [contradiction|].
    intros _ r' w' Hrun.
    pose proof (chatMessageHandler_turn req w w1 turn Hprep) as Ht.
    destruct (generateResponse (message (turn_data turn)) (turn_context turn)
                (turn_model turn) w1) as [[ai|e] w2].
    + destruct Ht as [r [bot [w3 [Hh [Hs _]]]]].
      rewrite Hh in Hrun. injection Hrun as <- _. rewrite Hs. discriminate.
    + rewrite Ht in Hrun. injection Hrun as <- _. discriminate.
  - destruct Hw as [-> [_ [_ [Hne Hv]]]]. split; [|contradiction].
    intros _. exists issues. auto.
  - destruct Hw as [-> [Hv _]]. split; [contradiction|].
    intros _ r' w' Hrun. rewrite Hc in Hrun. injection Hrun as <- _.
    discriminate.
Qed.

(** X4.  A turn never changes or removes a row.  It leaves tenants,
    chatbots and widgets alone, appends at most one conversation, which is
    ACTIVE, and appends either no message, or the user's message, or the
    user's message followed by the bot's; it answers 200 exactly in the
    last case. *)
Theorem turn_writes :
  forall (req : Request) (w : World),
    exists (r : HttpResponse) (w' : World)
           (cs : list Conversation) (ms : list Message),
      chatMessageHandler req w = (Returned r, w') /\
      tenants (db w') = tenants (db w) /\
      chatbots (db w') = chatbots (db w) /\
      widgets (db w') = widgets (db w) /\
      conversations (db w') = conversations (db w) ++ cs /\
      (List.length cs <= 1)%nat /\
      Forall (fun c => conversation_status c = ACTIVE) cs /\
      messages (db w') = messages (db w) ++ ms /\
      (ms = [] \/
       (exists u, ms = [u] /\ message_sender u = USER) \/
       (exists u b, ms = [u; b] /\ message_sender u = USER /\ message_sender b = BOT)) /\
      (status r = 200 <-> List.length ms = 2%nat).
Proof.
  intros req w.
  pose proof (prepareTurn_writes req w) as Hw.
  pose proof (chatMessageHandler_cases req w) as Hc.
  destruct (prepareTurn req w) as [[[r|turn]|[issues|msg]] w1] eqn:Hprep;
    destruct Hw as [cs [ms [[Ht [Hb [Hwi [Hcv [Hm Hcalls]]]]] [Hlen [Hact Hw]]]]].
  - destruct Hw as [_ [_ [-> [Hs _]]]].
    exists r, w1, cs, []. repeat split; auto.
    + intros H200. destruct Hs as [Hs | Hs]; rewrite Hs in H200; discriminate.
    + discriminate.
  - destruct Hw as [-> _].
    pose proof (chatMessageHandler_turn req w w1 turn Hprep) as Hturn.
    pose proof (generateResponse_effects (message (turn_data turn))
                  (turn_context turn) (turn_model turn) w1) as Hgen.
    pose proof (prepareTurn_cases req w) as Hreached. rewrite Hprep in Hreached.
    destruct Hreached as [widget [tenant Hreached]]. cbv zeta in Hreached.
    destruct Hreached as [_ [_ [_ [_ [_ [_ [_ [Hsender _]]]]]]]].
    destruct (generateResponse (message (turn_data turn)) (turn_context turn)
                (turn_model turn) w1) as [[ai|e] w2] eqn:Eg;
      destruct Hgen as [Hdb _].
    + pose proof (chatMessageHandler_returned req w w1 w2 turn ai Hprep Eg) as Hh.
      cbv zeta in Hh.
      eexists. eexists. exists cs. eexists [turn_userMessage turn; _].
      split; [exact Hh|]. simpl. rewrite Hdb.
      split; [exact Ht|]. split; [exact Hb|]. split; [exact Hwi|].
      split; [exact Hcv|]. split; [exact Hlen|]. split; [exact Hact|].
      split; [rewrite Hm, <- app_assoc; reflexivity|].
      split.
      { right. right. eexists. eexists. split; [reflexivity|]. auto. }
      split; reflexivity.
    + exists (json 500 ProcessingError), w2, cs, [turn_userMessage turn].
      split; [exact Hturn|]. rewrite Hdb.
      split; [exact Ht|]. split; [exact Hb|]. split; [exact Hwi|].
      split; [exact Hcv|]. split; [exact Hlen|]. split; [exact Hact|].
      split; [exact Hm|]. split.
      { right. left. exists (turn_userMessage turn). auto. }
      split; discriminate.
  - destruct Hw as [_ [_ [-> _]]].
    exists (json 400 (InvalidData issues)), w1, cs, [].
    repeat split; auto; discriminate.
  - destruct Hw as [-> [_ [m [-> Hs]]]].
    exists (json 500 ProcessingError), w1, cs, [m].
    split; [exact Hc|]. repeat split; auto; try discriminate.
    right. left. exists m. auto.
Qed.

(** X5.  Whenever the route answers with a status other than 200 and 500
    (400, 403, 404, 429, 503), nothing was written to the database and no
    provider was invoked. *)
Theorem rejected_request_writes_nothing :
  forall (req : Request) (w w' : World) (r : HttpResponse),
    postMessage req w = (Returned r, w') ->
    status r <> 200 -> status r <> 500 ->
    db w' = db w /\ calls w' = calls w.
Proof.
  intros req w w' r Hrun H200 H500.
  destruct (rateLimited (env w)) as [[|] e1] eqn:Hrate.
  - revert Hrun. unfold postMessage. simpl. unfold tenantCors, chatLimiter.
    cbv beta iota zeta delta [bind ret external]. rewrite Hrate.
    intros [= _ <-]. auto.
  - destruct (postMessage_steps req w e1 Hrate)
      as [[r1 [H1 _]]
         | [widget [tenant [_ [[_ [r1 [H1 _]]] | [_ H1]]]]]];
      rewrite H1 in Hrun.
    + injection Hrun as _ <-. auto.
    + injection Hrun as _ <-. auto.
    + set (req' := {| body := body req; tenantId := Some (tenant_id tenant) |}) in *.
      set (w1 := {| env := e1; db := db w; calls := calls w |}) in *.
      change (db w) with (db w1). change (calls w) with (calls w1).
      pose proof (prepareTurn_writes req' w1) as Hw.
      pose proof (chatMessageHandler_cases req' w1) as Hc.
      destruct (prepareTurn req' w1) as [[[r0|turn]|[issues|msg]] w2] eqn:Hprep;
        destruct Hw as [cs [ms [_ [_ [_ Hw]]]]].
      * destruct Hw as [-> _]. rewrite Hc in Hrun. injection Hrun as _ <-. auto.
      * exfalso.
        pose proof (chatMessageHandler_turn req' w1 w2 turn Hprep) as Ht.
        destruct (generateResponse (message (turn_data turn)) (turn_context turn)
                    (turn_model turn) w2) as [[ai|e] w3].
        -- destruct Ht as [r2 [bot [w4 [Hh [Hs _]]]]].
           rewrite Hh in Hrun. injection Hrun as <- _. contradiction.
        -- rewrite Ht in Hrun. injection Hrun as <- _. now apply H500.
      * destruct Hw as [-> _]. rewrite Hc in Hrun. injection Hrun as _ <-. auto.
      * exfalso. destruct Hw as [-> _]. rewrite Hc in Hrun.
        injection Hrun as <- _. now apply H500.
Qed.

(** X6.  When a turn has reached the AI call and generation returns, the
    handler answers 200 with the conversation id, the bot message's id and
    time, and the content, model, response time and token count of the AI
    response; the conversation's messages are the ones it had, then the
    user's message, then the bot's, whose content is the AI's. *)
Theorem successful_turn :
  forall (req : Request) (w w1 w2 : World) (turn : Turn) (ai : AIResponse),
    prepareTurn req w = (Returned (inr turn), w1) ->
    generateResponse (message (turn_data turn)) (turn_context turn)
                     (turn_model turn) w1 = (Returned ai, w2) ->
    let id := conversation_id (conversation (turn_conversation turn)) in
    exists (bot : Message) (w3 : World),
      chatMessageHandler req w
        = (Returned (json 200 (Success id (message_id bot) (response_content ai)
                                 (message_createdAt bot) (response_model ai)
                                 (responseTime ai) (response_tokensUsed ai))),
           w3) /\
      message_sender bot = BOT /\
      message_content bot = response_content ai /\
      messages (db w3) = messages (db w) ++ [turn_userMessage turn; bot] /\
      messagesOf (db w3) id = messagesOf (db w) id ++ [turn_userMessage turn; bot] /\
      conversations (db w3) = conversations (db w1).
Proof.
  intros req w w1 w2 turn ai Hprep Hgen id.
  pose proof (chatMessageHandler_returned req w w1 w2 turn ai Hprep Hgen) as Hh.
  cbv zeta in Hh. fold id in Hh.
  pose proof (generateResponse_effects (message (turn_data turn))
                (turn_context turn) (turn_model turn) w1) as He.
  rewrite Hgen in He. destruct He as [Hdb _].
  pose proof (prepareTurn_cases req w) as Hc. rewrite Hprep in Hc.
  destruct Hc as [widget [tenant Hc]]. cbv zeta in Hc.
  destruct Hc as [_ [_ [_ [_ [_ [_ [Hm [_ [_ [Hconv _]]]]]]]]]].
  fold id in Hconv.
  eexists. eexists. split; [exact Hh|]. simpl.
  assert (Hall : messages (db w2) ++
                 [{| message_id := fst (fst (rowDefaults (env w2)));
                     message_content := response_content ai;
                     message_sender := BOT;
                     message_conversationId := id;
                     message_createdAt := snd (fst (rowDefaults (env w2))) |}]
                 = messages (db w) ++
                   [turn_userMessage turn;
                    {| message_id := fst (fst (rowDefaults (env w2)));
                       message_content := response_content ai;
                       message_sender := BOT;
                       message_conversationId := id;
                       message_createdAt := snd (fst (rowDefaults (env w2))) |}]).
  { rewrite Hdb, Hm, <- app_assoc. reflexivity. }
  split; [reflexivity|]. split; [reflexivity|]. split; [exact Hall|].
  split; [|now rewrite Hdb].
  unfold messagesOf. simpl. rewrite Hall, filter_app. simpl.
  rewrite Hconv, jsstring_eqb_refl. reflexivity.
Qed.

(** The models [generateResponse] invokes, in order. *)
Lemma generateResponse_models (message : jsstring) (context : ChatContext)
    (model : AIModel) (w : World) :
  exists invocations,
    calls (snd (generateResponse message context model w)) = calls w ++ invocations /\
    (map call_model invocations = [model] \/
     (model <> gpt_4 /\ map call_model invocations = [model; gpt_4])).
Proof.
  rewrite generateResponse_body.
  pose proof (dispatch_invokes message context model (Date_now (env w)) w) as H1.
  destruct (dispatch message context model (Date_now (env w)) w) as [[r|e] w1].
  - destruct H1 as [Hc _]. eexists. split; [exact Hc|]. left. reflexivity.
  - destruct H1 as [Hc1 _]. destruct (AIModel_eqb model gpt_4) eqn:Em.
    + eexists. split; [exact Hc1|]. left. reflexivity.
    + rewrite generateResponse_body. simpl.
      pose proof (dispatch_invokes message context gpt_4 (Date_now (env w1)) w1) as H2.
      destruct (dispatch message context gpt_4 (Date_now (env w1)) w1) as [[r|e2] w2];
        destruct H2 as [Hc2 _].
      * eexists. split; [simpl; rewrite Hc2, Hc1, <- app_assoc; reflexivity|].
        right. split; [intros ->; discriminate | reflexivity].
      * eexists. split; [simpl; rewrite Hc2, Hc1, <- app_assoc; reflexivity|].
        right. split; [intros ->; discriminate | reflexivity].
Qed.

(** The provider invocations of the handler. *)
Lemma chatMessageHandler_models (req : Request) (w : World) :
    exists invocations,
      calls (snd (chatMessageHandler req w)) = calls w ++ invocations /\
      Forall (fun c => body_message (body req) = Some (call_message c)) invocations /\
      (invocations = [] \/
       exists m wid widget tenant,
         body_message (body req) = Some m /\
         body_widgetId (body req) = Some wid /\
         widget_findUnique (db w) wid = Some widget /\
         tenant_findUnique (db w) (widget_tenantId widget) = Some tenant /\
         let model := selectModelForTenant (tenant_plan tenant) (detectComplexity m) in
         (map call_model invocations = [model] \/
          (model <> gpt_4 /\ map call_model invocations = [model; gpt_4]))).
Proof.
  pose proof (prepareTurn_writes req w) as Hw.
  pose proof (chatMessageHandler_cases req w) as Hc.
  destruct (prepareTurn req w) as [[[r|turn]|[issues|msg]] w1] eqn:Hprep;
    destruct Hw as [cs [ms [[_ [_ [_ [_ [_ Hcalls]]]]] _]]].
  - exists []. rewrite Hc. simpl. rewrite app_nil_r. auto.
  - pose proof (prepareTurn_cases req w) as Hreached. rewrite Hprep in Hreached.
    destruct Hreached as [widget [tenant Hreached]]. cbv zeta in Hreached.
    destruct Hreached as [Hparse [Hwidget [Htenant [_ [_ [_ [_ [_ [_ [_ [_ [_ Hmodel]]]]]]]]]]]].
    destruct (chatMessageSchema_parse_decides (body req) w)
      as [[_ [v [Hp [Hbm [Hbw _]]]]] | [_ [issues [_ Hp]]]];
      rewrite Hp in Hparse; [|discriminate].
    injection Hparse as Hv. subst v.
    pose proof (chatMessageHandler_turn req w w1 turn Hprep) as Hturn.
    pose proof (generateResponse_effects (message (turn_data turn))
                  (turn_context turn) (turn_model turn) w1) as Heff.
    destruct (generateResponse_models (message (turn_data turn))
                (turn_context turn) (turn_model turn) w1) as [invocations [Hci Hmodels]].
    destruct (generateResponse (message (turn_data turn)) (turn_context turn)
                (turn_model turn) w1) as [[ai|e] w2];
      destruct Heff as [_ [_ [invocations' [Hci' Hall]]]]; simpl in Hci;
      rewrite Hci in Hci'; apply app_inv_head in Hci'; subst invocations'.
    + destruct Hturn as [r [bot [w3 [Hh [_ [_ [_ [_ Hc3]]]]]]]].
      exists invocations. rewrite Hh. simpl.
      split; [now rewrite Hc3, Hci, Hcalls|]. split.
      { eapply Forall_impl; [|exact Hall]. intros c [Hmsg _].
        now rewrite Hmsg. }
      right. exists (message (turn_data turn)), (widgetId (turn_data turn)),
               widget, tenant.
      rewrite <- Hmodel. auto.
    + exists invocations. rewrite Hturn. simpl.
      split; [now rewrite Hci, Hcalls|]. split.
      { eapply Forall_impl; [|exact Hall]. intros c [Hmsg _].
        now rewrite Hmsg. }
      right. exists (message (turn_data turn)), (widgetId (turn_data turn)),
               widget, tenant.
      rewrite <- Hmodel. auto.
  - exists []. rewrite Hc. simpl. rewrite app_nil_r. auto.
  - exists []. rewrite Hc. destruct (includes msg limite); simpl;
      rewrite app_nil_r; auto.
Qed.

(** X7.  The providers a turn invokes.  Either none is invoked, or the
    request was valid, its widget and tenant were found, and the models
    invoked are the one selected from the tenant's plan and the message's
    tier, followed by gpt-4 at most once and only if the selected model is
    not gpt-4; each invocation carries the request's message. *)
Theorem turn_models :
  forall (req : Request) (w : World),
    exists invocations,
      calls (snd (chatMessageHandler req w)) = calls w ++ invocations /\
      Forall (fun c => body_message (body req) = Some (call_message c)) invocations /\
      (invocations = [] \/
       exists m wid widget tenant,
         body_message (body req) = Some m /\
         body_widgetId (body req) = Some wid /\
         widget_findUnique (db w) wid = Some widget /\
         tenant_findUnique (db w) (widget_tenantId widget) = Some tenant /\
         let model := selectModelForTenant (tenant_plan tenant) (detectComplexity m) in
         (map call_model invocations = [model] \/
          (model <> gpt_4 /\ map call_model invocations = [model; gpt_4]))).
Proof. exact chatMessageHandler_models. Qed.

(** X8.  For a tenant whose plan is not enterprise, a turn invokes no model
    other than gemini-pro and gpt-4: claude-3.5-sonnet and gpt-4-turbo are
    never called. *)
Theorem premium_models_enterprise_only :
  forall (req : Request) (w : World) (wid : jsstring)
         (widget : Widget) (tenant : Tenant),
    body_widgetId (body req) = Some wid ->
    widget_findUnique (db w) wid = Some widget ->
    tenant_findUnique (db w) (widget_tenantId widget) = Some tenant ->
    tenant_plan tenant <> lit "enterprise" ->
    exists invocations,
      calls (snd (chatMessageHandler req w)) = calls w ++ invocations /\
      Forall (fun c => call_model c = gemini_pro \/ call_model c = gpt_4) invocations.
Proof.
  intros req w wid widget tenant Hb Hw Ht Hplan.
  destruct (chatMessageHandler_models req w) as [invocations [Hc [_ Hm]]].
  exists invocations. split; [exact Hc|].
  destruct Hm as [-> | [m [wid' [widget' [tenant' [_ [Hb' [Hw' [Ht' Hm]]]]]]]]];
    [constructor|].
  rewrite Hb in Hb'. injection Hb' as <-.
  rewrite Hw in Hw'. injection Hw' as <-.
  rewrite Ht in Ht'. injection Ht' as <-.
  cbv zeta in Hm.
  assert (Hsel : forall c, selectModelForTenant (tenant_plan tenant) c = gemini_pro \/
                           selectModelForTenant (tenant_plan tenant) c = gpt_4).
  { intros c. unfold selectModelForTenant.
    rewrite (proj2 (jsstring_eqb_neq _ _) Hplan).
    destruct (jsstring_eqb (tenant_plan tenant) (lit "business"));
      [destruct c; simpl; auto|].
    destruct (jsstring_eqb (tenant_plan tenant) (lit "professional"));
      [destruct c; simpl; auto | simpl; auto]. }
  specialize (Hsel (detectComplexity m)).
  assert (Hmap : Forall (fun x => x = gemini_pro \/ x = gpt_4)
                        (map call_model invocations)).
  { destruct Hm as [-> | [_ ->]];
      repeat (apply Forall_cons || apply Forall_nil); auto. }
  rewrite Forall_map in Hmap. exact Hmap.
Qed.

(** X9.  A valid request to an active widget with an active chatbot that
    names an existing conversation of the widget's tenant always reaches
    the AI call, whatever the status of that conversation (ACTIVE, CLOSED,
    PENDING_TRANSFER): the user's message is stored in it, no conversation
    is created, and the context holds the chatbot's system prompt, the
    history, "Empresa: " followed by the tenant's name, and the request's
    metadata. *)
Theorem continuing_turn :
  forall (req : Request) (w : World) (v : ChatMessage) (widget : Widget)
         (chatbot : Chatbot) (tenant : Tenant) (id : jsstring) (c : Conversation),
    chatMessageSchema_parse (body req) w = (Returned v, w) ->
    widget_findUnique (db w) (widgetId v) = Some widget ->
    widget_isActive widget = true ->
    chatbot_findUnique (db w) (widget_chatbotId widget) = Some chatbot ->
    chatbot_isActive chatbot = true ->
    tenant_findUnique (db w) (widget_tenantId widget) = Some tenant ->
    conversationId v = Some id ->
    truthy id = true ->
    conversation_findUnique (db w) id = Some c ->
    conversation_tenantId c = widget_tenantId widget ->
    exists (turn : Turn) (w1 : World),
      prepareTurn req w = (Returned (inr turn), w1) /\
      conversation (turn_conversation turn) = c /\
      conversations (db w1) = conversations (db w) /\
      messages (db w1) = messages (db w) ++ [turn_userMessage turn] /\
      message_conversationId (turn_userMessage turn) = conversation_id c /\
      message_content (turn_userMessage turn) = message v /\
      turn_context turn
        = {| conversationHistory :=
               Some (conversationHistoryOf (includeMessages (db w) (conversation_id c)));
             systemPrompt := Some (chatbot_systemPrompt chatbot);
             companyInfo := Some (lit "Empresa: " ++ tenant_name tenant);
             userInfo := metadata v |} /\
      turn_model turn
        = selectModelForTenant (tenant_plan tenant) (detectComplexity (message v)).
Proof.
  intros req w v widget chatbot tenant id c Hp Hw Hwa Hc Hca Ht Hid Htr Hf Hten.
  assert (Hr : resolveConversation v widget chatbot w
               = (Returned (inr {| conversation := c;
                                   conversation_messages :=
                                     includeMessages (db w) (conversation_id c) |}), w)).
  { unfold resolveConversation. rewrite Hid, Htr. run_async. rewrite Hf.
    apply jsstring_eqb_eq in Hten. rewrite Hten. reflexivity. }
  unfold prepareTurn.
  rewrite (bind_returned _ _ _ _ _ Hp).
  rewrite (bind_returned getDb _ w w (db w) eq_refl).
  rewrite Hw, Hwa, Hc, Hca. cbn [negb].
  rewrite (bind_returned _ _ _ _ _ Hr).
  unfold message_create. run_async.
  destruct (rowDefaults (env w)) as [[newId createdAt] e1]. cbn [fst snd].
  rewrite Ht. eexists. eexists. split; [reflexivity|]. simpl. auto 10.
Qed.

(** X10.  A valid request to an active widget with an active chatbot that
    names no conversation creates one and reaches the AI call with it.  The
    new conversation is ACTIVE and bound to the widget, its tenant and its
    chatbot; its user id is the one supplied or, when that is absent or
    empty, "anonymous_" followed by the current time in milliseconds; and
    the user's message is stored in it. *)
Theorem new_conversation_turn :
  forall (req : Request) (w : World) (v : ChatMessage) (widget : Widget)
         (chatbot : Chatbot) (tenant : Tenant),
    chatMessageSchema_parse (body req) w = (Returned v, w) ->
    widget_findUnique (db w) (widgetId v) = Some widget ->
    widget_isActive widget = true ->
    chatbot_findUnique (db w) (widget_chatbotId widget) = Some chatbot ->
    chatbot_isActive chatbot = true ->
    tenant_findUnique (db w) (widget_tenantId widget) = Some tenant ->
    conversationId v = None ->
    exists (turn : Turn) (w1 : World),
      prepareTurn req w = (Returned (inr turn), w1) /\
      let c := conversation (turn_conversation turn) in
      conversations (db w1) = conversations (db w) ++ [c] /\
      conversation_id c = fst (fst (rowDefaults (env w))) /\
      conversation_createdAt c = snd (fst (rowDefaults (env w))) /\
      conversation_status c = ACTIVE /\
      conversation_tenantId c = widget_tenantId widget /\
      conversation_widgetId c = Some (widget_id widget) /\
      conversation_chatbotId c = Some (chatbot_id chatbot) /\
      conversation_userId c
        = Some (match userId v with
                | Some (x :: u) => x :: u
                | _ => lit "anonymous_" ++ numberToString (Date_now (env w))
                end) /\
      messages (db w1) = messages (db w) ++ [turn_userMessage turn] /\
      message_conversationId (turn_userMessage turn) = conversation_id c /\
      message_sender (turn_userMessage turn) = USER.
Proof.
  intros req w v widget chatbot tenant Hp Hw Hwa Hc Hca Ht Hid.
  unfold prepareTurn.
  rewrite (bind_returned _ _ _ _ _ Hp).
  rewrite (bind_returned getDb _ w w (db w) eq_refl).
  rewrite Hw, Hwa, Hc, Hca. cbn [negb].
  unfold resolveConversation, conversation_create, message_create.
  rewrite Hid. run_async.
  destruct (rowDefaults (env w)) as [[newId createdAt] e1]. cbn [fst snd env db calls].
  destruct (rowDefaults e1) as [[newId' createdAt'] e2]. cbn [fst snd env db calls].
  rewrite Ht. eexists. eexists. split; [reflexivity|]. simpl.
  repeat split.
  destruct (userId v) as [[|x u]|]; reflexivity.
Qed.

(** ** The usage limiter, further *)

(** X11.  [checkUsageLimits] for a tenant that exists: with a stored limit
    above zero that the month's count has reached it answers 429 with the
    count and the limit; otherwise it passes the request on.  It never
    writes.  For ['agents'] it always passes the request on, because
    [checkTenantLimits] reports nothing about agents. *)
Theorem checkUsageLimits_decides :
  forall (limitType : LimitType) (req : Request) (w : World)
         (id : jsstring) (tenant : Tenant),
    tenantId req = Some id ->
    tenant_findUnique (db w) id = Some tenant ->
    let u := usedSince (db w) id (startOfMonth (Date_now (env w))) limitType in
    (forall l, storedLimit tenant limitType = Some l -> 0 < l -> l <= u ->
       checkUsageLimits limitType req w
         = (Returned (Respond (json 429
              (LimitReached (Limite ++ lit " de " ++ limitTypeName limitType
                                    ++ lit " alcanzado") u l))), w)) /\
    ((forall l, storedLimit tenant limitType = Some l -> l <= 0 \/ u < l) ->
       checkUsageLimits limitType req w = (Returned (Next req), w)) /\
    (limitType = agents_limit ->
       checkUsageLimits limitType req w = (Returned (Next req), w)).
Proof.
  intros limitType req w id tenant Hid Hfind u.
  unfold checkUsageLimits, checkTenantLimits. rewrite Hid. run_async.
  rewrite Hfind. subst u.
  destruct limitType; cbn [limitOf limits_of_conversations limits_of_messages
                           exceeded used limit storedLimit usedSince].
  - split; [|split; [|discriminate]].
    + intros l Hl Hpos Hreach. rewrite Hl. simpl.
      destruct (Z.ltb_spec 0 l); [|lia].
      destruct (Z.leb_spec l (conversation_count (db w) id
                                (startOfMonth (Date_now (env w))))); [|lia].
      reflexivity.
    + intros Hnot. destruct (limits_conversations (tenant_limits tenant)) as [l|];
        simpl; [|reflexivity].
      destruct (Hnot l eq_refl) as [Hle | Hlt].
      * destruct (Z.ltb_spec 0 l); [lia | reflexivity].
      * destruct (Z.ltb_spec 0 l); simpl; [|reflexivity].
        destruct (Z.leb_spec l (conversation_count (db w) id
                                  (startOfMonth (Date_now (env w))))); [lia|].
        reflexivity.
  - split; [|split; [|discriminate]].
    + intros l Hl Hpos Hreach. rewrite Hl. simpl.
      destruct (Z.ltb_spec 0 l); [|lia].
      destruct (Z.leb_spec l (message_count (db w) id
                                (startOfMonth (Date_now (env w))))); [|lia].
      reflexivity.
    + intros Hnot. destruct (limits_messages (tenant_limits tenant)) as [l|];
        simpl; [|reflexivity].
      destruct (Hnot l eq_refl) as [Hle | Hlt].
      * destruct (Z.ltb_spec 0 l); [lia | reflexivity].
      * destruct (Z.ltb_spec 0 l); simpl; [|reflexivity].
        destruct (Z.leb_spec l (message_count (db w) id
                                  (startOfMonth (Date_now (env w))))); [lia|].
        reflexivity.
  - split; [discriminate|]. split; reflexivity.
Qed.

(** X12.  [checkUsageLimits] for a request without a tenant id, or whose
    tenant does not exist: the error is caught and the answer is 500, for
    every limit type, with nothing written. *)
Theorem checkUsageLimits_unknown_tenant :
  forall (limitType : LimitType) (req : Request) (w : World),
    (tenantId req = None \/
     exists id, tenantId req = Some id /\ tenant_findUnique (db w) id = None) ->
    checkUsageLimits limitType req w
      = (Returned (Respond (json 500 (JustError Error_verificando_limites))), w).
Proof.
  intros limitType req w [Hnone | [id [Hid Hfind]]];
    unfold checkUsageLimits, checkTenantLimits.
  - rewrite Hnone. reflexivity.
  - rewrite Hid. run_async. rewrite Hfind. reflexivity.
Qed.

Lemma filter_ext_in_length {A} (f g : A -> bool) (l : list A) :
  (forall a, In a l -> f a = g a) ->
  List.length (filter f l) = List.length (filter g l).
Proof.
  intros H. rewrite (filter_ext_in f g l H). reflexivity.
Qed.

(** X13.  The user's message counts against the tenant's usage as soon as
    it is stored, before the AI is called and whether or not it answers:
    when a turn that continues a conversation reaches the AI call, the
    tenant's count of messages since any instant not after the message's
    creation has gone up by one, and its count of conversations is what it
    was. *)
Theorem stored_message_counts :
  forall (req : Request) (w w1 : World) (turn : Turn) (id : jsstring) (since : Z),
    prepareTurn req w = (Returned (inr turn), w1) ->
    conversationId (turn_data turn) = Some id ->
    truthy id = true ->
    since <= message_createdAt (turn_userMessage turn) ->
    let t := conversation_tenantId (conversation (turn_conversation turn)) in
    conversation_count (db w1) t since = conversation_count (db w) t since /\
    message_count (db w1) t since = message_count (db w) t since + 1.
Proof.
  intros req w w1 turn id since Hprep Hid Htr Hsince t.
  pose proof (prepareTurn_cases req w) as Hc. rewrite Hprep in Hc.
  destruct Hc as [widget [tenant Hc]]. cbv zeta in Hc.
  destruct Hc as [_ [_ [_ [_ [Hsc [_ [Hm [_ [_ [Hconv _]]]]]]]]]].
  destruct Hsc as [[id' [Hid' [_ [Hfind Hcs]]]] | [Hno _]].
  2: { specialize (Hno id Hid). congruence. }
  rewrite Hid in Hid'. injection Hid' as <-.
  pose proof (conversation_findUnique_id _ _ _ Hfind) as Hcid.
  assert (Hlookup : forall x, conversation_findUnique (db w1) x
                              = conversation_findUnique (db w) x).
  { intros x. unfold conversation_findUnique. now rewrite Hcs. }
  split.
  - unfold conversation_count. now rewrite Hcs.
  - unfold message_count. rewrite Hm, filter_app, length_app.
    rewrite (filter_ext_in_length _
               (fun m => match conversation_findUnique (db w) (message_conversationId m) with
                         | Some c => jsstring_eqb (conversation_tenantId c) t
                         | None => false
                         end && (since <=? message_createdAt m))).
    2: { intros a _. now rewrite Hlookup. }
    cbn [filter]. rewrite Hlookup, Hconv, Hcid, Hfind.
    unfold t. rewrite jsstring_eqb_refl.
    destruct (Z.leb_spec since (message_createdAt (turn_userMessage turn))); [|lia].
    simpl. lia.
Qed.

End FurtherRouteProperties.

(** ** The plan tables *)

Section PlanProperties.

Context {X : Externals}.

(** X14.  For a plan name that is not one every object inherits,
    [getTenantLimits] gives a row of its table: starter's row when the name
    is none of the four plans.  Every row has limits above zero for
    conversations and messages, so for a tenant that stores such a row
    [checkTenantLimits] reports [exceeded] exactly when the count has
    reached the limit: no plan is unlimited in conversations or
    messages. *)
Theorem plan_limits_cap :
  forall plan : jsstring,
    ~ In plan objectPrototypeNames ->
    exists row,
      getTenantLimits plan = Row row /\
      0 < plan_conversations row /\ 0 < plan_messages row /\
      ((forall p : Plan, plan <> planName p) ->
       getTenantLimits plan = getTenantLimits (lit "starter")) /\
      forall (w : World) (id : jsstring) (tenant : Tenant),
        tenant_findUnique (db w) id = Some tenant ->
        tenant_limits tenant = storedAs row ->
        exists limits,
          checkTenantLimits id w = (Returned limits, w) /\
          exceeded (limits_of_conversations limits)
            = (plan_conversations row <=? used (limits_of_conversations limits)) /\
          exceeded (limits_of_messages limits)
            = (plan_messages row <=? used (limits_of_messages limits)).
Proof.
  intros plan Hnot.
  assert (Hcap : forall row,
            0 < plan_conversations row -> 0 < plan_messages row ->
            forall (w : World) (id : jsstring) (tenant : Tenant),
              tenant_findUnique (db w) id = Some tenant ->
              tenant_limits tenant = storedAs row ->
              exists limits,
                checkTenantLimits id w = (Returned limits, w) /\
                exceeded (limits_of_conversations limits)
                  = (plan_conversations row <=? used (limits_of_conversations limits)) /\
                exceeded (limits_of_messages limits)
                  = (plan_messages row <=? used (limits_of_messages limits))).
  { intros row Hc Hm w id tenant Hfind Hlim.
    unfold checkTenantLimits. run_async. rewrite Hfind, Hlim.
    eexists. split; [reflexivity|]. simpl.
    apply Z.ltb_lt in Hc, Hm. rewrite Hc, Hm. auto. }
  assert (Hproto : existsb (jsstring_eqb plan) objectPrototypeNames = false).
  { destruct (existsb (jsstring_eqb plan) objectPrototypeNames) eqn:E; [|reflexivity].
    exfalso. apply existsb_exists in E as [name [Hin Heq]].
    apply jsstring_eqb_eq in Heq. subst name. contradiction. }
  unfold getTenantLimits.
  destruct (jsstring_eqb plan (lit "starter")) eqn:E1.
  { eexists. split; [reflexivity|]. simpl.
    split; [lia|]. split; [lia|]. split; [reflexivity|].
    apply Hcap; simpl; lia. }
  destruct (jsstring_eqb plan (lit "professional")) eqn:E2.
  { eexists. split; [reflexivity|]. simpl.
    split; [lia|]. split; [lia|]. split.
    - intros H. apply jsstring_eqb_eq in E2. now destruct (H professional).
    - apply Hcap; simpl; lia. }
  destruct (jsstring_eqb plan (lit "business")) eqn:E3.
  { eexists. split; [reflexivity|]. simpl.
    split; [lia|]. split; [lia|]. split.
    - intros H. apply jsstring_eqb_eq in E3. now destruct (H business).
    - apply Hcap; simpl; lia. }
  destruct (jsstring_eqb plan (lit "enterprise")) eqn:E4.
  { eexists. split; [reflexivity|]. simpl.
    split; [lia|]. split; [lia|]. split.
    - intros H. apply jsstring_eqb_eq in E4. now destruct (H enterprise).
    - apply Hcap; simpl; lia. }
  rewrite Hproto.
  eexists. split; [reflexivity|]. simpl.
  split; [lia|]. split; [lia|]. split; [reflexivity|].
  apply Hcap; simpl; lia.
Qed.

End PlanProperties.

(** ** The requests the adapters build *)

Section RequestProperties.

Variable JSON_stringify : Metadata -> jsstring.

(** X15.  Whatever the provider, the request carries the history in its
    order and ends with the current message.  Claude's messages are one per
    history entry, with its content and its role, followed by the message
    as a user message, and none has the system role; OpenAI's messages are
    the same ones, preceded by one system message when the context's
    system prompt is not empty; Gemini's prompt begins with the system
    prompt and ends with "Usuario: ", the message, a line break and
    "Asistente:". *)
Theorem requests_end_with_the_message :
  forall (message : jsstring) (context : ChatContext),
    let claude := claude_messages (claudeRequest JSON_stringify message context) in
    (exists entries,
       claude = entries ++ [{| wire_role := role_user; wire_content := message |}] /\
       Forall2 (fun entry m =>
                  wire_content m = content entry /\
                  (role entry = user -> wire_role m = role_user) /\
                  (role entry = assistant -> wire_role m = role_assistant))
               (historyOf context) entries) /\
    Forall (fun m => wire_role m <> role_system) claude /\
    openAIMessages JSON_stringify message context
      = (if hasSystemPrompt context
         then [{| wire_role := role_system;
                  wire_content := buildSystemPrompt JSON_stringify context |}]
         else []) ++ claude /\
    (exists between,
       geminiPrompt JSON_stringify message context
         = buildSystemPrompt JSON_stringify context ++ between ++
           lit "Usuario: " ++ message ++ newline ++ lit "Asistente:").
Proof.
  intros message context claude.
  assert (Hmap : forall h : list HistoryEntry,
            Forall2 (fun entry m =>
                       wire_content m = content entry /\
                       (role entry = user -> wire_role m = role_user) /\
                       (role entry = assistant -> wire_role m = role_assistant))
                    h
                    (map (fun msg =>
                            {| wire_role := match role msg with
                                            | assistant => role_assistant
                                            | user => role_user
                                            end;
                               wire_content := content msg |}) h)).
  { induction h as [|e h IH]; simpl; constructor; [|exact IH].
    simpl. split; [reflexivity|]. split; intros ->; reflexivity. }
  assert (Hnosys : forall h : list HistoryEntry,
            Forall (fun m => wire_role m <> role_system)
                   (map (fun msg =>
                           {| wire_role := match role msg with
                                           | assistant => role_assistant
                                           | user => role_user
                                           end;
                              wire_content := content msg |}) h)).
  { induction h as [|e h IH]; simpl; constructor; [|exact IH].
    simpl. destruct (role e); discriminate. }
  subst claude. unfold claudeRequest, openAIMessages, geminiPrompt,
    hasSystemPrompt, historyOf. cbn [claude_messages].
  split; [|split; [|split]].
  - eexists. split; [reflexivity|].
    destruct (conversationHistory context) as [h|]; [apply Hmap | constructor].
  - apply Forall_app. split.
    + destruct (conversationHistory context) as [h|]; [apply Hnosys | constructor].
    + repeat constructor. discriminate.
  - destruct (conversationHistory context) as [h|];
      destruct (systemPrompt context) as [s|]; try destruct (truthy s);
      reflexivity.
  - destruct (conversationHistory context) as [h|]; cbv zeta.
    + exists (newline ++ newline ++
              lit "Historial de conversaci" ++ [243%N] ++ lit "n:" ++ newline ++
              flat_map (fun msg =>
                          match role msg with
                          | user => lit "Usuario"
                          | assistant => lit "Asistente"
                          end ++ lit ": " ++ content msg ++ newline) h ++
              newline).
      repeat rewrite <- app_assoc. reflexivity.
    + exists (newline ++ newline). repeat rewrite <- app_assoc. reflexivity.
Qed.

(** The system prompt, part by part. *)
Lemma buildSystemPrompt_parts (context : ChatContext) :
  buildSystemPrompt JSON_stringify context
  = match systemPrompt context with
    | Some s => if truthy s then s else defaultSystemPrompt
    | None => defaultSystemPrompt
    end ++
    match companyInfo context with
    | Some c => if truthy c then informacionDe "de la empresa: " ++ c else []
    | None => []
    end ++
    match userInfo context with
    | Some u => informacionDe "del usuario: " ++ JSON_stringify u
    | None => []
    end ++
    instrucciones.
Proof.
  unfold buildSystemPrompt. cbv zeta.
  set (ins := instrucciones). set (ie := informacionDe "de la empresa: ").
  set (iu := informacionDe "del usuario: "). set (dflt := defaultSystemPrompt).
  clearbody ins ie iu dflt.
  destruct (systemPrompt context) as [s|]; [destruct (truthy s)|];
  destruct (companyInfo context) as [c|]; [destruct (truthy c)| | destruct (truthy c)| | destruct (truthy c)|];
    destruct (userInfo context) as [u|];
    repeat rewrite <- app_assoc; reflexivity.
Qed.

(** X16.  With an empty or absent system prompt the adapters part ways:
    OpenAI is sent no system message at all, so neither the default prompt
    nor the company information reaches it, while Claude's system prompt
    begins with the default prompt and goes on with the company
    information when there is some; in every case the system prompt built
    ends with the block of instructions. *)
Theorem empty_system_prompt :
  forall (message : jsstring) (context : ChatContext),
    hasSystemPrompt context = false ->
    Forall (fun m => wire_role m <> role_system)
           (openAIMessages JSON_stringify message context) /\
    (exists rest,
       claude_system (claudeRequest JSON_stringify message context)
         = defaultSystemPrompt ++ rest ++ instrucciones) /\
    (forall company,
       companyInfo context = Some company -> truthy company = true ->
       exists rest,
         claude_system (claudeRequest JSON_stringify message context)
           = defaultSystemPrompt ++ informacionDe "de la empresa: " ++ company
             ++ rest ++ instrucciones).
Proof.
  intros message context Hno.
  unfold hasSystemPrompt in Hno.
  split; [|split].
  - unfold openAIMessages.
    apply Forall_app. split.
    + destruct (systemPrompt context) as [s|]; [rewrite Hno|]; constructor.
    + apply Forall_app. split.
      * destruct (conversationHistory context) as [h|]; [|constructor].
        induction h as [|e h IH]; cbn [map]; constructor; [|exact IH].
        cbn [wire_role]. destruct (role e); discriminate.
      * constructor; [cbn [wire_role]; discriminate | constructor].
  - unfold claudeRequest. cbn [claude_system].
    rewrite buildSystemPrompt_parts.
    destruct (systemPrompt context) as [s|]; [rewrite Hno|];
      eexists; apply f_equal; apply app_assoc.
  - intros company Hc Ht.
    unfold claudeRequest. cbn [claude_system].
    rewrite buildSystemPrompt_parts, Hc, Ht.
    destruct (systemPrompt context) as [s|]; [rewrite Hno|];
      repeat rewrite <- app_assoc; eexists; reflexivity.
Qed.

End RequestProperties.

(** ** The origin [tenantCors] allows *)

(** X17.  Without configured domains [tenantCors] allows every origin
    (["*"]).  With some, it echoes the request's Origin exactly when that
    is not empty and a configured domain occurs somewhere in the Origin or
    in the Referer; otherwise it sets no origin.  So a configured domain
    that occurs in the Referer admits any Origin. *)
Theorem corsAllowOrigin_decides :
  forall (allowedDomains : option (list jsstring)) (origin referer : option jsstring),
    ((allowedDomains = None \/ allowedDomains = Some []) ->
     corsAllowOrigin allowedDomains origin referer = Some (lit "*")) /\
    (forall l, allowedDomains = Some l -> l <> [] ->
       forall o,
         corsAllowOrigin allowedDomains origin referer = Some o <->
         origin = Some o /\ o <> [] /\
         exists domain, In domain l /\
           (occursIn domain o \/
            exists r, referer = Some r /\ occursIn domain r)).
Proof.
  intros allowedDomains origin referer. split.
  - intros [-> | ->]; reflexivity.
  - intros l -> Hne o. unfold corsAllowOrigin.
    destruct l as [|d l]; [contradiction|]. cbn [List.length Nat.eqb].
    set (ds := d :: l).
    destruct origin as [o'|].
    2: { split; [discriminate | intros [H _]; discriminate]. }
    assert (Hex : existsb (fun domain => headerIncludes (Some o') domain
                                          || headerIncludes referer domain) ds = true
                  <-> exists domain, In domain ds /\
                        (occursIn domain o' \/
                         exists r, referer = Some r /\ occursIn domain r)).
    { rewrite existsb_exists. split.
      - intros [dom [Hin H]]. exists dom. split; [exact Hin|].
        apply orb_true_iff in H as [H | H].
        + left. now apply includes_spec.
        + right. destruct referer as [r|]; [|discriminate].
          exists r. split; [reflexivity | now apply includes_spec].
      - intros [dom [Hin [H | [r [-> H]]]]]; exists dom; (split; [exact Hin|]);
          apply orb_true_iff.
        + left. now apply includes_spec.
        + right. now apply includes_spec. }
    destruct (existsb _ ds) eqn:E; simpl.
    + destruct o' as [|x o']; simpl.
      * split; [discriminate | intros [[= <-] [H _]]; contradiction].
      * split.
        -- intros [= <-]. split; [reflexivity|]. split; [discriminate|].
           now apply Hex.
        -- intros [[= <-] _]. reflexivity.
    + split; [discriminate|].
      intros [[= <-] [_ H]]. apply Hex in H. discriminate.
Qed.

(** ** The other chat routes *)

Section OtherRouteProperties.

Context {X : Externals}.

Variable welcomeMessageOf : Chatbot -> jsstring.
Variable healthCheck : Env -> bool * Env.

(** X18.  [POST /conversation] is not subject to the usage gate.  Every
    request that passes [validateWidgetAccess] and whose widget id is a UUID
    is answered 201 and inserts one ACTIVE conversation of the widget's
    tenant, however many conversations the tenant already has; the tenant's
    count of conversations since any instant not after the creation goes up
    by one.  No message is written and no provider invoked. *)
Theorem conversation_route_not_gated :
  forall (req : Request) (w : World) (widget : Widget) (tenant : Tenant)
         (id : jsstring),
    widgetAccess req (db w) widget tenant ->
    body_widgetId (body req) = Some id ->
    isUuid id = true ->
    exists (c : Conversation) (welcome : jsstring) (w' : World),
      postConversation welcomeMessageOf req w
        = (Returned (inr {| code := 201;
                            answer := ConversationCreated (conversation_id c) ACTIVE
                                        (conversation_createdAt c) welcome |}), w') /\
      db w' = insertConversation c (db w) /\
      calls w' = calls w /\
      conversation_status c = ACTIVE /\
      conversation_tenantId c = tenant_id tenant /\
      conversation_widgetId c = Some (widget_id widget) /\
      forall since, since <= conversation_createdAt c ->
        conversation_count (db w') (tenant_id tenant) since
          = conversation_count (db w) (tenant_id tenant) since + 1.
Proof.
  intros req w widget tenant id Hacc Hid Huuid.
  destruct (validateWidgetAccess_cases req w)
    as [[r [_ [_ Hno]]] | [widget' [tenant' [Hacc' Hv]]]];
    [exfalso; exact (Hno widget tenant Hacc)|].
  destruct (widgetAccess_unique _ _ _ _ _ _ Hacc Hacc') as [-> ->].
  destruct Hacc as [id' [Hid' [_ [Hw [Hwa [Ht _]]]]]].
  rewrite Hid in Hid'. injection Hid' as <-.
  pose proof (tenant_findUnique_id _ _ _ Ht) as Htid.
  unfold postConversation. simpl. unfold tenantCors.
  rewrite (bind_returned (ret (Next req)) _ w w (Next req) eq_refl).
  rewrite (bind_returned _ _ _ _ _ Hv).
  unfold createConversationHandler, conversationSchema_parse, conversation_create_for.
  cbn [body]. rewrite Hid, Huuid. run_async. cbn [fst snd env db calls].
  rewrite Hw, Hwa. cbn [negb].
  destruct (rowDefaults (env w)) as [[newId createdAt] e1]. cbn [fst snd env db calls].
  eexists. eexists. eexists. split; [reflexivity|]. cbn [db calls].
  split; [reflexivity|]. split; [reflexivity|]. split; [reflexivity|].
  cbn [conversation_tenantId conversation_widgetId conversation_createdAt].
  split; [symmetry; exact Htid|]. split; [reflexivity|].
  intros since Hsince. unfold conversation_count, insertConversation.
  cbn [conversations]. rewrite filter_app, length_app.
  cbn [filter conversation_tenantId conversation_createdAt].
  rewrite Htid, jsstring_eqb_refl.
  destruct (Z.leb_spec since createdAt); [|lia]. simpl. lia.
Qed.

Lemma updateFirst_lookup (id : jsstring) (f : Conversation -> Conversation)
    (l : list Conversation) (c : Conversation) :
  (forall x, conversation_id (f x) = conversation_id x) ->
  find (fun x => jsstring_eqb (conversation_id x) id) l = Some c ->
  find (fun x => jsstring_eqb (conversation_id x) id) (updateFirst id f l) = Some (f c) /\
  (forall id', id' <> id ->
     find (fun x => jsstring_eqb (conversation_id x) id') (updateFirst id f l)
     = find (fun x => jsstring_eqb (conversation_id x) id') l) /\
  List.length (updateFirst id f l) = List.length l.
Proof.
  intros Hf. induction l as [|x l IH]; cbn [find updateFirst]; [discriminate|].
  destruct (jsstring_eqb (conversation_id x) id) eqn:E.
  - intros [= <-]. cbn [find]. rewrite Hf, E. split; [reflexivity|].
    split; [|reflexivity].
    intros id' Hne.
    apply jsstring_eqb_eq in E. rewrite E.
    now rewrite (proj2 (jsstring_eqb_neq id id') (fun H => Hne (eq_sym H))).
  - intros Hfind. destruct (IH Hfind) as [H1 [H2 H3]]. cbn [find]. rewrite E.
    split; [exact H1|]. split; [|cbn [List.length]; now rewrite H3].
    intros id' Hne. rewrite (H2 id' Hne). reflexivity.
Qed.

(** X19.  [POST /transfer-to-human] for a conversation that exists,
    whatever its tenant and its status (a CLOSED one too): the answer is
    200, that conversation becomes PENDING_TRANSFER while its id, tenant,
    widget, chatbot, user id and creation time stay as they were, every
    other conversation is as it was, and one BOT message with the fixed
    text is appended to it.  No provider is invoked. *)
Theorem transfer_to_human :
  forall (req : Request) (w : World) (id : jsstring) (c : Conversation),
    body_conversationId (body req) = Some id ->
    truthy id = true ->
    conversation_findUnique (db w) id = Some c ->
    exists (c' : Conversation) (bot : Message) (w' : World),
      postTransferToHuman req w
        = (Returned (inr {| code := 200; answer := TransferRequested |}), w') /\
      conversation_findUnique (db w') id = Some c' /\
      conversation_status c' = PENDING_TRANSFER /\
      conversation_id c' = conversation_id c /\
      conversation_tenantId c' = conversation_tenantId c /\
      conversation_widgetId c' = conversation_widgetId c /\
      conversation_chatbotId c' = conversation_chatbotId c /\
      conversation_userId c' = conversation_userId c /\
      conversation_createdAt c' = conversation_createdAt c /\
      (forall id', id' <> id ->
         conversation_findUnique (db w') id' = conversation_findUnique (db w) id') /\
      List.length (conversations (db w')) = List.length (conversations (db w)) /\
      messages (db w') = messages (db w) ++ [bot] /\
      message_sender bot = BOT /\
      message_conversationId bot = id /\
      message_content bot
        = lit "Te estoy transfiriendo con un agente humano. Un momento por favor..." /\
      calls w' = calls w.
Proof.
  intros req w id c Hid Htr Hfind.
  pose proof (conversation_findUnique_id _ _ _ Hfind) as Hcid.
  destruct (updateFirst_lookup id (withStatus PENDING_TRANSFER)
              (conversations (db w)) c (fun x => eq_refl) Hfind) as [H1 [H2 H3]].
  unfold postTransferToHuman. simpl. unfold tenantCors.
  rewrite (bind_returned (ret (Next req)) _ w w (Next req) eq_refl).
  unfold transferToHumanHandler, conversation_update_status, message_create.
  rewrite Hid, Htr. cbn [negb]. run_async. rewrite Hfind. cbn [fst snd env db calls].
  destruct (rowDefaults (env w)) as [[newId createdAt] e1]. cbn [fst snd env db calls].
  exists (withStatus PENDING_TRANSFER c). eexists. eexists.
  split; [reflexivity|]. cbn [db calls].
  unfold conversation_findUnique, insertMessage, updateConversations.
  cbn [conversations messages message_sender message_conversationId
       message_content withStatus conversation_id].
  split; [exact H1|].
  do 7 (split; [reflexivity|]).
  split; [exact H2|]. split; [exact H3|].
  split; [reflexivity|]. split; [reflexivity|]. split; [exact Hcid|].
  split; reflexivity.
Qed.

(** X20.  [POST /transfer-to-human] without a conversation id, or with an
    empty one, is answered 400; with the id of no conversation it is
    answered 500, the update having failed before the message is created.
    In both cases the world is left as it was. *)
Theorem transfer_without_conversation :
  forall (req : Request) (w : World),
    ((body_conversationId (body req) = None \/
      body_conversationId (body req) = Some []) ->
     postTransferToHuman req w
       = (Returned (inr {| code := 400;
                           answer := AnswerError ID_de_conversacion_requerido |}), w)) /\
    (forall id,
       body_conversationId (body req) = Some id -> truthy id = true ->
       conversation_findUnique (db w) id = None ->
       postTransferToHuman req w
         = (Returned (inr {| code := 500;
                             answer := AnswerError
                                         (lit "Error procesando transferencia") |}), w)).
Proof.
  intros req w. split.
  - intros [H | H]; unfold postTransferToHuman; simpl; unfold tenantCors;
      rewrite (bind_returned (ret (Next req)) _ w w (Next req) eq_refl);
      unfold transferToHumanHandler; rewrite H; reflexivity.
  - intros id Hid Htr Hfind.
    unfold postTransferToHuman. simpl. unfold tenantCors.
    rewrite (bind_returned (ret (Next req)) _ w w (Next req) eq_refl).
    unfold transferToHumanHandler, conversation_update_status.
    rewrite Hid, Htr. cbn [negb]. run_async. rewrite Hfind. reflexivity.
Qed.

(** X21.  [GET /health] answers 200 and "healthy" exactly when the database
    check succeeds and the AI test returns, which it does as soon as
    gemini-pro or, after its failure, gpt-4 answers; otherwise it answers
    503 and "degraded".  Each check invokes gemini-pro once and, when that
    fails, gpt-4 once; it writes nothing. *)
Theorem health_check :
  forall w : World,
    let w0 := {| env := snd (healthCheck (env w)); db := db w; calls := calls w |} in
    let test := generateResponse (lit "test")
                  {| conversationHistory := None;
                     systemPrompt := Some (lit "Responde solo " ++ [34%N]
                                             ++ lit "ok" ++ [34%N]);
                     companyInfo := None; userInfo := None |}
                  gemini_pro w0 in
    let healthy := fst (healthCheck (env w))
                   && match fst test with Returned _ => true | Thrown _ => false end in
    exists (r : ChatResponse) (invocations : list ProviderCall),
      getHealth healthCheck w = (Returned r, snd test) /\
      code r = (if healthy then 200 else 503) /\
      (exists t database ai,
         answer r = Health (if healthy then lit "healthy" else lit "degraded")
                           t database ai) /\
      db (snd test) = db w /\
      calls (snd test) = calls w ++ invocations /\
      (map call_model invocations = [gemini_pro] \/
       map call_model invocations = [gemini_pro; gpt_4]).
Proof.
  intros w. cbv zeta.
  destruct (healthCheck (env w)) as [dbHealth e1] eqn:Eh. cbn [fst snd].
  set (w0 := {| env := e1; db := db w; calls := calls w |}).
  set (context := {| conversationHistory := None;
                     systemPrompt := Some (lit "Responde solo " ++ [34%N]
                                             ++ lit "ok" ++ [34%N]);
                     companyInfo := None; userInfo := None |}).
  destruct (generateResponse_models (lit "test") context gemini_pro w0)
    as [invocations [Hcalls Hmodels]].
  pose proof (generateResponse_effects (lit "test") context gemini_pro w0) as Heff.
  assert (Hrun : getHealth healthCheck w
                 = match generateResponse (lit "test") context gemini_pro w0 with
                   | (out, w2) =>
                       let aiHealth := match out with
                                       | Returned _ => true
                                       | Thrown _ => false
                                       end in
                       (Returned
                          {| code := if dbHealth && aiHealth then 200 else 503;
                             answer := Health
                               (if dbHealth && aiHealth
                                then lit "healthy" else lit "degraded")
                               (Date_now (env w2))
                               (if dbHealth then lit "up" else lit "down")
                               (if aiHealth then lit "up" else lit "down") |},
                        w2)
                   end).
  { unfold getHealth. run_async. rewrite Eh. fold w0. fold context.
    destruct (generateResponse (lit "test") context gemini_pro w0) as [[ai|e] w2];
      destruct dbHealth; reflexivity. }
  rewrite Hrun. clear Hrun.
  destruct (generateResponse (lit "test") context gemini_pro w0) as [out w2].
  cbn [fst snd] in *. destruct Heff as [Hdb _].
  eexists. exists invocations. split; [reflexivity|]. cbn [code answer].
  split; [reflexivity|]. split; [eauto|].
  split; [exact Hdb|]. split; [exact Hcalls|].
  destruct Hmodels as [H | [_ H]]; auto.
Qed.

End OtherRouteProperties.

(** ** Concrete runs, further *)

Lemma invalid_request_rejected_witness :
  exists issues,
    issues <> [] /\
    chatMessageHandler
      {| body := {| body_message := None; body_conversationId := None;
                    body_widgetId := Some (widget_id acmeWidget);
                    body_userId := None; body_metadata := None |};
         tenantId := None |} (sampleWorld [])
      = (Returned (json 400 (InvalidData issues)), sampleWorld []).
Proof.
  apply (proj1 (invalid_request_rejected _ (sampleWorld []))).
  intros [m [wid [H _]]]. discriminate.
Defined.

Lemma rejected_request_writes_nothing_witness :
  exists w' : World,
    snd (postMessage (chatRequest acmeWidget (Some globexConversation)) (sampleWorld []))
      = w' /\
    db w' = sampleDB /\ calls w' = [].
Proof.
  set (run := postMessage (chatRequest acmeWidget (Some globexConversation))
                (sampleWorld [])).
  let g := eval vm_compute in run in assert (G : run = g) by reflexivity.
  eexists. split; [rewrite G; reflexivity|].
  apply (rejected_request_writes_nothing _ (sampleWorld []) _ _ G); discriminate.
Defined.

Lemma successful_turn_witness :
  exists (r : HttpResponse) (w3 : World),
    chatMessageHandler (chatRequest acmeWidget (Some acmeConversation)) continuing
      = (Returned r, w3) /\
    status r = 200 /\
    List.length (messages (db w3)) = 4%nat.
Proof.
  pose proof continuingTurn_eq as E. unfold continuingTurn in E.
  match type of E with
  | _ = (Returned (inr ?t), ?w1) =>
      let g := eval vm_compute in
        (generateResponse (message (turn_data t)) (turn_context t) (turn_model t) w1) in
      assert (G : generateResponse (message (turn_data t)) (turn_context t)
                    (turn_model t) w1 = g) by reflexivity
  end.
  destruct (successful_turn _ _ _ _ _ _ E G) as [bot [w3 [H [_ [_ [Hm _]]]]]].
  eexists. exists w3. split; [exact H|]. split; [reflexivity|].
  rewrite Hm. reflexivity.
Defined.

Lemma premium_models_enterprise_only_witness :
  exists invocations,
    calls (snd (chatMessageHandler (chatRequest acmeWidget None) providersDown))
      = invocations /\
    Forall (fun c => call_model c = gemini_pro \/ call_model c = gpt_4) invocations.
Proof.
  destruct (premium_models_enterprise_only
              (chatRequest acmeWidget None) providersDown
              (widget_id acmeWidget) acmeWidget acme
              eq_refl eq_refl eq_refl)
    as [invocations [Hc Hall]]; [discriminate|].
  exists invocations. split; [exact Hc | exact Hall].
Defined.

Lemma continuing_turn_witness :
  exists (turn : Turn) (w1 : World),
    prepareTurn (chatRequest acmeWidget (Some acmeConversation)) continuing
      = (Returned (inr turn), w1) /\
    conversation (turn_conversation turn) = acmeConversation /\
    turn_model turn = gemini_pro.
Proof.
  destruct (continuing_turn
              (chatRequest acmeWidget (Some acmeConversation)) continuing
              (acmeMessage (Some acmeConversation)) acmeWidget acmeBot acme
              (conversation_id acmeConversation) acmeConversation
              eq_refl eq_refl eq_refl eq_refl eq_refl eq_refl eq_refl eq_refl
              eq_refl eq_refl)
    as [turn [w1 [H [Hc [_ [_ [_ [_ [_ Hm]]]]]]]]].
  exists turn, w1. split; [exact H|]. split; [exact Hc|]. rewrite Hm. reflexivity.
Defined.

Lemma new_conversation_turn_witness :
  exists (turn : Turn) (w1 : World),
    prepareTurn (chatRequest acmeWidget None) continuing
      = (Returned (inr turn), w1) /\
    conversation_userId (conversation (turn_conversation turn))
      = Some (lit "anonymous_1000").
Proof.
  destruct (new_conversation_turn
              (chatRequest acmeWidget None) continuing
              (acmeMessage None) acmeWidget acmeBot acme
              eq_refl eq_refl eq_refl eq_refl eq_refl eq_refl eq_refl)
    as [turn [w1 [H Hrest]]].
  cbv zeta in Hrest.
  destruct Hrest as [_ [_ [_ [_ [_ [_ [_ [Hu _]]]]]]]].
  exists turn, w1. split; [exact H|]. rewrite Hu. reflexivity.
Defined.

Lemma checkUsageLimits_decides_witness :
  checkUsageLimits messages_limit acmeGate (sampleWorld [])
    = (Returned (Respond (json 429
         (LimitReached (Limite ++ lit " de " ++ lit "messages" ++ lit " alcanzado")
                       2 1))), sampleWorld []) /\
  checkUsageLimits agents_limit acmeGate (sampleWorld [])
    = (Returned (Next acmeGate), sampleWorld []).
Proof.
  destruct (checkUsageLimits_decides messages_limit acmeGate (sampleWorld [])
              (lit "tenant-acme") acme eq_refl eq_refl) as [H _].
  destruct (checkUsageLimits_decides agents_limit acmeGate (sampleWorld [])
              (lit "tenant-acme") acme eq_refl eq_refl) as [_ [_ H']].
  split.
  - apply (H 1); [reflexivity | lia | vm_compute; discriminate].
  - apply H'. reflexivity.
Defined.

Lemma checkUsageLimits_unknown_tenant_witness :
  checkUsageLimits conversations_limit (chatRequest acmeWidget None) (sampleWorld [])
    = (Returned (Respond (json 500 (JustError Error_verificando_limites))),
       sampleWorld []).
Proof.
  apply checkUsageLimits_unknown_tenant. left. reflexivity.
Defined.

Lemma stored_message_counts_witness :
  exists (turn : Turn) (w1 : World),
    prepareTurn (chatRequest acmeWidget (Some acmeConversation)) continuing
      = (Returned (inr turn), w1) /\
    message_count (db w1) (lit "tenant-acme") 0 = 3.
Proof.
  pose proof continuingTurn_eq as E. unfold continuingTurn in E.
  eexists. eexists. split; [exact E|].
  destruct (stored_message_counts _ _ _ _ (conversation_id acmeConversation) 0 E
              eq_refl eq_refl) as [_ H]; [vm_compute; discriminate|].
  cbv zeta in H. exact H.
Defined.

Lemma plan_limits_cap_witness :
  exists row,
    getTenantLimits (lit "free") = Row row /\
    getTenantLimits (lit "free") = getTenantLimits (lit "starter").
Proof.
  destruct (plan_limits_cap (X := Scripted) (lit "free")) as [row [H [_ [_ [Hs _]]]]].
  - intros Hin. repeat (destruct Hin as [Hin | Hin]; [discriminate|]). exact Hin.
  - exists row. split; [exact H|]. apply Hs. intros []; discriminate.
Defined.

Lemma empty_system_prompt_witness :
  Forall (fun m => wire_role m <> role_system)
         (openAIMessages (fun _ => lit "{}") (lit "hi") noContext).
Proof.
  apply (empty_system_prompt (fun _ => lit "{}") (lit "hi") noContext).
  reflexivity.
Defined.

(** An origin that only holds an allowed domain inside a longer host name
    is echoed. *)
Lemma corsAllowOrigin_decides_witness :
  corsAllowOrigin (Some [lit "acme.com"])
                  (Some (lit "https://acme.com.example.net")) None
    = Some (lit "https://acme.com.example.net").
Proof.
  apply (proj2 (corsAllowOrigin_decides (Some [lit "acme.com"])
                  (Some (lit "https://acme.com.example.net")) None)
               [lit "acme.com"] eq_refl).
  - discriminate.
  - split; [reflexivity|]. split; [discriminate|].
    exists (lit "acme.com"). split; [now left|].
    left. exists (lit "https://"), (lit ".example.net"). reflexivity.
Defined.

(** Globex has reached its limit of one conversation, and gets another. *)
Lemma conversation_route_not_gated_witness :
  exists (c : Conversation) (welcome : jsstring) (w' : World),
    postConversation (fun _ => []) (chatRequest globexWidget None) (sampleWorld [])
      = (Returned (inr {| code := 201;
                          answer := ConversationCreated (conversation_id c) ACTIVE
                                      (conversation_createdAt c) welcome |}), w') /\
    conversation_count sampleDB (tenant_id globex) 0 = 1 /\
    conversation_count (db w') (tenant_id globex) 0 = 2.
Proof.
  destruct (conversation_route_not_gated (fun _ => [])
              (chatRequest globexWidget None) (sampleWorld [])
              globexWidget globex (widget_id globexWidget))
    as [c [welcome [w' [H [_ [_ [_ [_ [_ Hcount]]]]]]]]].
  - exists (widget_id globexWidget). repeat split.
  - reflexivity.
  - reflexivity.
  - exists c, welcome, w'. split; [exact H|]. split; [reflexivity|].
    assert (Hc : 0 <= conversation_createdAt c).
    { set (run := postConversation (fun _ => []) (chatRequest globexWidget None)
                    (sampleWorld [])) in H.
      let g := eval vm_compute in run in assert (G : run = g) by reflexivity.
      rewrite G in H. injection H; intros; lia. }
    rewrite (Hcount 0 Hc). reflexivity.
Defined.

Lemma transfer_to_human_witness :
  exists (c' : Conversation) (w' : World),
    postTransferToHuman (transferRequest (Some globexConversation)) (sampleWorld [])
      = (Returned (inr {| code := 200; answer := TransferRequested |}), w') /\
    conversation_findUnique (db w') (conversation_id globexConversation) = Some c' /\
    conversation_status c' = PENDING_TRANSFER /\
    conversation_tenantId c' = lit "tenant-globex".
Proof.
  destruct (transfer_to_human (transferRequest (Some globexConversation))
              (sampleWorld []) (conversation_id globexConversation)
              globexConversation eq_refl eq_refl eq_refl)
    as [c' [bot [w' [H [Hf [Hs [_ [Ht _]]]]]]]].
  exists c', w'. split; [exact H|]. split; [exact Hf|]. split; [exact Hs|].
  rewrite Ht. reflexivity.
Defined.

Lemma transfer_without_conversation_witness :
  postTransferToHuman (transferRequest None) (sampleWorld [])
    = (Returned (inr {| code := 400;
                        answer := AnswerError ID_de_conversacion_requerido |}),
       sampleWorld []).
Proof.
  apply (proj1 (transfer_without_conversation (transferRequest None) (sampleWorld []))).
  left. reflexivity.
Defined.
